(** * LitRPG Logic Copilot: the ledger core, embedded in Rocq

    A shallow embedding of [src/logic]: the decimal arithmetic the engines run
    on, the unit registry, the formula engine, the temporal (buff) state, the
    rule engine and the event-sourced ledger engine, followed by the
    properties of the specification that were checked against them.

    Conventions of the embedding.
    - Python text is an ASCII [string]; bytes above 127 (UTF-8 of non-ASCII
      letters) are carried along as word characters.
    - A Python [Decimal] is a finite decimal [coeff * 10 ^ exp], and its
      arithmetic rounds half-even to the 50 significant digits that
      [unit_registry.py] configures.  The exponent is unbounded (the limits
      of the decimal context, at exponents of about a million, are not
      modelled), a zero has no sign, and a text that spells an infinity or
      NaN counts as no number.
    - A dictionary whose iteration order is observable is an association list
      in insertion order ([odict]); an event is a [gmap] from key to value.
    - A Python exception is a value [exn]; a function that can raise returns
      a [result].  Objects that the source mutates in place (the events under
      replay, the temporal state, the dirty flags) are threaded explicitly and
      returned also when an exception is raised.
    - The save file is what [json.load] reads from it ([SaveFile]); the
      serialized buffs and rules are records with the keys that [to_dict]
      writes.  Reading and writing the file itself are not modelled. *)

From Stdlib Require Import ZArith String Ascii List Bool Lia QArith Sorted.
From Stdlib Require Import DecimalString DecimalNat DecimalPos DecimalZ.
From stdpp Require Import gmap strings list.

Local Open Scope string_scope.
Local Open Scope Z_scope.

#[local] Set Warnings "-register-all".

(** ** Exceptions and results *)

Inductive exn_class :=
| ValueError | KeyError | TypeError | AttributeError
| ZeroDivisionError | InvalidOperation | DivisionByZero | EvalError.

Record exn := Raise { exn_cls : exn_class; exn_msg : string }.

Inductive result (A : Type) :=
| Ok (a : A)
| Err (e : exn).
Arguments Ok {A} a.
Arguments Err {A} e.

Definition is_ok {A} (r : result A) : bool :=
  match r with Ok _ => true | Err _ => false end.

(** ** Python strings *)

Module PyStr.

Definition code (c : ascii) : nat := nat_of_ascii c.

Definition between (lo hi : nat) (c : ascii) : bool :=
  Nat.leb lo (code c) && Nat.leb (code c) hi.

Definition is_digit (c : ascii) : bool := between 48 57 c.
Definition is_upper (c : ascii) : bool := between 65 90 c.
Definition is_lower (c : ascii) : bool := between 97 122 c.
Definition is_alpha (c : ascii) : bool := is_upper c || is_lower c.
Definition is_high (c : ascii) : bool := Nat.leb 128 (code c).
(** [\s] on ASCII: space, \t \n \v \f \r and the separators 28..31. *)
Definition is_space (c : ascii) : bool :=
  Nat.eqb (code c) 32 || between 9 13 c || between 28 31 c.
(** [\w]: letters, digits, underscore; non-ASCII bytes count as letters. *)
Definition is_word (c : ascii) : bool :=
  is_alpha c || is_digit c || Nat.eqb (code c) 95 || is_high c.

Definition lower_char (c : ascii) : ascii :=
  if is_upper c then ascii_of_nat (code c + 32) else c.
Definition upper_char (c : ascii) : ascii :=
  if is_lower c then ascii_of_nat (code c - 32) else c.

Fixpoint map_chars (f : ascii -> ascii) (s : string) : string :=
  match s with
  | EmptyString => EmptyString
  | String c r => String (f c) (map_chars f r)
  end.

Fixpoint filter_chars (p : ascii -> bool) (s : string) : string :=
  match s with
  | EmptyString => EmptyString
  | String c r => if p c then String c (filter_chars p r) else filter_chars p r
  end.

(** [s.lower()], [s.upper()] *)
Definition lower : string -> string := map_chars lower_char.
Definition upper : string -> string := map_chars upper_char.

(** [s.replace(c, '')] for a one-character [c] *)
Definition remove_char (c : ascii) : string -> string :=
  filter_chars (fun d => negb (Ascii.eqb c d)).

(** [sub in s] *)
Fixpoint contains (sub s : string) : bool :=
  String.prefix sub s ||
  match s with
  | EmptyString => false
  | String _ r => contains sub r
  end.

(** [sep.join(l)] *)
Fixpoint join (sep : string) (l : list string) : string :=
  match l with
  | [] => ""
  | [x] => x
  | x :: r => x ++ sep ++ join sep r
  end.

Fixpoint repeat_char (c : ascii) (n : nat) : string :=
  match n with O => "" | S k => String c (repeat_char c k) end.

(** [str(n)] for an int *)
Definition of_Z (n : Z) : string := NilZero.string_of_int (Z.to_int n).

(** [f"{n:03d}"] for a non-negative int *)
Definition pad3 (n : Z) : string :=
  let s := of_Z n in
  repeat_char "0" (3 - String.length s)%nat ++ s.

(** The longest prefix of [s] made of characters satisfying [p], and the
    rest. *)
Fixpoint span (p : ascii -> bool) (s : string) : string * string :=
  match s with
  | EmptyString => ("", "")
  | String c r =>
      if p c then let '(a, b) := span p r in (String c a, b) else ("", s)
  end.

Definition strip_left (s : string) : string := snd (span is_space s).
Definition rev (s : string) : string :=
  string_of_list_ascii (List.rev (list_ascii_of_string s)).
(** [s.strip()] *)
Definition strip (s : string) : string := rev (strip_left (rev (strip_left s))).

(** The value of a string of decimal digits. *)
Fixpoint digits_value (acc : Z) (s : string) : Z :=
  match s with
  | EmptyString => acc
  | String c r => digits_value (10 * acc + Z.of_nat (code c - 48)) r
  end.

Definition all_digits (s : string) : bool :=
  String.eqb (filter_chars is_digit s) s.

(** [s.split(sep)] for a one-character [sep] *)
Fixpoint split (sep : ascii) (s : string) : list string :=
  match s with
  | EmptyString => [""]
  | String c r =>
      if Ascii.eqb c sep then "" :: split sep r
      else
        match split sep r with
        | x :: l => String c x :: l
        | [] => [String c ""]
        end
  end.

(** The digits of an int numeral, where single underscores may stand
    between digits. *)
Fixpoint int_body (after_digit : bool) (s : string) : bool :=
  match s with
  | EmptyString => after_digit
  | String c r =>
      if is_digit c then int_body true r
      else Ascii.eqb c "_" && after_digit && int_body false r
  end.

(** [int(s)] for a str of ASCII characters: [None] is the ValueError. *)
Definition to_int (s : string) : option Z :=
  let s := strip s in
  let '(neg, body) :=
    match s with
    | String "-" r => (true, r)
    | String "+" r => (false, r)
    | _ => (false, s)
    end in
  if int_body false body then
    let n := digits_value 0 (remove_char "_" body) in
    Some (if neg then - n else n)
  else None.

End PyStr.

(** ** Python [Decimal] *)

Module PyDecimal.

(** The finite decimal [coeff * 10 ^ exp]. *)
Record t := mk { coeff : Z; exp : Z }.

(** [getcontext().prec = 50], which [unit_registry.py] sets when it is
    imported, as the ledger engine does. *)
Definition prec : Z := 50.

Definition zero : t := mk 0 0.
Definition one : t := mk 1 0.
Definition of_Z (n : Z) : t := mk n 0.

(** Both coefficients brought to the smaller exponent. *)
Definition lhs (a b : t) : Z := coeff a * 10 ^ (exp a - Z.min (exp a) (exp b)).
Definition rhs (a b : t) : Z := coeff b * 10 ^ (exp b - Z.min (exp a) (exp b)).

(** Comparisons are exact. *)
Definition compare (a b : t) : comparison := lhs a b ?= rhs a b.
Definition eqb (a b : t) : bool := lhs a b =? rhs a b.
Definition ltb (a b : t) : bool := lhs a b <? rhs a b.
Definition leb (a b : t) : bool := lhs a b <=? rhs a b.
Definition gtb (a b : t) : bool := ltb b a.
Definition is_zero (a : t) : bool := coeff a =? 0.

(** Number of decimal digits of a non-negative coefficient ([len(_int)]). *)
Definition ndigits (c : Z) : Z := Z.of_nat (String.length (PyStr.of_Z (Z.abs c))).

Definition signed (neg : bool) (c : Z) : Z := if neg then - c else c.

(** Rounding of a non-negative coefficient that loses its last [drop]
    digits, ROUND_HALF_EVEN. *)
Definition round_half_even (c drop : Z) : Z :=
  let p := 10 ^ drop in
  let q := c / p in
  let r := c mod p in
  let half := 5 * 10 ^ (drop - 1) in
  if (half <? r) || ((r =? half) && Z.odd q) then q + 1 else q.

(** [Decimal._fix]: round to the context precision. *)
Definition fix_ (neg : bool) (c e : Z) : t :=
  let d := ndigits c in
  if d <=? prec then mk (signed neg c) e
  else
    let drop := d - prec in
    let q := round_half_even c drop in
    if prec <? ndigits q then mk (signed neg (q / 10)) (e + drop + 1)
    else mk (signed neg q) (e + drop).

(** The exact result [c * 10 ^ e] of an operation, rounded. *)
Definition rounded (c e : Z) : t := fix_ (c <? 0) (Z.abs c) e.

(** [a + b], [a - b], [a * b], [-a], [+a]: the exact result, rounded to the
    precision of the context. *)
Definition add (a b : t) : t := rounded (lhs a b + rhs a b) (Z.min (exp a) (exp b)).
Definition sub (a b : t) : t := rounded (lhs a b - rhs a b) (Z.min (exp a) (exp b)).
Definition mul (a b : t) : t := rounded (coeff a * coeff b) (exp a + exp b).
Definition neg (a : t) : t := rounded (- coeff a) (exp a).
Definition pos (a : t) : t := rounded (coeff a) (exp a).

(** [a // b] for [b <> 0]: the quotient truncated towards zero, as an
    integer; [None] is [decimal.DivisionImpossible], signalled for a
    quotient of more digits than the precision. *)
Definition floordiv (a b : t) : option t :=
  let q := Z.quot (lhs a b) (rhs a b) in
  if Z.abs q <? 10 ^ prec then Some (mk q 0) else None.

(** The loop of [__truediv__] that brings an exact quotient as close to the
    ideal exponent as its trailing zeros allow. *)
Fixpoint strip_zeros (fuel : nat) (c e ideal : Z) : Z * Z :=
  match fuel with
  | O => (c, e)
  | S k =>
      if (e <? ideal) && (c mod 10 =? 0) then strip_zeros k (c / 10) (e + 1) ideal
      else (c, e)
  end.

(** [a / b] for [b <> 0] ([Decimal.__truediv__]). *)
Definition div (a b : t) : t :=
  let neg := xorb (coeff a <? 0) (coeff b <? 0) in
  let ideal := exp a - exp b in
  if coeff a =? 0 then mk 0 ideal
  else
    let ca := Z.abs (coeff a) in
    let cb := Z.abs (coeff b) in
    let shift := ndigits cb - ndigits ca + prec + 1 in
    let e := ideal - shift in
    let num := if 0 <=? shift then ca * 10 ^ shift else ca in
    let den := if 0 <=? shift then cb else cb * 10 ^ (- shift) in
    let q := num / den in
    let r := num mod den in
    if r =? 0 then
      let '(q', e') := strip_zeros (Z.to_nat (ideal - e)) q e ideal in
      fix_ neg q' e'
    else fix_ neg (if q mod 5 =? 0 then q + 1 else q) e.

(** [Decimal(s)]: optional sign, digits with an optional point, optional
    exponent; surrounding blanks and underscores are ignored.  [None] is
    [decimal.InvalidOperation] (and the non-finite spellings). *)
Definition parse_exponent (s : string) : option Z :=
  match s with
  | EmptyString => Some 0
  | String c r =>
      if Ascii.eqb c "e" || Ascii.eqb c "E" then
        let '(neg, ds) :=
          match r with
          | String "-" r' => (true, r')
          | String "+" r' => (false, r')
          | _ => (false, r)
          end in
        if PyStr.all_digits ds && negb (String.eqb ds "")
        then Some (signed neg (PyStr.digits_value 0 ds))
        else None
      else None
  end.

Definition of_string (s : string) : option t :=
  let s := PyStr.remove_char "_" (PyStr.strip s) in
  let '(neg, s) :=
    match s with
    | String "-" r => (true, r)
    | String "+" r => (false, r)
    | _ => (false, s)
    end in
  let '(ip, s) := PyStr.span PyStr.is_digit s in
  let '(fp, s, dot) :=
    match s with
    | String "." r => let '(f, r') := PyStr.span PyStr.is_digit r in (f, r', true)
    | _ => ("", s, false)
    end in
  if String.eqb ip "" && String.eqb fp "" then None
  else
    match parse_exponent s with
    | Some e =>
        Some (mk (signed neg (PyStr.digits_value 0 (ip ++ fp)))
                 (e - Z.of_nat (String.length fp)))
    | None => None
    end.

(** [str(d)] ([Decimal.__str__]) *)
Definition to_string (d : t) : string :=
  let sign := if coeff d <? 0 then "-" else "" in
  let ds := PyStr.of_Z (Z.abs (coeff d)) in
  let n := Z.of_nat (String.length ds) in
  let leftdigits := exp d + n in
  let dotplace := if (exp d <=? 0) && (-6 <? leftdigits) then leftdigits else 1 in
  let body :=
    if dotplace <=? 0 then
      "0." ++ PyStr.repeat_char "0" (Z.to_nat (- dotplace)) ++ ds
    else if n <=? dotplace then
      ds ++ PyStr.repeat_char "0" (Z.to_nat (dotplace - n))
    else
      String.substring 0 (Z.to_nat dotplace) ds ++ "." ++
      String.substring (Z.to_nat dotplace) (Z.to_nat (n - dotplace)) ds in
  let x := leftdigits - dotplace in
  let e :=
    if x =? 0 then ""
    else "E" ++ (if 0 <=? x then "+" else "") ++ PyStr.of_Z x in
  sign ++ body ++ e.

(** [f"{d:.2f}"]: [d] rounded half-even to two places, in fixed notation,
    under the sign of [d]. *)
Definition format_2f (d : t) : string :=
  let c := Z.abs (coeff d) in
  let q := if -2 <=? exp d then c * 10 ^ (exp d + 2)
           else round_half_even c (- 2 - exp d) in
  let ds := PyStr.of_Z q in
  let n := String.length ds in
  let sign := if coeff d <? 0 then "-" else "" in
  if Nat.leb n 2 then sign ++ "0." ++ PyStr.repeat_char "0" (2 - n) ++ ds
  else sign ++ String.substring 0 (n - 2) ds ++ "." ++ String.substring (n - 2) 2 ds.

(** [int(d)]: the integer part, truncated towards zero. *)
Definition to_int (d : t) : Z :=
  if 0 <=? exp d then coeff d * 10 ^ exp d else Z.quot (coeff d) (10 ^ (- exp d)).

End PyDecimal.

(** ** Python values *)

(** The JSON-shaped values an event dictionary holds (floats are not
    modelled). *)
Inductive pyval :=
| VNone
| VBool (b : bool)
| VInt (n : Z)
| VStr (s : string)
| VList (l : list pyval)
| VDict (d : list (string * pyval)).

Module Py.

Definition hex_digit (n : nat) : ascii :=
  if Nat.ltb n 10 then ascii_of_nat (48 + n) else ascii_of_nat (87 + n).

Definition escape_char (quote c : ascii) : string :=
  let n := PyStr.code c in
  if Ascii.eqb c "\" then "\\"
  else if Ascii.eqb c quote then String "\" (String quote "")
  else if Nat.eqb n 10 then "\n"
  else if Nat.eqb n 13 then "\r"
  else if Nat.eqb n 9 then "\t"
  else if Nat.ltb n 32 || Nat.eqb n 127 then
    String "\" (String "x" (String (hex_digit (n / 16)) (String (hex_digit (n mod 16)) "")))
  else String c "".

Fixpoint escape (quote : ascii) (s : string) : string :=
  match s with
  | EmptyString => ""
  | String c r => escape_char quote c ++ escape quote r
  end.

(** [repr(s)] of a str: single quotes unless the text has one and no
    double quote. *)
Definition repr_str (s : string) : string :=
  let dq := ascii_of_nat 34 in
  let q := if PyStr.contains "'" s && negb (PyStr.contains (String dq "") s)
           then dq else "'"%char in
  String q (escape q s) ++ String q "".

Fixpoint repr (v : pyval) : string :=
  match v with
  | VNone => "None"
  | VBool true => "True"
  | VBool false => "False"
  | VInt n => PyStr.of_Z n
  | VStr s => repr_str s
  | VList l => "[" ++ PyStr.join ", " (List.map repr l) ++ "]"
  | VDict d =>
      "{" ++ PyStr.join ", "
               (List.map (fun '(k, x) => repr_str k ++ ": " ++ repr x) d) ++ "}"
  end.

(** [str(v)] *)
Definition str (v : pyval) : string :=
  match v with
  | VStr s => s
  | _ => repr v
  end.

(** [bool(v)] *)
Definition truthy (v : pyval) : bool :=
  match v with
  | VNone => false
  | VBool b => b
  | VInt n => negb (n =? 0)
  | VStr s => negb (String.eqb s "")
  | VList l => match l with [] => false | _ => true end
  | VDict d => match d with [] => false | _ => true end
  end.

(** Lists, dicts: unhashable. *)
Definition hashable (v : pyval) : bool :=
  match v with
  | VList _ | VDict _ => false
  | _ => true
  end.

(** [a == b]; booleans compare as the ints 0 and 1.  Dictionaries are
    compared entry by entry in stored order. *)
Fixpoint eqb (a b : pyval) : bool :=
  match a, b with
  | VNone, VNone => true
  | VBool x, VBool y => Bool.eqb x y
  | VBool x, VInt n | VInt n, VBool x => n =? (if x then 1 else 0)
  | VInt n, VInt m => n =? m
  | VStr s, VStr u => String.eqb s u
  | VList l, VList m =>
      (fix go (l m : list pyval) : bool :=
         match l, m with
         | [], [] => true
         | x :: l', y :: m' => eqb x y && go l' m'
         | _, _ => false
         end) l m
  | VDict d, VDict f =>
      (fix go (d f : list (string * pyval)) : bool :=
         match d, f with
         | [], [] => true
         | (k, x) :: d', (j, y) :: f' => String.eqb k j && eqb x y && go d' f'
         | _, _ => false
         end) d f
  | _, _ => false
  end.

(** [v in [None, "", "TBD", "tbd"]] *)
Definition is_indeterminate (v : pyval) : bool :=
  match v with
  | VNone => true
  | VStr s => String.eqb s "" || String.eqb s "TBD" || String.eqb s "tbd"
  | _ => false
  end.

(** [type(v).__name__] *)
Definition type_name (v : pyval) : string :=
  match v with
  | VNone => "NoneType"
  | VBool _ => "bool"
  | VInt _ => "int"
  | VStr _ => "str"
  | VList _ => "list"
  | VDict _ => "dict"
  end.

(** The exceptions of the interpreter that the code can meet. *)
Definition unhashable (v : pyval) : exn :=
  Raise TypeError ("unhashable type: '" ++ type_name v ++ "'").
Definition no_attribute (v : pyval) (attr : string) : exn :=
  Raise AttributeError
    ("'" ++ type_name v ++ "' object has no attribute '" ++ attr ++ "'").
Definition not_text (v : pyval) : exn :=
  Raise TypeError ("expected string or bytes-like object, got '" ++ type_name v ++ "'").
Definition conversion_syntax : exn :=
  Raise InvalidOperation "[<class 'decimal.ConversionSyntax'>]".

(** [str(e)] of an exception: its message, which a KeyError quotes. *)
Definition str_exn (e : exn) : string :=
  match exn_cls e with
  | KeyError => repr_str (exn_msg e)
  | _ => exn_msg e
  end.

End Py.

(** ** Insertion-ordered dictionaries *)

Section odict.
Context {K V : Type} (keq : K -> K -> bool).

Fixpoint od_get (d : list (K * V)) (k : K) : option V :=
  match d with
  | [] => None
  | (j, v) :: r => if keq j k then Some v else od_get r k
  end.

(** [d[k] = v]: an existing key keeps its place, a new one goes last. *)
Fixpoint od_set (d : list (K * V)) (k : K) (v : V) : list (K * V) :=
  match d with
  | [] => [(k, v)]
  | (j, w) :: r => if keq j k then (j, v) :: r else (j, w) :: od_set r k v
  end.

(** [del d[k]] *)
Fixpoint od_del (d : list (K * V)) (k : K) : list (K * V) :=
  match d with
  | [] => []
  | (j, w) :: r => if keq j k then r else (j, w) :: od_del r k
  end.

Definition od_mem (d : list (K * V)) (k : K) : bool :=
  match od_get d k with Some _ => true | None => false end.

End odict.

(** ** What the embedding takes from libraries it does not model

    - [ratio a b]: [difflib.SequenceMatcher(None, a, b).ratio()];
    - [time_reached now limit]: [datetime.fromisoformat(now) >=
      datetime.fromisoformat(limit)], [None] when either call or the
      comparison raises;
    - [eval_other expr names]: [Decimal(str(simple_eval(expr, names,
      ...)))] for an expression outside the grammar that [FormulaEngine.parse]
      reads. *)
Class Externals := {
  ratio : string -> string -> Q;
  time_reached : pyval -> pyval -> option bool;
  eval_other : string -> list (pyval * PyDecimal.t) -> result PyDecimal.t;
}.

(** ** [world_schema.py], [unit_registry.py] *)

Record WorldSchema := {
  currency_name : string;
  base_unit : string;
  conversions : list (string * PyDecimal.t);
  display_format : string;
}.

Module WorldSchemaM.

(** The checks of [__post_init__] and [validate], and that a dict has each
    key once. *)
Definition valid (s : WorldSchema) : bool :=
  match od_get String.eqb (conversions s) (base_unit s) with
  | Some r => PyDecimal.eqb r PyDecimal.one
  | None => false
  end
  && negb (String.eqb (currency_name s) "")
  && negb (String.eqb (base_unit s) "")
  && match conversions s with [] => false | _ => true end
  && existsb (String.eqb (display_format s))
       ["standard"; "scientific"; "time_mixed"; "decimal"]
  && forallb (fun '(_, r) => PyDecimal.ltb PyDecimal.zero r) (conversions s)
  && bool_decide (NoDup (List.map fst (conversions s))).

Definition classic_fantasy : WorldSchema :=
  {| currency_name := "Gold"; base_unit := "CP";
     conversions := [("GP", PyDecimal.of_Z 100); ("SP", PyDecimal.of_Z 10);
                     ("CP", PyDecimal.of_Z 1)];
     display_format := "standard" |}.

Definition modern : WorldSchema :=
  {| currency_name := "Dollars"; base_unit := "Cent";
     conversions := [("USD", PyDecimal.of_Z 100); ("$", PyDecimal.of_Z 100);
                     ("Cent", PyDecimal.of_Z 1); ("c", PyDecimal.of_Z 1)];
     display_format := "decimal" |}.

End WorldSchemaM.

Module UnitRegistry.

(** [to_base(value, unit)]: [value] is the text of the amount; an unknown
    unit converts one to one.  The unit is whatever the event holds under
    ["unit"]; only a str can be a key of the conversion table. *)
Definition rate_of (schema : WorldSchema) (unit : pyval) : result (option PyDecimal.t) :=
  match unit with
  | VStr u => Ok (od_get String.eqb (conversions schema) u)
  | _ =>
      if Py.hashable unit then Ok None else Err (Py.unhashable unit)
  end.

Definition to_base (schema : WorldSchema) (value : string) (unit : pyval)
  : result PyDecimal.t :=
  match PyDecimal.of_string (PyStr.remove_char "," value) with
  | None => Err Py.conversion_syntax
  | Some d =>
      match rate_of schema unit with
      | Err e => Err e
      | Ok None => Ok d
      | Ok (Some r) => Ok (PyDecimal.mul d r)
      end
  end.

(** [sorted(conversions.items(), key=rate, reverse=True)]: stable, largest
    rate first. *)
Fixpoint insert_desc (x : string * PyDecimal.t) (l : list (string * PyDecimal.t))
  : list (string * PyDecimal.t) :=
  match l with
  | [] => [x]
  | y :: r =>
      if PyDecimal.ltb (snd x) (snd y) then y :: insert_desc x r else x :: l
  end.

Definition sorted_units (schema : WorldSchema) : list (string * PyDecimal.t) :=
  fold_right insert_desc [] (conversions schema).

(** The loop of the breakdown: [result], [remaining], [processed_rates]. *)
Record breakdown_state := {
  bd_result : list (string * PyDecimal.t);
  bd_remaining : PyDecimal.t;
  bd_processed : list PyDecimal.t;
}.

Definition breakdown_step (base : string) (st : breakdown_state)
  (ur : string * PyDecimal.t) : result breakdown_state :=
  let '(unit, rate) := ur in
  let is_base := String.eqb unit base in
  if existsb (PyDecimal.eqb rate) (bd_processed st) && negb is_base then Ok st
  else if PyDecimal.eqb rate PyDecimal.one && negb is_base then Ok st
  else if is_base then
    Ok {| bd_result := od_set String.eqb (bd_result st) unit (bd_remaining st);
          bd_remaining := bd_remaining st;
          bd_processed := rate :: bd_processed st |}
  else
    match PyDecimal.floordiv (bd_remaining st) rate with
    | None => Err (Raise InvalidOperation "[<class 'decimal.DivisionImpossible'>]")
    | Some count =>
        if PyDecimal.gtb count PyDecimal.zero then
          Ok {| bd_result := od_set String.eqb (bd_result st) unit count;
                bd_remaining := PyDecimal.sub (bd_remaining st) (PyDecimal.mul count rate);
                bd_processed := rate :: bd_processed st |}
        else Ok st
    end.

Fixpoint breakdown_loop (base : string) (st : breakdown_state)
  (units : list (string * PyDecimal.t)) : result breakdown_state :=
  match units with
  | [] => Ok st
  | ur :: r =>
      match breakdown_step base st ur with
      | Ok st' => breakdown_loop base st' r
      | Err e => Err e
      end
  end.

Definition breakdown (schema : WorldSchema) (value : PyDecimal.t)
  : result (list (string * PyDecimal.t)) :=
  match breakdown_loop (base_unit schema)
          {| bd_result := []; bd_remaining := value; bd_processed := [] |}
          (sorted_units schema) with
  | Err e => Err e
  | Ok st =>
      if PyDecimal.gtb (bd_remaining st) PyDecimal.zero
         && negb (od_mem String.eqb (bd_result st) (base_unit schema))
      then Ok (od_set String.eqb (bd_result st) (base_unit schema) (bd_remaining st))
      else Ok (bd_result st)
  end.

Inductive converted :=
| Single (d : PyDecimal.t)
| Breakdown (m : list (string * PyDecimal.t)).

(** [from_base(base_value, target_unit=None)]; the value is given as the
    Decimal that [Decimal(str(base_value))] yields. *)
Definition from_base (schema : WorldSchema) (base_value : PyDecimal.t)
  (target_unit : option string) : result converted :=
  match target_unit with
  | Some u =>
      if String.eqb u "" then
        match breakdown schema base_value with
        | Ok m => Ok (Breakdown m)
        | Err e => Err e
        end
      else
        match od_get String.eqb (conversions schema) u with
        | None => Ok (Single base_value)
        | Some r =>
            if PyDecimal.is_zero r then
              if PyDecimal.is_zero base_value
              then Err (Raise InvalidOperation "[<class 'decimal.DivisionUndefined'>]")
              else Err (Raise DivisionByZero "[<class 'decimal.DivisionByZero'>]")
            else Ok (Single (PyDecimal.div base_value r))
        end
  | None =>
      match breakdown schema base_value with
      | Ok m => Ok (Breakdown m)
      | Err e => Err e
      end
  end.

(** [register_unit(unit_name, conversion_rate)]: the schema afterwards; the
    rate goes through [Decimal(str(conversion_rate))] and is not checked. *)
Definition register_unit (schema : WorldSchema) (unit_name : string)
  (conversion_rate : pyval) : result WorldSchema :=
  match PyDecimal.of_string (Py.str conversion_rate) with
  | None => Err Py.conversion_syntax
  | Some r =>
      Ok {| currency_name := currency_name schema;
            base_unit := base_unit schema;
            conversions := od_set String.eqb (conversions schema) unit_name r;
            display_format := display_format schema |}
  end.

(** The keys of [sorted(breakdown.items(), key=lambda x:
    conversions[x[0]], reverse=True)]: each unit with its rate; a unit that
    the schema lacks raises KeyError. *)
Fixpoint with_rates (schema : WorldSchema) (items : list (string * PyDecimal.t))
  : result (list (PyDecimal.t * (string * PyDecimal.t))) :=
  match items with
  | [] => Ok []
  | (unit, value) :: r =>
      match od_get String.eqb (conversions schema) unit with
      | None => Err (Raise KeyError unit)
      | Some rate =>
          match with_rates schema r with
          | Ok l => Ok ((rate, (unit, value)) :: l)
          | Err e => Err e
          end
      end
  end.

(** The sort itself: stable, largest rate first. *)
Fixpoint insert_by_rate (x : PyDecimal.t * (string * PyDecimal.t))
  (l : list (PyDecimal.t * (string * PyDecimal.t)))
  : list (PyDecimal.t * (string * PyDecimal.t)) :=
  match l with
  | [] => [x]
  | y :: r =>
      if PyDecimal.ltb (fst x) (fst y) then y :: insert_by_rate x r else x :: l
  end.

(** [f"{int(value)} {unit}"] for the entries with [value > 0] *)
Definition display_parts (sorted_units : list (PyDecimal.t * (string * PyDecimal.t)))
  : list string :=
  List.map (fun '(_, (unit, value)) => PyStr.of_Z (PyDecimal.to_int value) ++ " " ++ unit)
    (List.filter (fun '(_, (_, value)) => PyDecimal.gtb value PyDecimal.zero)
                 sorted_units).

(** The parts that [_format_standard] and [_format_time_mixed] build from
    [from_base(base_value)]. *)
Definition format_parts (schema : WorldSchema) (base_value : PyDecimal.t)
  : result (list string) :=
  match breakdown schema base_value with
  | Err e => Err e
  | Ok items =>
      match with_rates schema items with
      | Err e => Err e
      | Ok keyed => Ok (display_parts (fold_right insert_by_rate [] keyed))
      end
  end.

(** [_format_standard(base_value)] *)
Definition _format_standard (schema : WorldSchema) (base_value : PyDecimal.t)
  : result string :=
  match format_parts schema base_value with
  | Err e => Err e
  | Ok [] => Ok ("0 " ++ base_unit schema)
  | Ok parts => Ok (PyStr.join ", " parts)
  end.

(** [_format_time_mixed(base_value)]: at most the three largest units. *)
Definition _format_time_mixed (schema : WorldSchema) (base_value : PyDecimal.t)
  : result string :=
  match format_parts schema base_value with
  | Err e => Err e
  | Ok [] => Ok ("0 " ++ base_unit schema)
  | Ok parts => Ok (PyStr.join ", " (firstn 3 parts))
  end.

(** What a breakdown is worth in base units: the sum of quantity times
    rate. *)
Definition breakdown_total (schema : WorldSchema) (m : list (string * PyDecimal.t))
  : PyDecimal.t :=
  fold_left
    (fun acc '(u, q) =>
       match od_get String.eqb (conversions schema) u with
       | Some r => PyDecimal.add acc (PyDecimal.mul q r)
       | None => acc
       end)
    m PyDecimal.zero.

End UnitRegistry.

(** ** [formula_engine.py] *)

Module FormulaEngine.

(** *** The expressions [simple_eval] is modelled on

    Integer and short decimal literals, names, unary and binary [+ -],
    [* / //] and parentheses.  Every other expression is left to
    [eval_other]. *)

Inductive binop := Add | Sub | Mult | Div | FloorDiv.

Inductive expr :=
| ENum (d : PyDecimal.t)
| EName (x : string)
| ENeg (e : expr)
| EPos (e : expr)
| EBin (op : binop) (l r : expr).

Inductive token :=
| TNum (d : PyDecimal.t)
| TName (x : string)
| TPlus | TMinus | TStar | TSlash | TDSlash | TLParen | TRParen.

Definition is_ident_start (c : ascii) : bool :=
  PyStr.is_alpha c || Nat.eqb (PyStr.code c) 95.
Definition is_ident_char (c : ascii) : bool :=
  is_ident_start c || PyStr.is_digit c.

(** Names that Python or simpleeval resolve before the variable mapping:
    the language's keywords and the functions of the evaluator. *)
Definition reserved : list string :=
  ["False"; "None"; "True"; "and"; "as"; "assert"; "async"; "await"; "break";
   "class"; "continue"; "def"; "del"; "elif"; "else"; "except"; "finally";
   "for"; "from"; "global"; "if"; "import"; "in"; "is"; "lambda"; "nonlocal";
   "not"; "or"; "pass"; "raise"; "return"; "try"; "while"; "with"; "yield";
   "abs"; "max"; "min"; "int"; "round"; "pow"; "rand"; "randint"; "float";
   "str"].

Fixpoint strip_trailing_zeros (fuel : nat) (s : string) : string :=
  match fuel with
  | O => s
  | S k =>
      match PyStr.rev s with
      | String "0" (String c r) => strip_trailing_zeros k (PyStr.rev (String c r))
      | _ => s
      end
  end.

(** The value of a numeric literal: an int, or a float of at most 15
    significant digits, which [Decimal(str(.))] reads back exactly. *)
Definition literal (ip : string) (fp : option string) : option PyDecimal.t :=
  match fp with
  | None =>
      match ip with
      | String "0" (String _ _) => None
      | _ => Some (PyDecimal.of_Z (PyStr.digits_value 0 ip))
      end
  | Some f =>
      let f' := strip_trailing_zeros (String.length f) f in
      let c := PyStr.digits_value 0 (ip ++ f') in
      if String.eqb f "" then None
      else if PyDecimal.ndigits c <=? 15
      then Some (PyDecimal.mk c (- Z.of_nat (String.length f')))
      else None
  end.

Fixpoint tokenize (fuel : nat) (s : string) : option (list token) :=
  match fuel with
  | O => None
  | S k =>
      match s with
      | EmptyString => Some []
      | String c r =>
          let continue_with t rest := option_map (cons t) (tokenize k rest) in
          if Ascii.eqb c " " then tokenize k r
          else if Ascii.eqb c "+" then continue_with TPlus r
          else if Ascii.eqb c "-" then continue_with TMinus r
          else if Ascii.eqb c "(" then continue_with TLParen r
          else if Ascii.eqb c ")" then continue_with TRParen r
          else if Ascii.eqb c "*" then
            match r with
            | String "*" _ => None
            | _ => continue_with TStar r
            end
          else if Ascii.eqb c "/" then
            match r with
            | String "/" r' => continue_with TDSlash r'
            | _ => continue_with TSlash r
            end
          else if is_ident_start c then
            let '(x, rest) := PyStr.span is_ident_char s in
            match rest with
            | String d _ =>
                if PyStr.is_high d then None else
                if existsb (String.eqb x) reserved then None
                else continue_with (TName x) rest
            | EmptyString =>
                if existsb (String.eqb x) reserved then None
                else continue_with (TName x) rest
            end
          else if PyStr.is_digit c then
            let '(ip, rest) := PyStr.span PyStr.is_digit s in
            let '(fp, rest) :=
              match rest with
              | String "." r' =>
                  let '(f, r'') := PyStr.span PyStr.is_digit r' in (Some f, r'')
              | _ => (None, rest)
              end in
            match rest with
            | String d _ =>
                if PyStr.is_word d || Ascii.eqb d "." then None
                else match literal ip fp with
                     | Some n => continue_with (TNum n) rest
                     | None => None
                     end
            | EmptyString =>
                match literal ip fp with
                | Some n => continue_with (TNum n) rest
                | None => None
                end
            end
          else None
      end
  end.

Fixpoint parse_sum (fuel : nat) (ts : list token) : option (expr * list token) :=
  match fuel with
  | O => None
  | S k =>
      let factor :=
        fix factor (n : nat) (ts : list token) : option (expr * list token) :=
          match n with
          | O => None
          | S m =>
              match ts with
              | TMinus :: r =>
                  match factor m r with
                  | Some (e, r') => Some (ENeg e, r')
                  | None => None
                  end
              | TPlus :: r =>
                  match factor m r with
                  | Some (e, r') => Some (EPos e, r')
                  | None => None
                  end
              | TNum d :: r => Some (ENum d, r)
              | TName x :: r => Some (EName x, r)
              | TLParen :: r =>
                  match parse_sum k r with
                  | Some (e, TRParen :: r') => Some (e, r')
                  | _ => None
                  end
              | _ => None
              end
          end in
      let term_rest :=
        fix term_rest (n : nat) (acc : expr) (ts : list token)
          : option (expr * list token) :=
          match n with
          | O => None
          | S m =>
              match ts with
              | TStar :: r =>
                  match factor k r with
                  | Some (e, r') => term_rest m (EBin Mult acc e) r'
                  | None => None
                  end
              | TSlash :: r =>
                  match factor k r with
                  | Some (e, r') => term_rest m (EBin Div acc e) r'
                  | None => None
                  end
              | TDSlash :: r =>
                  match factor k r with
                  | Some (e, r') => term_rest m (EBin FloorDiv acc e) r'
                  | None => None
                  end
              | _ => Some (acc, ts)
              end
          end in
      let term (ts : list token) : option (expr * list token) :=
        match factor k ts with
        | Some (e, r) => term_rest k e r
        | None => None
        end in
      let sum_rest :=
        fix sum_rest (n : nat) (acc : expr) (ts : list token)
          : option (expr * list token) :=
          match n with
          | O => None
          | S m =>
              match ts with
              | TPlus :: r =>
                  match term r with
                  | Some (e, r') => sum_rest m (EBin Add acc e) r'
                  | None => None
                  end
              | TMinus :: r =>
                  match term r with
                  | Some (e, r') => sum_rest m (EBin Sub acc e) r'
                  | None => None
                  end
              | _ => Some (acc, ts)
              end
          end in
      match term ts with
      | Some (e, r) => sum_rest k e r
      | None => None
      end
  end.

(** [None]: the text is not in the modelled grammar. *)
Definition parse (s : string) : option expr :=
  match tokenize (S (String.length s)) (PyStr.strip s) with
  | Some ts =>
      match parse_sum (S (List.length ts)) ts with
      | Some (e, []) => Some e
      | _ => None
      end
  | None => None
  end.

(** [safe_div], bound to both [/] and [//].  Of two finite decimals with a
    divisor other than zero, the division raises only when the exponent of
    the quotient overflows, which is what [except Exception: return
    Decimal("0")] would catch. *)
Definition safe_div (a b : PyDecimal.t) : result PyDecimal.t :=
  if PyDecimal.is_zero b then Err (Raise ZeroDivisionError "Division by zero")
  else Ok (PyDecimal.div a b).

Definition apply_binop (op : binop) (a b : PyDecimal.t) : result PyDecimal.t :=
  match op with
  | Add => Ok (PyDecimal.add a b)
  | Sub => Ok (PyDecimal.sub a b)
  | Mult => Ok (PyDecimal.mul a b)
  | Div | FloorDiv => safe_div a b
  end.

Definition lookup_name (names : list (pyval * PyDecimal.t)) (x : string)
  : option PyDecimal.t :=
  od_get Py.eqb names (VStr x).

(** The operand of a unary sign is an int or a float, negated as such, when
    it is a literal under signs alone, and a Decimal otherwise. *)
Fixpoint is_literal (e : expr) : bool :=
  match e with
  | ENum _ => true
  | ENeg a | EPos a => is_literal a
  | _ => false
  end.

Fixpoint eval (source : string) (names : list (pyval * PyDecimal.t)) (e : expr)
  : result PyDecimal.t :=
  match e with
  | ENum d => Ok d
  | EName x =>
      match lookup_name names x with
      | Some d => Ok d
      | None =>
          Err (Raise EvalError
                 ("'" ++ x ++ "' is not defined for expression '" ++ source ++ "'"))
      end
  | ENeg a =>
      match eval source names a with
      | Ok d =>
          if is_literal a then Ok (PyDecimal.mk (- PyDecimal.coeff d) (PyDecimal.exp d))
          else Ok (PyDecimal.neg d)
      | Err x => Err x
      end
  | EPos a =>
      match eval source names a with
      | Ok d => if is_literal a then Ok d else Ok (PyDecimal.pos d)
      | Err x => Err x
      end
  | EBin op l r =>
      match eval source names l with
      | Ok a =>
          match eval source names r with
          | Ok b => apply_binop op a b
          | Err x => Err x
          end
      | Err x => Err x
      end
  end.

(** [Decimal(str(simple_eval(expression, names=..., functions=...,
    operators=...)))] *)
Definition simple_eval `{Externals} (expression : string)
  (names : list (pyval * PyDecimal.t)) : result PyDecimal.t :=
  match parse expression with
  | Some e => eval expression names e
  | None => eval_other expression names
  end.

(** *** The engine *)

Record t := {
  formulas : list (string * string);
  dirty_flags : list (string * bool);
  dependencies : list (string * list string);
}.

Definition empty : t := {| formulas := []; dirty_flags := []; dependencies := [] |}.

Definition keywords : list string :=
  ["abs"; "max"; "min"; "int"; "round"; "True"; "False"; "None"; "if"; "else";
   "and"; "or"; "not"; "in"; "is"].

(** The identifiers that the pattern of [_extract_dependencies] finds
    between word boundaries: the maximal runs of word characters that start
    with a letter or underscore and hold ASCII only. *)
Fixpoint identifiers (fuel : nat) (s : string) : list string :=
  match fuel with
  | O => []
  | S k =>
      match s with
      | EmptyString => []
      | String c r =>
          if PyStr.is_word c then
            let '(w, rest) := PyStr.span PyStr.is_word s in
            if is_ident_start c && String.eqb (PyStr.filter_chars is_ident_char w) w
            then w :: identifiers k rest
            else identifiers k rest
          else identifiers k r
      end
  end.

Definition dedup (l : list string) : list string :=
  fold_left (fun acc x => if existsb (String.eqb x) acc then acc else (acc ++ [x])%list)
            l [].

(** [_extract_dependencies]; the set is kept in order of first
    occurrence. *)
Definition _extract_dependencies (expression : string) : list string :=
  dedup (List.filter (fun m => negb (existsb (String.eqb m) keywords))
                     (identifiers (S (String.length expression)) expression)).

Fixpoint first_error (l : list (option exn)) : option exn :=
  match l with
  | [] => None
  | Some e :: _ => Some e
  | None :: r => first_error r
  end.

(** [_detect_cycles(start_field, visited, path)]: [Some e] when it raises.
    Each call adds a key of [dependencies] to [visited], so the depth never
    exceeds their number and [register_formula] passes enough fuel. *)
Fixpoint _detect_cycles (fuel : nat) (deps : list (string * list string))
  (start_field : string) (visited path : list string) : option exn :=
  match fuel with
  | O => None
  | S k =>
      if existsb (String.eqb start_field) visited then
        Some (Raise ValueError
                ("Circular dependency detected: "
                 ++ PyStr.join " → " (path ++ [start_field])%list))
      else
        match od_get String.eqb deps start_field with
        | None => None
        | Some ds =>
            first_error
              (List.map (fun dep_field =>
                           _detect_cycles k deps dep_field
                             (start_field :: visited) (path ++ [start_field])%list)
                        ds)
        end
  end.

(** [register_formula(field_name, expression)]: the engine afterwards and
    the exception, if one is raised. *)
Definition register_formula (fe : t) (field_name expression : string)
  : t * option exn :=
  let fe' :=
    {| formulas := od_set String.eqb (formulas fe) field_name expression;
       dirty_flags := od_set String.eqb (dirty_flags fe) field_name true;
       dependencies := od_set String.eqb (dependencies fe) field_name
                         (_extract_dependencies expression) |} in
  match _detect_cycles (S (S (List.length (dependencies fe'))))
                       (dependencies fe') field_name [] [] with
  | None => (fe', None)
  | Some e =>
      ({| formulas := od_del String.eqb (formulas fe') field_name;
          dirty_flags := od_del String.eqb (dirty_flags fe') field_name;
          dependencies := od_del String.eqb (dependencies fe') field_name |},
       Some e)
  end.

(** [mark_dirty(base_field)] *)
Definition mark_dirty (fe : t) (base_field : pyval) : t :=
  {| formulas := formulas fe;
     dirty_flags :=
       fold_left
         (fun flags '(formula_name, deps) =>
            if existsb (fun d => Py.eqb base_field (VStr d)) deps
            then od_set String.eqb flags formula_name true
            else flags)
         (dependencies fe) (dirty_flags fe);
     dependencies := dependencies fe |}.

(** A value of the context of [recalculate]: a Decimal, or anything
    else. *)
Inductive ctxval :=
| CDec (d : PyDecimal.t)
| CVal (v : pyval).

(** [str(value)] *)
Definition ctx_str (c : ctxval) : string :=
  match c with
  | CDec d => PyDecimal.to_string d
  | CVal v => Py.str v
  end.

(** [Decimal(str(value))] *)
Definition to_decimal (c : ctxval) : option PyDecimal.t :=
  match c with
  | CDec d => Some d
  | CVal v => PyDecimal.of_string (Py.str v)
  end.

(** The loop that builds [decimal_context]; the first value that does not
    convert raises. *)
Fixpoint decimal_context (acc : list (pyval * PyDecimal.t))
  (context : list (pyval * ctxval)) : result (list (pyval * PyDecimal.t)) :=
  match context with
  | [] => Ok acc
  | (k, v) :: r =>
      match to_decimal v with
      | Some d => decimal_context (od_set Py.eqb acc k d) r
      | None =>
          Err (Raise ValueError
                 ("Cannot convert " ++ Py.str k ++ "=" ++ ctx_str v
                  ++ " to Decimal: [<class 'decimal.ConversionSyntax'>]"))
      end
  end.

(** [recalculate(field_name, context)]: the engine afterwards (the dirty
    flag is cleared on success) and the value or the exception.  The
    message about missing stats prints a set; here its names come in the
    order of the dependencies. *)
Definition recalculate `{Externals} (fe : t) (field_name : string)
  (context : list (pyval * ctxval)) : t * result PyDecimal.t :=
  match od_get String.eqb (formulas fe) field_name with
  | None =>
      (fe, Err (Raise ValueError
                  ("Unknown formula: " ++ field_name ++ ". Registered formulas: "
                   ++ Py.repr (VList (List.map (fun f => VStr (fst f)) (formulas fe))))))
  | Some expression =>
      match decimal_context [] context with
      | Err e => (fe, Err e)
      | Ok names =>
          match od_get String.eqb (dependencies fe) field_name with
          | None => (fe, Err (Raise KeyError field_name))
          | Some deps =>
              if negb (forallb (fun d => od_mem Py.eqb names (VStr d)) deps)
              then
                let missing_deps :=
                  List.filter (fun d => negb (od_mem Py.eqb names (VStr d))) deps in
                (fe, Err (Raise KeyError
                            ("Missing required stats for " ++ field_name ++ ": {"
                             ++ PyStr.join ", " (List.map Py.repr_str missing_deps)
                             ++ "}")))
              else
                match simple_eval expression names with
                | Ok d =>
                    ({| formulas := formulas fe;
                        dirty_flags := od_set String.eqb (dirty_flags fe) field_name false;
                        dependencies := dependencies fe |},
                     Ok d)
                | Err e =>
                    (fe, Err (Raise ValueError
                                ("Error evaluating formula '" ++ field_name ++ " = "
                                 ++ expression ++ "': " ++ Py.str_exn e)))
                end
          end
      end
  end.

(** [get_all_computed_stats(context)]: every formula in registration
    order; the first exception ends the pass. *)
Fixpoint recalculate_each `{Externals} (fe : t) (names : list string)
  (context : list (pyval * ctxval)) (results : list (string * PyDecimal.t))
  : t * result (list (string * PyDecimal.t)) :=
  match names with
  | [] => (fe, Ok results)
  | field_name :: r =>
      match recalculate fe field_name context with
      | (fe', Ok d) =>
          recalculate_each fe' r context (od_set String.eqb results field_name d)
      | (fe', Err e) => (fe', Err e)
      end
  end.

Definition get_all_computed_stats `{Externals} (fe : t)
  (context : list (pyval * ctxval)) : t * result (list (string * PyDecimal.t)) :=
  recalculate_each fe (List.map fst (formulas fe)) context [].

(** [recalculate_all_dirty(context)]: the formulas whose flag is set or
    missing, in registration order. *)
Fixpoint recalculate_dirty `{Externals} (fe : t) (names : list string)
  (context : list (pyval * ctxval)) (results : list (string * PyDecimal.t))
  : t * result (list (string * PyDecimal.t)) :=
  match names with
  | [] => (fe, Ok results)
  | field_name :: r =>
      if default true (od_get String.eqb (dirty_flags fe) field_name) then
        match recalculate fe field_name context with
        | (fe', Ok d) =>
            recalculate_dirty fe' r context (od_set String.eqb results field_name d)
        | (fe', Err e) => (fe', Err e)
        end
      else recalculate_dirty fe r context results
  end.

Definition recalculate_all_dirty `{Externals} (fe : t)
  (context : list (pyval * ctxval)) : t * result (list (string * PyDecimal.t)) :=
  recalculate_dirty fe (List.map fst (formulas fe)) context [].

(** [clear_all_formulas()] *)
Definition clear_all_formulas (fe : t) : t := empty.

End FormulaEngine.

(** ** [temporal_state.py] *)

Module TemporalState.

Record Buff := {
  id : string;
  name : pyval;
  effects : list (string * PyDecimal.t);
  expiry_type : pyval;
  expiry_value : pyval;
  description : pyval;
}.

Record t := {
  active_buffs : list Buff;
  _buff_id_counter : Z;
}.

Definition empty : t := {| active_buffs := []; _buff_id_counter := 0 |}.

Definition buff_id (n : Z) : string := "buff_" ++ PyStr.pad3 n.

(** [Buff.__post_init__]: every effect value through [Decimal(str(v))]. *)
Fixpoint decimal_effects (effects : list (string * pyval))
  : result (list (string * PyDecimal.t)) :=
  match effects with
  | [] => Ok []
  | (k, v) :: r =>
      match PyDecimal.of_string (Py.str v) with
      | None => Err Py.conversion_syntax
      | Some d =>
          match decimal_effects r with
          | Ok r' => Ok ((k, d) :: r')
          | Err e => Err e
          end
      end
  end.

(** [add_buff(name, effects, expiry_type, expiry_value, description)] *)
Definition add_buff (ts : t) (name : pyval) (effects : list (string * pyval))
  (expiry_type expiry_value description : pyval) : t * result string :=
  if negb (Py.eqb expiry_type (VStr "permanent")) && Py.eqb expiry_value VNone
  then (ts, Err (Raise ValueError
                   ("expiry_value required for expiry_type='" ++ Py.str expiry_type
                    ++ "'")))
  else
    let n := _buff_id_counter ts + 1 in
    match decimal_effects effects with
    | Err e => ({| active_buffs := active_buffs ts; _buff_id_counter := n |}, Err e)
    | Ok eff =>
        let buff := {| id := buff_id n; name := name; effects := eff;
                       expiry_type := expiry_type; expiry_value := expiry_value;
                       description := description |} in
        ({| active_buffs := (active_buffs ts ++ [buff])%list;
            _buff_id_counter := n |},
         Ok (buff_id n))
    end.

(** [counter >= threshold] for an int counter: a threshold that is not a
    number raises TypeError. *)
Definition reached (counter : Z) (threshold : pyval) : result bool :=
  match threshold with
  | VInt n => Ok (n <=? counter)
  | VBool b => Ok ((if b then 1 else 0) <=? counter)
  | _ =>
      Err (Raise TypeError
             ("'>=' not supported between instances of 'int' and '"
              ++ Py.type_name threshold ++ "'"))
  end.

Definition is_expired `{Externals} (buff : Buff) (current_chapter word_count : Z)
  (timestamp : pyval) : result bool :=
  if Py.eqb (expiry_type buff) (VStr "chapter") then
    reached current_chapter (expiry_value buff)
  else if Py.eqb (expiry_type buff) (VStr "word_count") then
    reached word_count (expiry_value buff)
  else if Py.eqb (expiry_type buff) (VStr "time") then
    if Py.truthy timestamp then
      match time_reached timestamp (expiry_value buff) with
      | Some b => Ok b
      | None => Ok false
      end
    else Ok false
  else Ok false.

(** The loop of [check_expiry]: [(expired_ids, buffs_to_keep)]. *)
Fixpoint partition_expired `{Externals} (l : list Buff)
  (current_chapter word_count : Z) (timestamp : pyval)
  : result (list string * list Buff) :=
  match l with
  | [] => Ok ([], [])
  | buff :: r =>
      match is_expired buff current_chapter word_count timestamp with
      | Err e => Err e
      | Ok b =>
          match partition_expired r current_chapter word_count timestamp with
          | Err e => Err e
          | Ok (ids, keep) =>
              if b then Ok (id buff :: ids, keep) else Ok (ids, buff :: keep)
          end
      end
  end.

(** [check_expiry(current_chapter, word_count, timestamp)]; the buffs are
    replaced only when the loop has come to its end. *)
Definition check_expiry `{Externals} (ts : t) (current_chapter word_count : Z)
  (timestamp : pyval) : t * result (list string) :=
  match partition_expired (active_buffs ts) current_chapter word_count timestamp with
  | Err e => (ts, Err e)
  | Ok (ids, keep) =>
      ({| active_buffs := keep; _buff_id_counter := _buff_id_counter ts |}, Ok ids)
  end.

(** [get_active_effects()] *)
Definition get_active_effects (ts : t) : list (string * PyDecimal.t) :=
  fold_left
    (fun aggregated buff =>
       fold_left
         (fun agg '(stat, value) =>
            match od_get String.eqb agg stat with
            | Some v => od_set String.eqb agg stat (PyDecimal.add v value)
            | None => od_set String.eqb agg stat value
            end)
         (effects buff) aggregated)
    (active_buffs ts) [].

(** [remove_buff(buff_id)]: the first buff with that id goes. *)
Fixpoint remove_first_buff (buff_id : string) (l : list Buff) : option (list Buff) :=
  match l with
  | [] => None
  | buff :: r =>
      if String.eqb (id buff) buff_id then Some r
      else option_map (cons buff) (remove_first_buff buff_id r)
  end.

Definition remove_buff (ts : t) (buff_id : string) : t * bool :=
  match remove_first_buff buff_id (active_buffs ts) with
  | Some l => ({| active_buffs := l; _buff_id_counter := _buff_id_counter ts |}, true)
  | None => (ts, false)
  end.

(** [get_buffs_by_stat(stat_name)] *)
Definition get_buffs_by_stat (ts : t) (stat_name : string) : list Buff :=
  List.filter (fun buff => od_mem String.eqb (effects buff) stat_name) (active_buffs ts).

(** [get_buff_by_id(buff_id)] *)
Definition get_buff_by_id (ts : t) (buff_id : string) : option Buff :=
  List.find (fun buff => String.eqb (id buff) buff_id) (active_buffs ts).

(** [clear_all()] *)
Definition clear_all (ts : t) : t := empty.

(** A buff as [to_dict] writes it and [from_dict] reads it: a dict with
    the six keys, the effects as the texts of their values. *)
Record BuffDict := {
  bd_id : string;
  bd_name : pyval;
  bd_effects : list (string * string);
  bd_expiry_type : pyval;
  bd_expiry_value : pyval;
  bd_description : pyval;
}.

(** [to_dict()] *)
Definition to_dict (ts : t) : list BuffDict :=
  List.map
    (fun buff =>
       {| bd_id := id buff; bd_name := name buff;
          bd_effects :=
            List.map (fun '(k, v) => (k, PyDecimal.to_string v)) (effects buff);
          bd_expiry_type := expiry_type buff;
          bd_expiry_value := expiry_value buff;
          bd_description := description buff |})
    (active_buffs ts).

(** [{k: Decimal(v) for k, v in buff_dict["effects"].items()}] *)
Fixpoint parse_effects (effects : list (string * string))
  : result (list (string * PyDecimal.t)) :=
  match effects with
  | [] => Ok []
  | (k, v) :: r =>
      match PyDecimal.of_string v with
      | None => Err Py.conversion_syntax
      | Some d =>
          match parse_effects r with
          | Ok r' => Ok ((k, d) :: r')
          | Err e => Err e
          end
      end
  end.

(** The number of an id: [int(buff.id.split("_")[1])] when the id starts
    with [prefix], [None] when it does not or when the number does not
    read. *)
Definition id_number (prefix id : string) : option Z :=
  if String.prefix prefix id then
    match PyStr.split "_" id with
    | _ :: x :: _ => PyStr.to_int x
    | _ => None
    end
  else None.

(** The loop of [from_dict]: each buff is built (its effects read, then
    taken through [__post_init__]), appended, and the counter raised to the
    number of its id. *)
Fixpoint restore (ts : t) (data : list BuffDict) : t * option exn :=
  match data with
  | [] => (ts, None)
  | buff_dict :: r =>
      match parse_effects (bd_effects buff_dict) with
      | Err e => (ts, Some e)
      | Ok effects =>
          match decimal_effects
                  (List.map (fun '(k, d) => (k, VStr (PyDecimal.to_string d))) effects) with
          | Err e => (ts, Some e)
          | Ok eff =>
              let buff := {| id := bd_id buff_dict; name := bd_name buff_dict;
                             effects := eff;
                             expiry_type := bd_expiry_type buff_dict;
                             expiry_value := bd_expiry_value buff_dict;
                             description := bd_description buff_dict |} in
              let counter :=
                match id_number "buff_" (bd_id buff_dict) with
                | Some num => Z.max (_buff_id_counter ts) num
                | None => _buff_id_counter ts
                end in
              restore {| active_buffs := (active_buffs ts ++ [buff])%list;
                         _buff_id_counter := counter |} r
          end
      end
  end.

(** [from_dict(data)]: the buffs are cleared first, the counter is not;
    an exception leaves the buffs restored so far. *)
Definition from_dict (ts : t) (data : list BuffDict) : t * option exn :=
  restore {| active_buffs := []; _buff_id_counter := _buff_id_counter ts |} data.

End TemporalState.

(** ** [rule_engine.py] *)

Module RuleEngine.

Record Rule := {
  id : string;
  target_type : string;
  operation : string;
  modifier : PyDecimal.t;
  condition : option string;
  description : string;
}.

Record t := {
  active_rules : list Rule;
  _rule_id_counter : Z;
}.

Definition empty : t := {| active_rules := []; _rule_id_counter := 0 |}.

(** [add_rule(target_type, operation, modifier, condition, description)] *)
Definition add_rule (re : t) (target_type operation : string)
  (modifier : PyDecimal.t) (condition : option string) (description : string)
  : t * string :=
  let n := _rule_id_counter re + 1 in
  let rule_id := "rule_" ++ PyStr.pad3 n in
  ({| active_rules :=
        (active_rules re ++
         [{| id := rule_id; target_type := target_type; operation := operation;
             modifier := modifier; condition := condition;
             description := description |}])%list;
      _rule_id_counter := n |},
   rule_id).

Definition matches (event_type : pyval) (rule : Rule) : bool :=
  Py.eqb (VStr (target_type rule)) event_type
  || String.eqb (target_type rule) "any".

Definition has_condition (rule : Rule) : bool :=
  match condition rule with
  | Some c => negb (String.eqb c "")
  | None => false
  end.

(** The new value under [operation], [None] for an unknown operation. *)
Definition new_value (rule : Rule) (current_value : PyDecimal.t)
  : option PyDecimal.t :=
  if String.eqb (operation rule) "multiply"
  then Some (PyDecimal.mul current_value (modifier rule))
  else if String.eqb (operation rule) "add"
  then Some (PyDecimal.add current_value (modifier rule))
  else if String.eqb (operation rule) "set"
  then Some (modifier rule)
  else None.

(** One round of the loop over the matching rules. *)
Definition apply_rule (modified_event : gmap string pyval) (rule : Rule)
  : result (gmap string pyval) :=
  if has_condition rule then Ok modified_event
  else
    match modified_event !! "value" with
    | None => Ok modified_event
    | Some v =>
        match PyDecimal.of_string (Py.str v) with
        | None => Err Py.conversion_syntax
        | Some current_value =>
            match new_value rule current_value with
            | None => Ok modified_event
            | Some nv =>
                let ev := <["value" := VStr (PyDecimal.to_string nv)]> modified_event in
                let entry :=
                  VDict [("rule_id", VStr (id rule));
                         ("description", VStr (description rule));
                         ("original_value", VStr (PyDecimal.to_string current_value));
                         ("modified_value", VStr (PyDecimal.to_string nv))] in
                match ev !! "applied_rules" with
                | None => Ok (<["applied_rules" := VList [entry]]> ev)
                | Some (VList l) =>
                    Ok (<["applied_rules" := VList (l ++ [entry])]> ev)
                | Some x => Err (Py.no_attribute x "append")
                end
            end
        end
    end.

Fixpoint apply_each (modified_event : gmap string pyval) (rules : list Rule)
  : result (gmap string pyval) :=
  match rules with
  | [] => Ok modified_event
  | rule :: r =>
      match apply_rule modified_event rule with
      | Ok ev => apply_each ev r
      | Err e => Err e
      end
  end.

(** [apply_rules(event, context)]: works on a deep copy, so the caller's
    event is untouched whatever happens. *)
Definition apply_rules (re : t) (event : gmap string pyval)
  : result (gmap string pyval) :=
  let event_type := default (VStr "") (event !! "type") in
  apply_each event (List.filter (matches event_type) (active_rules re)).

(** [remove_rule(rule_id)]: the first rule with that id goes. *)
Fixpoint remove_first_rule (rule_id : string) (l : list Rule) : option (list Rule) :=
  match l with
  | [] => None
  | rule :: r =>
      if String.eqb (id rule) rule_id then Some r
      else option_map (cons rule) (remove_first_rule rule_id r)
  end.

Definition remove_rule (re : t) (rule_id : string) : t * bool :=
  match remove_first_rule rule_id (active_rules re) with
  | Some l => ({| active_rules := l; _rule_id_counter := _rule_id_counter re |}, true)
  | None => (re, false)
  end.

(** [clear_all_rules()] *)
Definition clear_all_rules (re : t) : t := empty.

(** A rule as [list_active_rules] writes it and [from_dict] reads it: a
    dict with the six keys, the modifier as its text. *)
Record RuleDict := {
  rd_id : string;
  rd_target_type : string;
  rd_operation : string;
  rd_modifier : string;
  rd_condition : option string;
  rd_description : string;
}.

(** [list_active_rules()], which [to_dict()] returns. *)
Definition list_active_rules (re : t) : list RuleDict :=
  List.map
    (fun rule =>
       {| rd_id := id rule; rd_target_type := target_type rule;
          rd_operation := operation rule;
          rd_modifier := PyDecimal.to_string (modifier rule);
          rd_condition := condition rule;
          rd_description := description rule |})
    (active_rules re).

Definition to_dict (re : t) : list RuleDict := list_active_rules re.

(** The loop of [from_dict]. *)
Fixpoint restore (re : t) (data : list RuleDict) : t * option exn :=
  match data with
  | [] => (re, None)
  | rule_dict :: r =>
      match PyDecimal.of_string (rd_modifier rule_dict) with
      | None => (re, Some Py.conversion_syntax)
      | Some m =>
          let rule := {| id := rd_id rule_dict;
                         target_type := rd_target_type rule_dict;
                         operation := rd_operation rule_dict;
                         modifier := m;
                         condition := rd_condition rule_dict;
                         description := rd_description rule_dict |} in
          let counter :=
            match TemporalState.id_number "rule_" (rd_id rule_dict) with
            | Some num => Z.max (_rule_id_counter re) num
            | None => _rule_id_counter re
            end in
          restore {| active_rules := (active_rules re ++ [rule])%list;
                     _rule_id_counter := counter |} r
      end
  end.

(** [from_dict(data)]: all rules are cleared and the counter reset first;
    an exception leaves the rules restored so far. *)
Definition from_dict (re : t) (data : list RuleDict) : t * option exn :=
  restore empty data.

End RuleEngine.

(** ** [ledger_engine.py] *)

Module LedgerEngine.

Abbreviation event := (gmap string pyval).

(** The state that [reduce] computes. *)
Record State := {
  gold_cp : PyDecimal.t;
  inventory : list (pyval * PyDecimal.t);
  stats : list (pyval * PyDecimal.t);
  computed_stats : list (string * PyDecimal.t);
  buffs : list string;
  alerts : list string;
}.

(** The temporal context of a replay. *)
Record Context := {
  chapter : Z;
  word_count : Z;
  timestamp : pyval;
}.

(** The engine.  Saving is left out ([_auto_save] writes the log to disk
    and changes nothing of the engine), and so is the cache of
    [get_state]. *)
Record t := {
  strict_mode : bool;
  events : list event;
  _event_id_counter : Z;
  unit_registry : WorldSchema;
  formula_engine : FormulaEngine.t;
  temporal_state : TemporalState.t;
  rule_engine : RuleEngine.t;
}.

(** What a replay mutates besides the events: the state it builds, and the
    temporal state and the formula engine of the ledger. *)
Record Replay := {
  r_state : State;
  r_ts : TemporalState.t;
  r_fe : FormulaEngine.t;
}.

Definition _get_initial_state : State :=
  {| gold_cp := PyDecimal.zero; inventory := []; stats := [];
     computed_stats := []; buffs := []; alerts := [] |}.

Definition initial_context : Context :=
  {| chapter := 0; word_count := 0; timestamp := VNone |}.

(** [event.get(k)], [event.get(k, d)] *)
Definition get (ev : event) (k : string) : pyval := default VNone (ev !! k).
Definition get_or (ev : event) (k : string) (d : pyval) : pyval := default d (ev !! k).

(** *** [_clean_number] *)

Definition number_at (s : string) : string :=
  let '(ip, rest) := PyStr.span PyStr.is_digit s in
  match rest with
  | String "." r =>
      let '(fp, _) := PyStr.span PyStr.is_digit r in
      if String.eqb fp "" then ip else ip ++ "." ++ fp
  | _ => ip
  end.

(** The leftmost match of an optional minus, digits, and an optional point
    with digits. *)
Fixpoint find_number (s : string) : option string :=
  match s with
  | EmptyString => None
  | String c r =>
      if PyStr.is_digit c then Some (number_at s)
      else
        match r with
        | String d _ =>
            if Ascii.eqb c "-" && PyStr.is_digit d then Some (String c (number_at r))
            else find_number r
        | EmptyString => None
        end
  end.

Definition _clean_number (value_str : string) : string :=
  let clean := PyStr.remove_char "%" (PyStr.remove_char "," value_str) in
  match find_number clean with
  | Some val_str =>
      match PyDecimal.of_string val_str with
      | Some _ => val_str
      | None => "0"
      end
  | None => "0"
  end.

(** [Decimal(self._clean_number(str(v)))] *)
Definition clean_decimal (v : pyval) : result PyDecimal.t :=
  match PyDecimal.of_string (_clean_number (Py.str v)) with
  | Some d => Ok d
  | None => Err Py.conversion_syntax
  end.

(** *** [normalize_entity_name] *)

Definition Qltb (a b : Q) : bool := negb (Qle_bool b a).

(** [re.sub(r'\d+', '', s)] *)
Definition skeleton (s : string) : string :=
  PyStr.filter_chars (fun c => negb (PyStr.is_digit c)) s.

Fixpoint candidates `{Externals} (raw_name : string) (existing_names : list pyval)
  : result (list (Q * string)) :=
  match existing_names with
  | [] => Ok []
  | VStr name :: r =>
      match candidates raw_name r with
      | Err e => Err e
      | Ok cs =>
          if String.eqb (skeleton raw_name) (skeleton name)
             && negb (String.eqb raw_name name)
          then Ok cs
          else
            let x := ratio (PyStr.lower raw_name) (PyStr.lower name) in
            if Qltb (9 # 10) x then Ok ((x, name) :: cs) else Ok cs
      end
  | name :: _ => Err (Py.not_text name)
  end.

(** [candidates.sort(key=ratio, reverse=True)] *)
Fixpoint insert_by_ratio (x : Q * string) (l : list (Q * string)) : list (Q * string) :=
  match l with
  | [] => [x]
  | y :: r => if Qltb (fst x) (fst y) then y :: insert_by_ratio x r else x :: l
  end.

Definition normalize_entity_name `{Externals} (raw_name : pyval)
  (existing_names : list pyval) : result (pyval * bool) :=
  if negb (Py.truthy raw_name) || match existing_names with [] => true | _ => false end
  then Ok (raw_name, false)
  else if existsb (Py.eqb raw_name) existing_names then Ok (raw_name, false)
  else
    match raw_name with
    | VStr raw =>
        match candidates raw existing_names with
        | Err e => Err e
        | Ok cs =>
            match fold_right insert_by_ratio [] cs with
            | [] => Ok (raw_name, false)
            | (best_ratio, best_name) :: rest =>
                if Qltb best_ratio (9 # 10) then Ok (raw_name, false)
                else
                  match rest with
                  | (second_ratio, _) :: _ =>
                      if Qltb (best_ratio - second_ratio) (1 # 10)
                      then Ok (raw_name, true)
                      else Ok (VStr best_name, false)
                  | [] => Ok (VStr best_name, false)
                  end
            end
        end
    | _ => Err (Py.not_text raw_name)
    end.

(** *** [_apply_event] *)

(** [if "logs" not in event: event["logs"] = []] and
    [event["logs"].append(msg)] *)
Definition add_log (ev : event) (msg : string) : result event :=
  match ev !! "logs" with
  | None => Ok (<["logs" := VList [VStr msg]]> ev)
  | Some (VList l) => Ok (<["logs" := VList (l ++ [VStr msg])]> ev)
  | Some x => Err (Py.no_attribute x "append")
  end.

Definition set_state (w : Replay) (st : State) : Replay :=
  {| r_state := st; r_ts := r_ts w; r_fe := r_fe w |}.

Definition set_gold (st : State) (g : PyDecimal.t) : State :=
  {| gold_cp := g; inventory := inventory st; stats := stats st;
     computed_stats := computed_stats st; buffs := buffs st; alerts := alerts st |}.

Definition set_inventory (st : State) (i : list (pyval * PyDecimal.t)) : State :=
  {| gold_cp := gold_cp st; inventory := i; stats := stats st;
     computed_stats := computed_stats st; buffs := buffs st; alerts := alerts st |}.

Definition set_stats (st : State) (i : list (pyval * PyDecimal.t)) : State :=
  {| gold_cp := gold_cp st; inventory := inventory st; stats := i;
     computed_stats := computed_stats st; buffs := buffs st; alerts := alerts st |}.

Definition set_buffs (st : State) (b : list string) : State :=
  {| gold_cp := gold_cp st; inventory := inventory st; stats := stats st;
     computed_stats := computed_stats st; buffs := b; alerts := alerts st |}.

(** The outcome of applying one event: the event as it is left, what the
    replay holds, and the exception if one was raised. *)
Definition applied : Type := event * Replay * option exn.

(** [f"Insufficient gold: need {need_gp:.2f} GP, have {have_gp:.2f} GP"] *)
Definition insufficient_gold (gold cp_value : PyDecimal.t) : exn :=
  let have_gp := PyDecimal.div gold (PyDecimal.of_Z 100) in
  let need_gp := PyDecimal.div cp_value (PyDecimal.of_Z 100) in
  Raise ValueError
    ("Insufficient gold: need " ++ PyDecimal.format_2f need_gp ++ " GP, have "
     ++ PyDecimal.format_2f have_gp ++ " GP").

Definition apply_gold (strict : bool) (schema : WorldSchema) (w : Replay)
  (ev : event) : applied :=
  let value_raw := get_or ev "value" (VStr "0") in
  if Py.is_indeterminate value_raw
  then (<["requires_manual_fix" := VBool true]> ev, w, None)
  else
    match UnitRegistry.to_base schema (_clean_number (Py.str value_raw))
                               (get_or ev "unit" (VStr "CP")) with
    | Err e => (ev, w, Some e)
    | Ok cp_value =>
        let action := get ev "action" in
        let st := r_state w in
        if Py.eqb action (VStr "gain") then
          (ev, set_state w (set_gold st (PyDecimal.add (gold_cp st) cp_value)), None)
        else if Py.eqb action (VStr "lose") then
          if PyDecimal.ltb (gold_cp st) cp_value then
            if strict then (ev, w, Some (insufficient_gold (gold_cp st) cp_value))
            else
              let ev1 := <["is_implicit" := VBool true]> ev in
              match add_log ev1 "Warning: Gold underflow allowed in Draft Mode" with
              | Err e => (ev1, w, Some e)
              | Ok ev2 =>
                  (ev2, set_state w (set_gold st (PyDecimal.sub (gold_cp st) cp_value)),
                   None)
              end
          else
            (ev, set_state w (set_gold st (PyDecimal.sub (gold_cp st) cp_value)), None)
        else if Py.eqb action (VStr "set") then
          (ev, set_state w (set_gold st cp_value), None)
        else (ev, w, None)
    end.

(** The part of the item branch after the name is settled. *)
Definition apply_item_qty (strict : bool) (w : Replay) (ev : event) (name : pyval)
  : applied :=
  let qty_raw := get_or ev "qty" (VInt 1) in
  if Py.is_indeterminate qty_raw
  then (<["requires_manual_fix" := VBool true]> ev, w, None)
  else
    match clean_decimal qty_raw with
    | Err e => (ev, w, Some e)
    | Ok qty =>
        if PyDecimal.leb qty PyDecimal.zero && strict
        then (ev, w, Some (Raise ValueError
                             ("Invalid quantity: " ++ PyDecimal.to_string qty
                              ++ ". Must be positive.")))
        else if negb (Py.hashable name) then (ev, w, Some (Py.unhashable name))
        else
          let st := r_state w in
          let current_qty := default PyDecimal.zero (od_get Py.eqb (inventory st) name) in
          let action := get ev "action" in
          if Py.eqb action (VStr "gain") then
            (ev,
             set_state w (set_inventory st
               (od_set Py.eqb (inventory st) name (PyDecimal.add current_qty qty))),
             None)
          else if Py.eqb action (VStr "lose") then
            let after :=
              set_state w (set_inventory st
                (od_set Py.eqb (inventory st) name (PyDecimal.sub current_qty qty))) in
            if PyDecimal.ltb current_qty qty then
              if strict then
                (ev, w, Some (Raise ValueError
                                ("Insufficient " ++ Py.str name ++ ": need "
                                 ++ PyDecimal.to_string qty ++ ", have "
                                 ++ PyDecimal.to_string current_qty)))
              else
                let ev1 := <["is_implicit" := VBool true]> ev in
                match add_log ev1 ("Warning: Item " ++ Py.str name ++ " underflow allowed") with
                | Err e => (ev1, w, Some e)
                | Ok ev2 => (ev2, after, None)
                end
            else (ev, after, None)
          else (ev, w, None)
    end.

Definition apply_item `{Externals} (strict : bool) (w : Replay) (ev : event)
  : applied :=
  let raw_name := get ev "name" in
  let known_keys := List.map fst (inventory (r_state w)) in
  match normalize_entity_name raw_name known_keys with
  | Err e => (ev, w, Some e)
  | Ok (name, is_ambiguous) =>
      if is_ambiguous then
        let ev1 := <["requires_manual_fix" := VBool true]> ev in
        match add_log ev1 ("Ambiguous match for '" ++ Py.str raw_name
                           ++ "' - please verify.") with
        | Err e => (ev1, w, Some e)
        | Ok ev2 => apply_item_qty strict w ev2 raw_name
        end
      else if negb (Py.eqb name raw_name) then
        let ev1 := <["name" := name]> (<["original_name" := raw_name]> ev) in
        match add_log ev1 ("Fuzzy Matched: " ++ Py.str raw_name ++ " -> "
                           ++ Py.str name) with
        | Err e => (ev1, w, Some e)
        | Ok ev2 => apply_item_qty strict w ev2 name
        end
      else apply_item_qty strict w ev name
  end.

Definition apply_stat (w : Replay) (ev : event) : applied :=
  let name := get ev "name" in
  let val_raw := get_or ev "value" (VInt 0) in
  if Py.is_indeterminate val_raw
  then (<["requires_manual_fix" := VBool true]> ev, w, None)
  else
    match clean_decimal val_raw with
    | Err e => (ev, w, Some e)
    | Ok value =>
        if negb (Py.hashable name) then (ev, w, Some (Py.unhashable name))
        else
          let st := r_state w in
          let current_value := default PyDecimal.zero (od_get Py.eqb (stats st) name) in
          let action := get ev "action" in
          let st' :=
            if Py.eqb action (VStr "gain") then
              set_stats st (od_set Py.eqb (stats st) name (PyDecimal.add current_value value))
            else if Py.eqb action (VStr "lose") then
              set_stats st (od_set Py.eqb (stats st) name (PyDecimal.sub current_value value))
            else if Py.eqb action (VStr "set") then
              set_stats st (od_set Py.eqb (stats st) name value)
            else st in
          (ev,
           {| r_state := st'; r_ts := r_ts w;
              r_fe := FormulaEngine.mark_dirty (r_fe w) name |},
           None)
    end.

(** The effects of a buff event, each value cleaned; [clean_number] always
    yields a number, so none is dropped. *)
Definition sanitize_effects (raw_effects : list (string * pyval))
  : list (string * pyval) :=
  fold_left
    (fun acc '(stat_name, stat_value) =>
       match PyDecimal.of_string (_clean_number (Py.str stat_value)) with
       | Some _ => od_set String.eqb acc stat_name
                     (VStr (_clean_number (Py.str stat_value)))
       | None => acc
       end)
    raw_effects [].

Definition apply_buff (w : Replay) (ev : event) : applied :=
  if Py.eqb (get ev "action") (VStr "gain") then
    let ev1 :=
      if negb (Py.truthy (get ev "expiry_type"))
      then <["expiry_type" := VStr "chapter"]> ev else ev in
    let ev2 :=
      if negb (Py.truthy (get ev1 "expiry_value"))
         && negb (Py.eqb (get ev1 "expiry_type") (VStr "permanent"))
      then <["expiry_value" := VInt 1]> ev1 else ev1 in
    match get_or ev2 "effects" (VDict []) with
    | VDict raw_effects =>
        match TemporalState.add_buff (r_ts w)
                (get_or ev2 "name" (VStr "Unknown Buff"))
                (sanitize_effects raw_effects)
                (get_or ev2 "expiry_type" (VStr "permanent"))
                (get ev2 "expiry_value")
                (get_or ev2 "description" (VStr "")) with
        | (ts', Err e) =>
            (ev2, {| r_state := r_state w; r_ts := ts'; r_fe := r_fe w |}, Some e)
        | (ts', Ok buff_id) =>
            let st := r_state w in
            let st' :=
              if existsb (String.eqb buff_id) (buffs st) then st
              else set_buffs st (buffs st ++ [buff_id])%list in
            (ev2, {| r_state := st'; r_ts := ts'; r_fe := r_fe w |}, None)
        end
    | x => (ev2, w, Some (Py.no_attribute x "items"))
    end
  else (ev, w, None).

Section replay.
Context `{Externals}.
Variables (strict : bool) (schema : WorldSchema).

Definition _apply_event (w : Replay) (ev : event) (context : Context) : applied :=
  let event_type := get ev "type" in
  if Py.eqb event_type (VStr "gold") then apply_gold strict schema w ev
  else if Py.eqb event_type (VStr "item") then apply_item strict w ev
  else if Py.eqb event_type (VStr "stat") then apply_stat w ev
  else if Py.eqb event_type (VStr "buff") then apply_buff w ev
  else if Py.eqb event_type (VStr "chapter_start") then (ev, w, None)
  else if Py.eqb event_type (VStr "word_count_delta") then (ev, w, None)
  else (ev, w, None).

(** *** [reduce] *)

(** [x + v] for an int [x] *)
Definition int_add (x : Z) (v : pyval) : result Z :=
  match v with
  | VInt d => Ok (x + d)
  | VBool b => Ok (x + (if b then 1 else 0))
  | _ =>
      Err (Raise TypeError
             ("unsupported operand type(s) for +=: 'int' and '" ++ Py.type_name v ++ "'"))
  end.

(** The head of the loop body: the temporal context after the markers
    of the event. *)
Definition update_context (context : Context) (ev : event) : result Context :=
  let c := if Py.eqb (get ev "type") (VStr "chapter_start")
           then chapter context + 1 else chapter context in
  let ts := match ev !! "timestamp" with
            | Some v => v
            | None => timestamp context
            end in
  match ev !! "word_count_delta" with
  | Some v =>
      match int_add (word_count context) v with
      | Ok n => Ok {| chapter := c; word_count := n; timestamp := ts |}
      | Err e => Err e
      end
  | None => Ok {| chapter := c; word_count := word_count context; timestamp := ts |}
  end.

(** [l.remove(x)] *)
Fixpoint remove_first (x : string) (l : list string) : list string :=
  match l with
  | [] => []
  | y :: r => if String.eqb x y then r else y :: remove_first x r
  end.

(** [for expired_id in expired_buffs: ...] *)
Definition remove_expired (expired : list string) (l : list string) : list string :=
  fold_left (fun l expired_id => remove_first expired_id l) expired l.

(** One round of the loop of [reduce]: the markers, the expiry check on
    the updated context, then the event.  It yields the event as it is
    left, the context, what the replay holds, and the exception if one
    was raised. *)
Definition step (context : Context) (w : Replay) (ev : event)
  : event * Context * Replay * option exn :=
  match update_context context ev with
  | Err e => (ev, context, w, Some e)
  | Ok context' =>
      match TemporalState.check_expiry (r_ts w) (chapter context')
              (word_count context') (timestamp context') with
      | (_, Err e) => (ev, context', w, Some e)
      | (ts', Ok expired_buffs) =>
          let st := set_buffs (r_state w)
                      (remove_expired expired_buffs (buffs (r_state w))) in
          let '(ev', w', exc) :=
            _apply_event {| r_state := st; r_ts := ts'; r_fe := r_fe w |} ev context' in
          (ev', context', w', exc)
      end
  end.

(** The loop of [reduce] over the events still to come: the events as the
    loop leaves them, the final context, what the replay holds, and the
    exception that ended the loop, if any. *)
Fixpoint replay (context : Context) (w : Replay) (evs : list event)
  : list event * Context * Replay * option exn :=
  match evs with
  | [] => ([], context, w, None)
  | ev :: rest =>
      match step context w ev with
      | (ev', context', w', Some e) => (ev' :: rest, context', w', Some e)
      | (ev', context', w', None) =>
          let '(rest', context'', w'', exc) := replay context' w' rest in
          (ev' :: rest', context'', w'', exc)
      end
  end.

Definition CRITICAL_KEYS : list string :=
  ["HP"; "HEALTH"; "LIFE"; "MP"; "MANA"; "STAMINA"; "ENERGY"].

(** [for stat, modifier in buff_effects.items(): ...] *)
Definition combine_stats (base : list (pyval * PyDecimal.t))
  (buff_effects : list (string * PyDecimal.t)) : list (pyval * PyDecimal.t) :=
  fold_left
    (fun combined '(stat, modifier) =>
       let current := default PyDecimal.zero (od_get Py.eqb combined (VStr stat)) in
       od_set Py.eqb combined (VStr stat) (PyDecimal.add current modifier))
    buff_effects base.

(** The loop that fills [state["alerts"]]; a key that is not a str has
    no [upper]. *)
Fixpoint critical_alerts (all_stats : list (pyval * PyDecimal.t))
  : result (list string) :=
  match all_stats with
  | [] => Ok []
  | (VStr k, v) :: r =>
      match critical_alerts r with
      | Err e => Err e
      | Ok al =>
          if existsb (String.eqb (PyStr.upper k)) CRITICAL_KEYS
             && PyDecimal.ltb v PyDecimal.zero
          then Ok (("CRITICAL: " ++ k ++ " is negative ("
                    ++ PyDecimal.to_string v ++ ")") :: al)
          else Ok al
      end
  | (k, _) :: _ => Err (Py.no_attribute k "upper")
  end.

(** The part of [reduce] after the loop. *)
Definition finalize (context : Context) (w : Replay)
  : FormulaEngine.t * result State :=
  let st := r_state w in
  let combined :=
    od_set Py.eqb
      (od_set Py.eqb
         (combine_stats (stats st) (TemporalState.get_active_effects (r_ts w)))
         (VStr "chapter") (PyDecimal.of_Z (chapter context)))
      (VStr "word_count") (PyDecimal.of_Z (word_count context)) in
  match FormulaEngine.get_all_computed_stats (r_fe w)
          (List.map (fun '(k, d) => (k, FormulaEngine.CDec d)) combined) with
  | (fe', Err e) => (fe', Err e)
  | (fe', Ok computed) =>
      let all_stats :=
        fold_left (fun acc '(k, v) => od_set Py.eqb acc (VStr k) v)
                  computed (stats st) in
      match critical_alerts all_stats with
      | Err e => (fe', Err e)
      | Ok al =>
          (fe',
           Ok {| gold_cp := gold_cp st; inventory := inventory st;
                 stats := stats st; computed_stats := computed;
                 buffs := buffs st; alerts := al |})
      end
  end.

End replay.

(** What a call of [reduce] leaves behind: the events it was given, as
    annotated in place; the temporal state and the formula engine of the
    ledger; and the state it returns or the exception it raises. *)
Record reduced := {
  red_events : list event;
  red_ts : TemporalState.t;
  red_fe : FormulaEngine.t;
  red_state : result State;
}.

Definition reduce `{Externals} (eng : t) (evs : list event) : reduced :=
  let '(evs', context, w, exc) :=
    replay (strict_mode eng) (unit_registry eng) initial_context
           {| r_state := _get_initial_state; r_ts := temporal_state eng;
              r_fe := formula_engine eng |} evs in
  match exc with
  | Some e =>
      {| red_events := evs'; red_ts := r_ts w; red_fe := r_fe w; red_state := Err e |}
  | None =>
      let '(fe', st) := finalize context w in
      {| red_events := evs'; red_ts := r_ts w; red_fe := fe'; red_state := st |}
  end.

(** *** [add_event] *)

Definition with_replay (eng : t) (counter : Z) (evs : list event) (red : reduced) : t :=
  {| strict_mode := strict_mode eng;
     events := evs;
     _event_id_counter := counter;
     unit_registry := unit_registry eng;
     formula_engine := red_fe red;
     temporal_state := red_ts red;
     rule_engine := rule_engine eng |}.

Definition with_counter (eng : t) (counter : Z) : t :=
  {| strict_mode := strict_mode eng;
     events := events eng;
     _event_id_counter := counter;
     unit_registry := unit_registry eng;
     formula_engine := formula_engine eng;
     temporal_state := temporal_state eng;
     rule_engine := rule_engine eng |}.

Definition first_negative {K} (d : list (K * PyDecimal.t)) : option (K * PyDecimal.t) :=
  List.find (fun '(_, v) => PyDecimal.ltb v PyDecimal.zero) d.

(** The checks of [add_event] on the state of the trial replay: the
    message of the rejection, if any. *)
Definition add_event_check (strict : bool) (st : State) : option string :=
  if strict && PyDecimal.ltb (gold_cp st) PyDecimal.zero then
    Some ("金币不足 (会导致负值: " ++ PyDecimal.to_string (gold_cp st) ++ ")")
  else
    match (if strict then first_negative (inventory st) else None) with
    | Some (item, qty) =>
        Some ("物品 [" ++ Py.str item ++ "] 数量不足 (会导致负值: "
              ++ PyDecimal.to_string qty ++ ")")
    | None =>
        match (if strict then first_negative (stats st) else None) with
        | Some (stat, value) =>
            Some ("属性 [" ++ Py.str stat ++ "] 不能为负数 (会导致: "
                  ++ PyDecimal.to_string value ++ ")")
        | None => None
        end
    end.

(** [add_event(event)]: the engine afterwards and the pair returned, or
    the exception that escapes (one raised by the rule engine).  The events
    already in the log are the very objects that the trial replay walks
    over, so they keep what it wrote into them, whatever the outcome. *)
Definition add_event `{Externals} (eng : t) (event0 : event)
  : t * result (bool * string) :=
  let n := _event_id_counter eng + 1 in
  match RuleEngine.apply_rules (rule_engine eng) (<["event_id" := VInt n]> event0) with
  | Err e => (with_counter eng n, Err e)
  | Ok ev =>
      let red := reduce eng (events eng ++ [ev])%list in
      let kept := with_replay eng n (take (List.length (events eng)) (red_events red)) red in
      match red_state red with
      | Err e => (kept, Ok (false, "事件校验失败: " ++ Py.str_exn e))
      | Ok test_state =>
          match add_event_check (strict_mode eng) test_state with
          | Some msg => (kept, Ok (false, msg))
          | None => (with_replay eng n (red_events red) red, Ok (true, "Success"))
          end
      end
  end.

(** *** [_validate_security_rules] *)

Definition UNROBUST_STATS : list string :=
  ["XP"; "EXPERIENCE";
   "GOLD"; "GP"; "SP"; "CP"; "CREDITS"; "MONEY"; "USD"; "$"; "CENT";
   "HEALTH"; "HP"; "LIFE";
   "MANA"; "MP"; "MAGIC";
   "STAMINA"; "ENERGY";
   "FATIGUE"; "DEBT"; "STRESS";
   "DAMAGE"; "DEFENSE"; "ATTACK"; "POWER"].

Definition blocked_keywords : list string :=
  ["ignoreprompt"; "ignoreprevious"; "cheatcode"; "developeroverride";
   "systemoverride"; "ignoreinstructions"; "disregardprevious"].

Definition reason_raw (ev : event) : string :=
  PyStr.lower (Py.str (get_or ev "reason" (VStr ""))).

(** The reason with blanks, underscores and punctuation removed. *)
Definition reason_norm (ev : event) : string :=
  PyStr.filter_chars
    (fun c => PyStr.is_word c && negb (Nat.eqb (PyStr.code c) 95))
    (reason_raw ev).

Definition blocked_keyword (ev : event) : option string :=
  List.find (fun kw => PyStr.contains kw (reason_norm ev)) blocked_keywords.

Definition SAFE_LIMIT_HIGH : PyDecimal.t := PyDecimal.of_Z 999999.
Definition SAFE_LIMIT_STD : PyDecimal.t := PyDecimal.of_Z 20.

Definition cap_for (key : pyval) (low : PyDecimal.t) : PyDecimal.t :=
  if existsb (String.eqb (PyStr.upper (Py.str key))) UNROBUST_STATS
  then SAFE_LIMIT_HIGH else low.

(** The numerical bounds on a gain. *)
Definition bounds_check (ev : event) : result (bool * string) :=
  if Py.eqb (get ev "action") (VStr "gain") then
    match clean_decimal (get_or ev "value" (VStr "0")) with
    | Err e => Err e
    | Ok val =>
        let evt_type := get ev "type" in
        if Py.eqb evt_type (VStr "gold") then
          let limit := cap_for (get_or ev "unit" (VStr "")) (PyDecimal.of_Z 10000) in
          if PyDecimal.gtb val limit then
            Ok (false, "Security Alert: Gold/Currency gain " ++ PyDecimal.to_string val
                       ++ " exceeds safety limit (" ++ PyDecimal.to_string limit ++ ").")
          else Ok (true, "Safe")
        else if Py.eqb evt_type (VStr "stat") then
          let limit := cap_for (get_or ev "name" (VStr "")) SAFE_LIMIT_STD in
          if PyDecimal.gtb val limit then
            Ok (false, "Security Alert: Stat increase " ++ PyDecimal.to_string val
                       ++ " exceeds safety limit (" ++ PyDecimal.to_string limit ++ ").")
          else Ok (true, "Safe")
        else if Py.eqb evt_type (VStr "item") then
          match clean_decimal (get_or ev "qty" (VStr "1")) with
          | Err e => Err e
          | Ok qty =>
              if PyDecimal.gtb qty (PyDecimal.of_Z 50) then
                Ok (false, "Security Alert: Item quantity " ++ PyDecimal.to_string qty
                           ++ " exceeds safety limit (50).")
              else Ok (true, "Safe")
          end
        else Ok (true, "Safe")
    end
  else Ok (true, "Safe").

Definition _validate_security_rules (ev : event) : result (bool * string) :=
  match blocked_keyword ev with
  | Some kw =>
      Ok (false, "Security Alert: Blocked suspicious keyword '" ++ kw
                 ++ "' (detected in '" ++ reason_raw ev ++ "')")
  | None => bounds_check ev
  end.

(** *** [process_batch] *)

(** What the first loop of [process_batch] comes to.  Each event is a
    shallow copy of its transaction; the transactions are taken to be
    distinct objects that share no list or dict among them. *)
Inductive screened :=
| Blocked (counter : Z) (security_msg : string)
| Raised (counter : Z) (e : exn)
| Passed (counter : Z) (events_to_add : list event).

Fixpoint screen (counter : Z) (events_to_add : list event) (transactions : list event)
  : screened :=
  match transactions with
  | [] => Passed counter events_to_add
  | tx :: r =>
      match _validate_security_rules tx with
      | Err e => Raised counter e
      | Ok (false, security_msg) => Blocked counter security_msg
      | Ok (true, _) =>
          screen (counter + 1)
                 (events_to_add ++ [<["event_id" := VInt (counter + 1)]> tx])%list r
      end
  end.

(** The checks of [process_batch] on the state of the trial replay. *)
Definition batch_check (strict : bool) (st : State) : option string :=
  if strict && PyDecimal.ltb (gold_cp st) PyDecimal.zero then
    Some ("交易批次失败: 金币不足 (最终值: " ++ PyDecimal.to_string (gold_cp st) ++ " CP)")
  else
    match (if strict then first_negative (inventory st) else None) with
    | Some (item, qty) =>
        Some ("交易批次失败: 物品 [" ++ Py.str item ++ "] 数量不足 (最终值: "
              ++ PyDecimal.to_string qty ++ ")")
    | None => None
    end.

(** The line of the success log for one committed event, if it has one. *)
Definition success_log (ev : event) : result (option string) :=
  match get_or ev "action" (VStr "") with
  | VStr a =>
      let action := PyStr.upper a in
      let event_type := get ev "type" in
      if Py.eqb event_type (VStr "gold") then
        Ok (Some (action ++ " " ++ Py.str (get ev "value") ++ " "
                  ++ Py.str (get_or ev "unit" (VStr "CP"))))
      else if Py.eqb event_type (VStr "item") then
        Ok (Some (action ++ " " ++ Py.str (get ev "name") ++ " x"
                  ++ Py.str (get_or ev "qty" (VInt 1))))
      else if Py.eqb event_type (VStr "stat") then
        Ok (Some (action ++ " " ++ Py.str (get ev "name") ++ " +"
                  ++ Py.str (get ev "value")))
      else if Py.eqb event_type (VStr "buff") then
        Ok (Some ("Buff Applied: " ++ Py.str (get ev "name")))
      else Ok None
  | x => Err (Py.no_attribute x "upper")
  end.

Fixpoint success_logs (evs : list event) : result (list string) :=
  match evs with
  | [] => Ok []
  | ev :: r =>
      match success_log ev with
      | Err e => Err e
      | Ok line =>
          match success_logs r with
          | Err e => Err e
          | Ok lines => Ok (match line with Some x => x :: lines | None => lines end)
          end
      end
  end.

(** [process_batch(transactions)]: the engine afterwards and the pair
    returned, or the exception that escapes. *)
Definition process_batch `{Externals} (eng : t) (transactions : list event)
  : t * result (bool * list string) :=
  match screen (_event_id_counter eng) [] transactions with
  | Blocked n security_msg =>
      (with_counter eng n, Ok (false, ["⛔ Transaction Blocked: " ++ security_msg]))
  | Raised n e => (with_counter eng n, Err e)
  | Passed n events_to_add =>
      let red := reduce eng (events eng ++ events_to_add)%list in
      let kept := with_replay eng n (take (List.length (events eng)) (red_events red)) red in
      match red_state red with
      | Err e => (kept, Ok (false, ["交易批次失败: " ++ Py.str_exn e]))
      | Ok test_state =>
          match batch_check (strict_mode eng) test_state with
          | Some msg => (kept, Ok (false, [msg]))
          | None =>
              let committed := with_replay eng n (red_events red) red in
              match success_logs (drop (List.length (events eng)) (red_events red)) with
              | Err e => (committed, Err e)
              | Ok logs => (committed, Ok (true, logs))
              end
          end
      end
  end.

(** *** [load_events], [modify_event], [delete_event], [delete_events] *)

(** The log on disk, as [json.load] reads it; each of its three keys may
    be missing. *)
Record SaveFile := {
  sf_events : option (list event);
  sf_last_event_id : option Z;
  sf_active_buffs : option (list TemporalState.BuffDict);
}.

Definition with_log (eng : t) (evs : list event) (counter : Z) (ts : TemporalState.t) : t :=
  {| strict_mode := strict_mode eng;
     events := evs;
     _event_id_counter := counter;
     unit_registry := unit_registry eng;
     formula_engine := formula_engine eng;
     temporal_state := ts;
     rule_engine := rule_engine eng |}.

(** The dict that [_auto_save] dumps, which is what [json.load] reads back
    from the file. *)
Definition saved_data (eng : t) : SaveFile :=
  {| sf_events := Some (events eng);
     sf_last_event_id := Some (_event_id_counter eng);
     sf_active_buffs := Some (TemporalState.to_dict (temporal_state eng)) |}.

(** [load_events()]; [saved] is the file at the save path, [None] when the
    engine has no save path or the file does not exist.  The exception is
    one of [from_dict]. *)
Definition load_events (eng : t) (saved : option SaveFile) : t * option exn :=
  match saved with
  | None => (with_log eng [] 0 (temporal_state eng), None)
  | Some data =>
      let evs := default [] (sf_events data) in
      let counter := default 0 (sf_last_event_id data) in
      match sf_active_buffs data with
      | None => (with_log eng evs counter (temporal_state eng), None)
      | Some active =>
          let '(ts, exc) := TemporalState.from_dict (temporal_state eng) active in
          (with_log eng evs counter ts, exc)
      end
  end.

(** The index of the first event whose ["event_id"] equals [event_id]. *)
Fixpoint find_event (event_id : Z) (evs : list event) : option nat :=
  match evs with
  | [] => None
  | evt :: r =>
      if Py.eqb (get evt "event_id") (VInt event_id) then Some 0%nat
      else option_map S (find_event event_id r)
  end.

Definition not_found (event_id : Z) : string :=
  "Event #" ++ PyStr.of_Z event_id ++ " not found".

(** The checks of [modify_event] on the replayed state. *)
Definition modify_event_check (strict : bool) (st : State) : option string :=
  if strict && PyDecimal.ltb (gold_cp st) PyDecimal.zero then
    Some ("冲突: 金币不足 (" ++ PyDecimal.to_string (gold_cp st) ++ " CP)")
  else
    match (if strict then first_negative (inventory st) else None) with
    | Some (item, qty) =>
        Some ("冲突: 物品 [" ++ Py.str item ++ "] 数量不足 ("
              ++ PyDecimal.to_string qty ++ ")")
    | None => None
    end.

(** The rollback of [modify_event] in its [except] branch. *)
Definition reload_after (eng : t) (saved : option SaveFile) (e : exn)
  : t * result (bool * string) :=
  match load_events eng saved with
  | (eng', None) => (eng', Ok (false, "重算失败: " ++ Py.str_exn e))
  | (eng', Some e') => (eng', Err e')
  end.

(** The rollback of [modify_event] after a failed check: it stands inside
    the [try], so that an exception of [load_events] is caught and the log
    loaded again. *)
Definition reload (eng : t) (saved : option SaveFile) (msg : string)
  : t * result (bool * string) :=
  match load_events eng saved with
  | (eng', None) => (eng', Ok (false, msg))
  | (eng', Some e) => reload_after eng' saved e
  end.

(** [modify_event(event_id, new_data)] of an engine whose file holds
    [saved]: the engine afterwards and the pair returned, or the exception
    that escapes.  The event is updated in place before the replay. *)
Definition modify_event `{Externals} (eng : t) (saved : option SaveFile)
  (event_id : Z) (new_data : event) : t * result (bool * string) :=
  match find_event event_id (events eng) with
  | None => (eng, Ok (false, not_found event_id))
  | Some event_index =>
      let red := reduce eng (alter (fun evt => new_data ∪ evt) event_index (events eng)) in
      let replayed := with_replay eng (_event_id_counter eng) (red_events red) red in
      match red_state red with
      | Err e => reload_after replayed saved e
      | Ok new_state =>
          match modify_event_check (strict_mode eng) new_state with
          | Some msg => reload replayed saved msg
          | None => (replayed, Ok (true, "事件已修改，状态已重算"))
          end
      end
  end.

(** The checks of [delete_event] on the replayed state. *)
Definition delete_event_check (strict : bool) (st : State) : option string :=
  if strict && PyDecimal.ltb (gold_cp st) PyDecimal.zero then
    Some ("删除失败: 金币不足 (会导致: " ++ PyDecimal.to_string (gold_cp st) ++ " CP)")
  else
    match (if strict then first_negative (inventory st) else None) with
    | Some (item, qty) =>
        Some ("删除失败: 物品 [" ++ Py.str item ++ "] 数量不足 (会导致: "
              ++ PyDecimal.to_string qty ++ ")")
    | None => None
    end.

(** [original_events] after the replay of the other events: the event at
    [event_index] as it was, around it the events that the replay
    annotated. *)
Definition put_back (original : list event) (event_index : nat) (rest : list event)
  : list event :=
  (take event_index rest ++ take 1 (drop event_index original) ++ drop event_index rest)%list.

(** [delete_event(event_id)]: the engine afterwards and the pair
    returned. *)
Definition delete_event `{Externals} (eng : t) (event_id : Z) : t * (bool * string) :=
  match find_event event_id (events eng) with
  | None => (eng, (false, not_found event_id))
  | Some event_index =>
      let red := reduce eng (delete event_index (events eng)) in
      let restored :=
        with_replay eng (_event_id_counter eng)
          (put_back (events eng) event_index (red_events red)) red in
      match red_state red with
      | Err e => (restored, (false, "删除失败: " ++ Py.str_exn e))
      | Ok new_state =>
          match delete_event_check (strict_mode eng) new_state with
          | Some msg => (restored, (false, msg))
          | None =>
              (with_replay eng (_event_id_counter eng) (red_events red) red,
               (true, "事件 #" ++ PyStr.of_Z event_id ++ " 已删除"))
          end
      end
  end.

(** [e.get("event_id") not in ids_to_delete] *)
Definition to_delete (event_ids : list Z) (e : event) : bool :=
  existsb (fun i => Py.eqb (get e "event_id") (VInt i)) event_ids.

(** The events that the comprehension keeps; an id that cannot be hashed
    raises. *)
Fixpoint remaining (event_ids : list Z) (evs : list event) : result (list event) :=
  match evs with
  | [] => Ok []
  | e :: r =>
      if negb (Py.hashable (get e "event_id")) then Err (Py.unhashable (get e "event_id"))
      else
        match remaining event_ids r with
        | Err x => Err x
        | Ok l => Ok (if to_delete event_ids e then l else e :: l)
        end
  end.

(** [original_events] after the replay of the remaining events. *)
Fixpoint put_back_all (event_ids : list Z) (original rest : list event) : list event :=
  match original with
  | [] => []
  | e :: r =>
      if to_delete event_ids e then e :: put_back_all event_ids r rest
      else
        match rest with
        | a :: rest' => a :: put_back_all event_ids r rest'
        | [] => e :: put_back_all event_ids r []
        end
  end.

(** The checks of [delete_events] on the replayed state. *)
Definition delete_events_check (strict : bool) (st : State) : option string :=
  if strict && PyDecimal.ltb (gold_cp st) PyDecimal.zero then
    Some ("Batch delete failed: Insufficient Gold ("
          ++ PyDecimal.to_string (gold_cp st) ++ " CP)")
  else
    match (if strict then first_negative (inventory st) else None) with
    | Some (item, qty) =>
        Some ("Batch delete failed: Insufficient " ++ Py.str item ++ " ("
              ++ PyDecimal.to_string qty ++ ")")
    | None => None
    end.

(** [delete_events(event_ids)]: the engine afterwards and the pair
    returned, or the exception that escapes. *)
Definition delete_events `{Externals} (eng : t) (event_ids : list Z)
  : t * result (bool * list string) :=
  match remaining event_ids (events eng) with
  | Err e => (eng, Err e)
  | Ok kept =>
      let count := (Z.of_nat (List.length (events eng)) - Z.of_nat (List.length kept))%Z in
      if count =? 0 then
        (with_log eng kept (_event_id_counter eng) (temporal_state eng),
         Ok (true, ["No events deleted (IDs not found)"]))
      else
        let red := reduce eng kept in
        let restored :=
          with_replay eng (_event_id_counter eng)
            (put_back_all event_ids (events eng) (red_events red)) red in
        match red_state red with
        | Err e => (restored, Ok (false, ["Batch delete failed: " ++ Py.str_exn e]))
        | Ok new_state =>
            match delete_events_check (strict_mode eng) new_state with
            | Some msg => (restored, Ok (false, [msg]))
            | None =>
                (with_replay eng (_event_id_counter eng) (red_events red) red,
                 Ok (true, ["Successfully deleted " ++ PyStr.of_Z count ++ " events"]))
            end
        end
  end.

(** [process_transaction(tx)] *)
Definition process_transaction `{Externals} (eng : t) (tx : event)
  : t * result (bool * string) := add_event eng tx.

(** [get_state()], without its cache: the engine afterwards and the state
    or the exception. *)
Definition get_state `{Externals} (eng : t) : t * result State :=
  let red := reduce eng (events eng) in
  (with_replay eng (_event_id_counter eng) (red_events red) red, red_state red).

(** A fresh engine: [LedgerEngine(save_path=None, world_schema=schema,
    strict_mode=strict)]. *)
Definition init (schema : WorldSchema) (strict : bool) : t :=
  {| strict_mode := strict;
     events := [];
     _event_id_counter := 0;
     unit_registry := schema;
     formula_engine := FormulaEngine.empty;
     temporal_state := TemporalState.empty;
     rule_engine := RuleEngine.empty |}.

End LedgerEngine.

(** ** Engines and events used by the examples *)

Module Examples.

Import LedgerEngine.

(** An interpretation of the library calls; no example reaches one. *)
Definition library : Externals :=
  {| ratio := fun _ _ => 0%Q;
     time_reached := fun _ _ => None;
     eval_other := fun _ _ => Err (Raise EvalError "not evaluated") |}.

Definition ev (l : list (string * pyval)) : event := list_to_map l.

Definition draft : LedgerEngine.t := init WorldSchemaM.classic_fantasy false.
Definition strict : LedgerEngine.t := init WorldSchemaM.classic_fantasy true.

Definition gold (action value unit : string) : event :=
  ev [("type", VStr "gold"); ("action", VStr action);
      ("value", VStr value); ("unit", VStr unit)].

Definition chapter_start : event := ev [("type", VStr "chapter_start")].


Definition aura : event :=
  ev [("type", VStr "buff"); ("action", VStr "gain"); ("name", VStr "Aura");
      ("effects", VDict [("Attack", VStr "10")]);
      ("expiry_type", VStr "permanent")].

(** An engine with the formula [Might = Attack + 0]. *)
Definition with_might : LedgerEngine.t :=
  {| strict_mode := false; events := []; _event_id_counter := 0;
     unit_registry := WorldSchemaM.classic_fantasy;
     formula_engine :=
       fst (FormulaEngine.register_formula FormulaEngine.empty "Might" "Attack + 0");
     temporal_state := TemporalState.empty;
     rule_engine := RuleEngine.empty |}.

(** An engine with the rule "all gold halved". *)
Definition halving : LedgerEngine.t :=
  {| strict_mode := false; events := []; _event_id_counter := 0;
     unit_registry := WorldSchemaM.classic_fantasy;
     formula_engine := FormulaEngine.empty;
     temporal_state := TemporalState.empty;
     rule_engine :=
       fst (RuleEngine.add_rule RuleEngine.empty "gold" "multiply"
              (PyDecimal.mk 5 (-1)) None "inflation") |}.


(** A draft engine with 1 GP in its log. *)
Definition funded : LedgerEngine.t := fst (add_event (H := library) draft (gold "gain" "1" "GP")).

(** A draft engine whose log holds an overdraft of 5 CP, committed by
    [add_event]. *)
Definition overdrawn : LedgerEngine.t :=
  fst (add_event (H := library) draft (gold "lose" "5" "CP")).

(** A temporal state with one buff, which lasts up to 500 words. *)
Definition focused : TemporalState.t :=
  fst (TemporalState.add_buff TemporalState.empty (VStr "Focus") []
         (VStr "word_count") (VInt 500) (VStr "")).

(** An event whose word-count delta is no number. *)
Definition bad_marker : event :=
  ev [("type", VStr "word_count_delta"); ("word_count_delta", VStr "abc")].


Definition item (action name qty reason : string) : event :=
  ev [("type", VStr "item"); ("action", VStr action); ("name", VStr name);
      ("qty", VStr qty); ("reason", VStr reason)].

(** A schema with a unit worth half the base unit:
    [WorldSchema.custom("Coins", "CP", {"CP": "1", "HCP": "0.5"})]. *)
Definition half_coins : WorldSchema :=
  {| currency_name := "Coins"; base_unit := "CP";
     conversions := [("CP", PyDecimal.of_Z 1); ("HCP", PyDecimal.mk 5 (-1))];
     display_format := "standard" |}.

(** The formula engine with [Q = x / y]. *)
Definition quotient : FormulaEngine.t :=
  fst (FormulaEngine.register_formula FormulaEngine.empty "Q" "x / y").

Definition xy (x y : Z) : list (pyval * FormulaEngine.ctxval) :=
  [(VStr "x", FormulaEngine.CVal (VInt x)); (VStr "y", FormulaEngine.CVal (VInt y))].

(** The library calls with the ratio that difflib gives for "rotten cor"
    and "rotten core", 20/21. *)
Definition spelling : Externals :=
  {| ratio := fun a b =>
       if String.eqb a "rotten cor" && String.eqb b "rotten core"
       then (20 # 21)%Q else 0%Q;
     time_reached := fun _ _ => None;
     eval_other := fun _ _ => Err (Raise EvalError "not evaluated") |}.

(** The temporal state [focused] with a permanent aura of +10 Attack. *)
Definition blessed : TemporalState.t :=
  fst (TemporalState.add_buff focused (VStr "Aura") [("Attack", VInt 10)]
         (VStr "permanent") VNone (VStr "")).

(** A rule engine whose only rule carries a condition. *)
Definition conditional : RuleEngine.t :=
  fst (RuleEngine.add_rule RuleEngine.empty "gold" "multiply" (PyDecimal.of_Z 2)
         (Some "chapter > 3") "late bonus").

(** A strict engine that gained 1 GP and spent it. *)
Definition spent : LedgerEngine.t :=
  fst (add_event (H := library)
         (fst (add_event (H := library) strict (gold "gain" "1" "GP")))
         (gold "lose" "1" "GP")).

End Examples.

(** * Vocabulary of the properties *)

(** ** Formulas *)

Section formula_vocabulary.
Import FormulaEngine.






End formula_vocabulary.

(** ** Breakdowns *)

(** A rate that is a whole number of base units. *)
Definition whole_rate (ur : string * PyDecimal.t) : Prop :=
  PyDecimal.exp (snd ur) = 0 /\ 1 <= PyDecimal.coeff (snd ur).

(** [a] comes before [b] in the order of a breakdown. *)
Definition dearer (a b : string * PyDecimal.t) : Prop :=
  PyDecimal.coeff (snd b) <= PyDecimal.coeff (snd a).

(** What an entry of a breakdown is worth in base units, as an integer. *)
Definition entry_worth (conv : list (string * PyDecimal.t)) (uq : string * PyDecimal.t) : Z :=
  match od_get String.eqb conv (fst uq) with
  | Some r => PyDecimal.coeff (snd uq) * PyDecimal.coeff r
  | None => 0
  end.

Definition worth (conv m : list (string * PyDecimal.t)) : Z :=
  fold_right (fun uq acc => entry_worth conv uq + acc) 0 m.

(** A whole, non-negative count of a unit that the schema has at a whole
    rate. *)
Definition entry_ok (conv : list (string * PyDecimal.t)) (uq : string * PyDecimal.t) : Prop :=
  PyDecimal.exp (snd uq) = 0 /\ 0 <= PyDecimal.coeff (snd uq)
  /\ exists r, od_get String.eqb conv (fst uq) = Some r /\ whole_rate (fst uq, r).

(** The loop of the breakdown before it meets the base unit: what is
    counted and what remains make up the value. *)
Definition counting (conv : list (string * PyDecimal.t)) (base : string) (v : Z)
  (st : UnitRegistry.breakdown_state) (todo : list (string * PyDecimal.t)) : Prop :=
  PyDecimal.exp (UnitRegistry.bd_remaining st) = 0
  /\ 0 <= PyDecimal.coeff (UnitRegistry.bd_remaining st)
  /\ Forall (entry_ok conv) (UnitRegistry.bd_result st)
  /\ (forall u, In u (List.map fst (UnitRegistry.bd_result st)) -> ~ In u (List.map fst todo))
  /\ od_get String.eqb (UnitRegistry.bd_result st) base = None
  /\ worth conv (UnitRegistry.bd_result st)
     + PyDecimal.coeff (UnitRegistry.bd_remaining st) = v.

(** ** The ledger and its replay *)

Section ledger_vocabulary.
Context `{Externals}.
Import LedgerEngine.

(** What the specification calls a security violation: a blocked keyword
    in the normalized reason, or a gain above its cap. *)
Inductive violation (tx : event) : Prop :=
| blocked_reason kw :
    In kw blocked_keywords -> PyStr.contains kw (reason_norm tx) = true ->
    violation tx
| gold_over_cap val :
    get tx "action" = VStr "gain" -> get tx "type" = VStr "gold" ->
    clean_decimal (get_or tx "value" (VStr "0")) = Ok val ->
    PyDecimal.gtb val (cap_for (get_or tx "unit" (VStr "")) (PyDecimal.of_Z 10000)) = true ->
    violation tx
| stat_over_cap val :
    get tx "action" = VStr "gain" -> get tx "type" = VStr "stat" ->
    clean_decimal (get_or tx "value" (VStr "0")) = Ok val ->
    PyDecimal.gtb val (cap_for (get_or tx "name" (VStr "")) SAFE_LIMIT_STD) = true ->
    violation tx
| item_over_cap qty :
    get tx "action" = VStr "gain" -> get tx "type" = VStr "item" ->
    clean_decimal (get_or tx "qty" (VStr "1")) = Ok qty ->
    PyDecimal.gtb qty (PyDecimal.of_Z 50) = true ->
    violation tx.

(** The keys that [_apply_event] writes: its annotations, the name it
    settles by fuzzy matching and the expiry defaults of a buff. *)
Definition replay_keys : list string :=
  ["requires_manual_fix"; "is_implicit"; "logs"; "original_name"; "name";
   "expiry_type"; "expiry_value"].

(** [ev'] is [ev] up to the keys a replay writes. *)
Definition same_payload (ev ev' : event) : Prop :=
  forall k, ~ In k replay_keys -> ev' !! k = ev !! k.

(** The event ids of [evs] increase strictly, from above [lo] up to at most
    [hi]. *)
Fixpoint ids_between (lo hi : Z) (evs : list event) : Prop :=
  match evs with
  | [] => lo <= hi
  | ev :: r =>
      exists n, ev !! "event_id" = Some (VInt n) /\ lo < n /\ ids_between n hi r
  end.

(** The ids of the log increase strictly and none exceeds the counter. *)
Definition log_ok (eng : LedgerEngine.t) : Prop :=
  exists lo, ids_between lo (_event_id_counter eng) (events eng).

(** The expiry test of one buff, as a boolean: an exception counts as not
    expired, but then the whole check raises. *)
Definition expired_now (c wc : Z) (t : pyval) (b : TemporalState.Buff) : bool :=
  match TemporalState.is_expired b c wc t with
  | Ok x => x
  | Err _ => false
  end.





(** The ids of the active buffs are distinct, and each was handed out by
    the counter. *)
Definition ts_wf (ts : TemporalState.t) : Prop :=
  0 <= TemporalState._buff_id_counter ts
  /\ NoDup (List.map TemporalState.id (TemporalState.active_buffs ts))
  /\ Forall (fun b => exists k, 0 <= k <= TemporalState._buff_id_counter ts
                                /\ TemporalState.id b = TemporalState.buff_id k)
            (TemporalState.active_buffs ts).







End ledger_vocabulary.


(** ** Observations of the example engines *)

Section example_vocabulary.
Import LedgerEngine Examples.

(** The same engine with other rules. *)
Definition with_rules (eng : LedgerEngine.t) (re : RuleEngine.t) : LedgerEngine.t :=
  {| strict_mode := strict_mode eng;
     events := events eng;
     _event_id_counter := _event_id_counter eng;
     unit_registry := unit_registry eng;
     formula_engine := formula_engine eng;
     temporal_state := temporal_state eng;
     rule_engine := re |}.

(** The same engine after a call of [reduce]. *)
Definition after (eng : LedgerEngine.t) (red : reduced) : LedgerEngine.t :=
  with_replay eng (_event_id_counter eng) (events eng) red.

Definition last_value (eng : LedgerEngine.t) : option pyval :=
  match List.rev (events eng) with
  | e :: _ => e !! "value"
  | [] => None
  end.



End example_vocabulary.

(** ** Texts *)

(** Every character of [s] satisfies [p]. *)
Fixpoint all_chars (p : ascii -> bool) (s : string) : Prop :=
  match s with
  | EmptyString => True
  | String c r => p c = true /\ all_chars p r
  end.


(** A character that [strip] and the removal of underscores leave. *)
Definition plain_char (c : ascii) : bool :=
  negb (PyStr.is_space c) && negb (Ascii.eqb "_" c).

(** ** Histories of the engines *)

Section engine_vocabulary.
Context `{Externals}.

(** The temporal states that the operations of [TemporalState] lead to
    from a new one. *)
Inductive buffs_history : TemporalState.t -> Prop :=
| bh_new : buffs_history TemporalState.empty
| bh_add ts name effects et evl desc :
    buffs_history ts ->
    buffs_history (fst (TemporalState.add_buff ts name effects et evl desc))
| bh_remove ts buff_id :
    buffs_history ts -> buffs_history (fst (TemporalState.remove_buff ts buff_id))
| bh_expiry ts c wc t :
    buffs_history ts -> buffs_history (fst (TemporalState.check_expiry ts c wc t))
| bh_clear ts : buffs_history ts -> buffs_history (TemporalState.clear_all ts).

(** The rule engines that [add_rule], [remove_rule] and [clear_all_rules]
    lead to from a new one. *)
Inductive rules_history : RuleEngine.t -> Prop :=
| rh_new : rules_history RuleEngine.empty
| rh_add re tt op m c d :
    rules_history re -> rules_history (fst (RuleEngine.add_rule re tt op m c d))
| rh_remove re rule_id :
    rules_history re -> rules_history (fst (RuleEngine.remove_rule re rule_id))
| rh_clear re : rules_history re -> rules_history (RuleEngine.clear_all_rules re).

(** The id that [add_rule] makes of the counter [n]. *)
Definition rule_id (n : Z) : string := "rule_" ++ PyStr.pad3 n.

(** The ids of the active rules are distinct, and each was handed out by
    the counter. *)
Definition rules_wf (re : RuleEngine.t) : Prop :=
  0 <= RuleEngine._rule_id_counter re
  /\ NoDup (List.map RuleEngine.id (RuleEngine.active_rules re))
  /\ Forall (fun r => exists k, 0 <= k <= RuleEngine._rule_id_counter re
                                /\ RuleEngine.id r = rule_id k)
            (RuleEngine.active_rules re).

(** The counter that [from_dict] arrives at from [c]: the largest number
    among the ids of [l], if above [c]. *)
Definition last_number {A} (prefix : string) (id : A -> string) (c : Z) (l : list A) : Z :=
  fold_left
    (fun c x =>
       match TemporalState.id_number prefix (id x) with
       | Some num => Z.max c num
       | None => c
       end) l c.

(** The three tables of a formula engine are dicts: each key once. *)
Definition tables_ok (fe : FormulaEngine.t) : Prop :=
  NoDup (List.map fst (FormulaEngine.formulas fe))
  /\ NoDup (List.map fst (FormulaEngine.dirty_flags fe))
  /\ NoDup (List.map fst (FormulaEngine.dependencies fe)).

End engine_vocabulary.

Section ledger_history_vocabulary.
Context `{Externals}.
Import LedgerEngine.

(** The same engine with other formulas. *)
Definition with_formulas (eng : LedgerEngine.t) (fe : FormulaEngine.t) : LedgerEngine.t :=
  {| strict_mode := strict_mode eng;
     events := events eng;
     _event_id_counter := _event_id_counter eng;
     unit_registry := unit_registry eng;
     formula_engine := fe;
     temporal_state := temporal_state eng;
     rule_engine := rule_engine eng |}.

(** The engines that a new one becomes by adding and deleting events,
    whatever rules and formulas are registered in between. *)
Inductive ledger_history : LedgerEngine.t -> Prop :=
| lh_new schema strict : ledger_history (init schema strict)
| lh_add eng ev : ledger_history eng -> ledger_history (fst (add_event eng ev))
| lh_batch eng transactions :
    ledger_history eng -> ledger_history (fst (process_batch eng transactions))
| lh_delete eng event_id :
    ledger_history eng -> ledger_history (fst (delete_event eng event_id))
| lh_delete_many eng event_ids :
    ledger_history eng -> ledger_history (fst (delete_events eng event_ids))
| lh_state eng : ledger_history eng -> ledger_history (fst (get_state eng))
| lh_rules eng re : ledger_history eng -> ledger_history (with_rules eng re)
| lh_formulas eng fe : ledger_history eng -> ledger_history (with_formulas eng fe).

(** The id of an event, when it is an int. *)
Definition id_of (ev : event) : option Z :=
  match ev !! "event_id" with
  | Some (VInt n) => Some n
  | _ => None
  end.

End ledger_history_vocabulary.

(** * Properties *)

(** ** Decimal numerals and rounding *)

Section decimal_facts.

Lemma digits_value_acc (d : Decimal.uint) :
  forall acc, 0 < acc ->
    PyStr.digits_value acc (NilEmpty.string_of_uint d)
    = Z.pos (Pos.of_uint_acc d (Z.to_pos acc)).
Proof.
  induction d; intros acc Hacc;
    cbn [NilEmpty.string_of_uint PyStr.digits_value Pos.of_uint_acc];
    [by (destruct acc; cbn; lia)|..];
    match goal with
    | |- context [Z.of_nat (PyStr.code ?c - 48)] =>
        let v := eval vm_compute in (Z.of_nat (PyStr.code c - 48)) in
        change (Z.of_nat (PyStr.code c - 48)) with v
    end;
    rewrite IHd by lia; do 2 f_equal; (destruct acc; [lia| |lia]; cbn; lia).
Qed.

Lemma digits_value_uint (d : Decimal.uint) :
  PyStr.digits_value 0 (NilEmpty.string_of_uint d) = Z.of_N (Pos.of_uint d).
Proof.
  induction d; cbn [NilEmpty.string_of_uint PyStr.digits_value Pos.of_uint];
    [reflexivity|exact IHd|..];
    match goal with
    | |- context [10 * 0 + Z.of_nat (PyStr.code ?c - 48)] =>
        let v := eval vm_compute in (10 * 0 + Z.of_nat (PyStr.code c - 48)) in
        change (10 * 0 + Z.of_nat (PyStr.code c - 48)) with v
    end;
    by rewrite digits_value_acc.
Qed.

Lemma digits_value_of_Z (n : Z) : 0 <= n -> PyStr.digits_value 0 (PyStr.of_Z n) = n.
Proof.
  intros Hn. destruct n as [|p|p]; [reflexivity| |lia].
  unfold PyStr.of_Z. cbn [Z.to_int NilZero.string_of_int].
  pose proof (DecimalPos.Unsigned.to_uint_nonnil p) as Hnil.
  pose proof (digits_value_uint (Pos.to_uint p)) as Hv.
  rewrite DecimalPos.Unsigned.of_to in Hv.
  unfold NilZero.string_of_uint. by destruct (Pos.to_uint p).
Qed.

Lemma digits_value_ge (s : string) :
  forall acc, 0 <= acc ->
    acc * 10 ^ Z.of_nat (String.length s) <= PyStr.digits_value acc s.
Proof.
  induction s as [|c r IH]; intros acc Hacc; cbn [String.length PyStr.digits_value].
  - change (10 ^ Z.of_nat 0) with 1. lia.
  - rewrite Nat2Z.inj_succ, Z.pow_succ_r by lia.
    specialize (IH (10 * acc + Z.of_nat (PyStr.code c - 48))). nia.
Qed.

(** The numeral of a positive integer starts with a digit other than 0. *)
Lemma of_Z_head (p : positive) :
  exists c r, PyStr.of_Z (Z.pos p) = String c r /\ 1 <= Z.of_nat (PyStr.code c - 48).
Proof.
  unfold PyStr.of_Z. cbn [Z.to_int NilZero.string_of_int].
  pose proof (DecimalPos.Unsigned.to_of (Pos.to_uint p)) as Hn.
  rewrite DecimalPos.Unsigned.of_to in Hn. cbn [N.to_uint] in Hn.
  pose proof (DecimalPos.Unsigned.to_uint_nonzero p) as Hz.
  assert (Pos.to_uint p = Decimal.nzhead (Pos.to_uint p)) as Hh.
  { rewrite Hn at 1. unfold Decimal.unorm.
    destruct (Decimal.nzhead (Pos.to_uint p)) eqn:E; try reflexivity.
    exfalso. apply Hz. rewrite Hn. unfold Decimal.unorm. by rewrite E. }
  pose proof (DecimalFacts.nzhead_nonzero (Pos.to_uint p)) as Hd.
  rewrite <- Hh in Hd.
  pose proof (DecimalPos.Unsigned.to_uint_nonnil p) as Hnil.
  unfold NilZero.string_of_uint.
  destruct (Pos.to_uint p) as [|d|d|d|d|d|d|d|d|d|d]; [done|by destruct (Hd d)|..];
    cbn [NilEmpty.string_of_uint]; eexists _, _; (split; [reflexivity|]);
    vm_compute; discriminate.
Qed.

Lemma ndigits_lower (c : Z) : 0 < c -> 10 ^ (PyDecimal.ndigits c - 1) <= c.
Proof.
  intros Hc. unfold PyDecimal.ndigits. rewrite Z.abs_eq by lia.
  destruct c as [|p|p]; [lia| |lia].
  destruct (of_Z_head p) as (ch & r & Hs & Hd).
  pose proof (digits_value_of_Z (Z.pos p) ltac:(lia)) as Hv.
  rewrite Hs in *. cbn [String.length PyStr.digits_value] in *.
  pose proof (digits_value_ge r (10 * 0 + Z.of_nat (PyStr.code ch - 48)) ltac:(lia)) as Hg.
  rewrite Hv in Hg. rewrite Nat2Z.inj_succ.
  replace (Z.succ (Z.of_nat (String.length r)) - 1) with (Z.of_nat (String.length r)) by lia.
  assert (0 < 10 ^ Z.of_nat (String.length r)) by (apply Z.pow_pos_nonneg; lia).
  nia.
Qed.

(** A coefficient within the precision is kept as it is. *)
Lemma rounded_exact (c e : Z) :
  Z.abs c < 10 ^ PyDecimal.prec -> PyDecimal.rounded c e = PyDecimal.mk c e.
Proof.
  intros Hc. unfold PyDecimal.rounded, PyDecimal.fix_.
  assert (PyDecimal.ndigits (Z.abs c) <= PyDecimal.prec) as Hd.
  { destruct (Z.eq_dec c 0) as [->|Hn]; [by vm_compute|].
    pose proof (ndigits_lower (Z.abs c) ltac:(lia)) as Hl.
    destruct (Z.le_gt_cases (PyDecimal.ndigits (Z.abs c)) PyDecimal.prec) as [|Hgt]; [done|].
    exfalso.
    assert (10 ^ PyDecimal.prec <= 10 ^ (PyDecimal.ndigits (Z.abs c) - 1))
      by (apply Z.pow_le_mono_r; unfold PyDecimal.prec in *; lia).
    lia. }
  apply Z.leb_le in Hd. rewrite Hd. f_equal.
  unfold PyDecimal.signed. destruct (Z.ltb_spec c 0); lia.
Qed.


End decimal_facts.

(** ** Ordered dictionaries *)

Section odict_facts.
Context {V : Type}.
Implicit Types (d : list (string * V)) (k j : string) (v : V).

Lemma od_get_set_eq d k v : od_get String.eqb (od_set String.eqb d k v) k = Some v.
Proof.
  induction d as [|[j w] d IH]; simpl.
  - by rewrite String.eqb_refl.
  - destruct (String.eqb j k) eqn:E; simpl; rewrite E; [done | exact IH].
Qed.

Lemma od_get_set_ne d k j v :
  k <> j -> od_get String.eqb (od_set String.eqb d k v) j = od_get String.eqb d j.
Proof.
  intros Hne. induction d as [|[i w] d IH]; simpl.
  - destruct (String.eqb k j) eqn:E; [|done].
    apply String.eqb_eq in E. contradiction.
  - destruct (String.eqb i k) eqn:E; simpl.
    + apply String.eqb_eq in E. subst i.
      destruct (String.eqb k j) eqn:E'; [|done].
      apply String.eqb_eq in E'. contradiction.
    + by rewrite IH.
Qed.

Lemma od_del_set_fresh d k v :
  od_get String.eqb d k = None -> od_del String.eqb (od_set String.eqb d k v) k = d.
Proof.
  induction d as [|[j w] d IH]; simpl; intros Hk.
  - by rewrite String.eqb_refl.
  - destruct (String.eqb j k) eqn:E; [discriminate|].
    simpl. rewrite E. f_equal. by apply IH.
Qed.

Lemma od_set_length d k v : exists n, List.length (od_set String.eqb d k v) = S n.
Proof.
  destruct d as [|[j w] d]; simpl; [by eexists|].
  destruct (String.eqb j k); simpl; by eexists.
Qed.

End odict_facts.

(** ** Breakdowns above the base unit *)

Section breakdown_facts.
Import UnitRegistry.

Lemma ltb_whole (a b : PyDecimal.t) :
  PyDecimal.exp a = 0 -> PyDecimal.exp b = 0 ->
  PyDecimal.ltb a b = (PyDecimal.coeff a <? PyDecimal.coeff b).
Proof.
  intros Ha Hb. unfold PyDecimal.ltb, PyDecimal.lhs, PyDecimal.rhs.
  rewrite Ha, Hb. change (10 ^ (0 - Z.min 0 0)) with 1. by rewrite !Z.mul_1_r.
Qed.

Lemma eqb_whole (a b : PyDecimal.t) :
  PyDecimal.exp a = 0 -> PyDecimal.exp b = 0 ->
  PyDecimal.eqb a b = (PyDecimal.coeff a =? PyDecimal.coeff b).
Proof.
  intros Ha Hb. unfold PyDecimal.eqb, PyDecimal.lhs, PyDecimal.rhs.
  rewrite Ha, Hb. change (10 ^ (0 - Z.min 0 0)) with 1. by rewrite !Z.mul_1_r.
Qed.

Lemma insert_desc_perm x l : Permutation (insert_desc x l) (x :: l).
Proof.
  induction l as [|y r IH]; simpl; [done|].
  destruct (PyDecimal.ltb (snd x) (snd y)); [|done].
  rewrite IH. apply perm_swap.
Qed.

Lemma sorted_units_perm schema : Permutation (sorted_units schema) (conversions schema).
Proof.
  unfold sorted_units. induction (conversions schema) as [|x l IH]; simpl; [done|].
  by rewrite insert_desc_perm, IH.
Qed.

Lemma insert_desc_sorted x l :
  Forall whole_rate (x :: l) -> StronglySorted dearer l ->
  StronglySorted dearer (insert_desc x l).
Proof.
  intros Hw Hs. induction Hs as [|y r Hs IH Hy]; simpl.
  - repeat constructor.
  - apply Forall_cons in Hw as [Hx Hw]. apply Forall_cons in Hw as [Hy' Hw].
    rewrite ltb_whole by (apply Hx || apply Hy').
    destruct (Z.ltb_spec (PyDecimal.coeff (snd x)) (PyDecimal.coeff (snd y))) as [Hlt|Hge].
    + constructor; [apply IH; by constructor|].
      rewrite insert_desc_perm. constructor; [unfold dearer; lia|done].
    + constructor; [by constructor|].
      constructor; [done|].
      eapply Forall_impl; [exact Hy|]. unfold dearer. intros z Hz. lia.
Qed.

Lemma sorted_units_sorted schema :
  Forall whole_rate (conversions schema) ->
  StronglySorted dearer (sorted_units schema).
Proof.
  unfold sorted_units. induction 1 as [|x l Hx Hl IH]; simpl; [constructor|].
  apply insert_desc_sorted; [|done].
  constructor; [done|].
  eapply Permutation_Forall; [|exact Hl].
  symmetry. apply (sorted_units_perm {| currency_name := ""; base_unit := "";
                                        conversions := l; display_format := "" |}).
Qed.


Lemma od_get_In {V} (d : list (string * V)) k v :
  NoDup (List.map fst d) -> In (k, v) d -> od_get String.eqb d k = Some v.
Proof.
  induction d as [|[j w] d IH]; simpl; [done|].
  intros Hnd [Heq|Hin].
  - injection Heq as -> ->. by rewrite String.eqb_refl.
  - apply NoDup_cons in Hnd as [Hj Hnd].
    destruct (String.eqb_spec j k) as [->|_]; [|by apply IH].
    exfalso. apply Hj. apply list_elem_of_In. by apply (in_map fst _ (k, v)).
Qed.

Lemma od_get_None {V} (d : list (string * V)) k :
  od_get String.eqb d k = None <-> ~ In k (List.map fst d).
Proof.
  induction d as [|[j w] d IH]; simpl; [tauto|].
  destruct (String.eqb_spec j k) as [->|Hne].
  - split; [discriminate|]. intros Hn. exfalso. apply Hn. by left.
  - rewrite IH. tauto.
Qed.

Lemma od_set_fresh {V} (d : list (string * V)) k v :
  od_get String.eqb d k = None -> od_set String.eqb d k v = (d ++ [(k, v)])%list.
Proof.
  induction d as [|[j w] d IH]; simpl; [done|].
  destruct (String.eqb j k); [discriminate|]. intros Hk. by rewrite IH.
Qed.

(** Arithmetic on whole numbers within the precision is exact. *)
Lemma floordiv_whole (a r : Z) :
  0 <= a < 10 ^ PyDecimal.prec -> 1 <= r ->
  PyDecimal.floordiv (PyDecimal.mk a 0) (PyDecimal.mk r 0) = Some (PyDecimal.mk (a / r) 0).
Proof.
  intros Ha Hr. unfold PyDecimal.floordiv, PyDecimal.lhs, PyDecimal.rhs.
  cbn [PyDecimal.coeff PyDecimal.exp]. change (10 ^ (0 - Z.min 0 0)) with 1.
  rewrite !Z.mul_1_r, Z.quot_div_nonneg by lia.
  assert (0 <= a / r <= a) as Hq.
  { split; [apply Z.div_pos; lia|]. apply Z.div_le_upper_bound; nia. }
  destruct (Z.ltb_spec (Z.abs (a / r)) (10 ^ PyDecimal.prec)); [done|lia].
Qed.

Lemma mul_whole (a b : Z) :
  Z.abs (a * b) < 10 ^ PyDecimal.prec ->
  PyDecimal.mul (PyDecimal.mk a 0) (PyDecimal.mk b 0) = PyDecimal.mk (a * b) 0.
Proof. intros H. unfold PyDecimal.mul. cbn. by apply rounded_exact. Qed.

Lemma add_whole (a b : Z) :
  Z.abs (a + b) < 10 ^ PyDecimal.prec ->
  PyDecimal.add (PyDecimal.mk a 0) (PyDecimal.mk b 0) = PyDecimal.mk (a + b) 0.
Proof.
  intros H. unfold PyDecimal.add, PyDecimal.lhs, PyDecimal.rhs.
  cbn [PyDecimal.coeff PyDecimal.exp]. change (10 ^ (0 - Z.min 0 0)) with 1.
  rewrite !Z.mul_1_r. by apply rounded_exact.
Qed.

Lemma sub_whole (a b : Z) :
  Z.abs (a - b) < 10 ^ PyDecimal.prec ->
  PyDecimal.sub (PyDecimal.mk a 0) (PyDecimal.mk b 0) = PyDecimal.mk (a - b) 0.
Proof.
  intros H. unfold PyDecimal.sub, PyDecimal.lhs, PyDecimal.rhs.
  cbn [PyDecimal.coeff PyDecimal.exp]. change (10 ^ (0 - Z.min 0 0)) with 1.
  rewrite !Z.mul_1_r. by apply rounded_exact.
Qed.


Lemma worth_app conv m1 m2 : worth conv (m1 ++ m2) = worth conv m1 + worth conv m2.
Proof. induction m1 as [|x m1 IH]; simpl; [done|]. rewrite IH. lia. Qed.

Lemma entry_worth_nonneg conv uq : entry_ok conv uq -> 0 <= entry_worth conv uq.
Proof.
  intros (_ & Hq & r & Hr & _ & Hr1). unfold entry_worth. rewrite Hr.
  cbn [snd] in Hr1. nia.
Qed.

Lemma worth_nonneg conv m : Forall (entry_ok conv) m -> 0 <= worth conv m.
Proof.
  induction 1 as [|x m Hx Hm IH]; simpl; [done|].
  pose proof (entry_worth_nonneg _ _ Hx). lia.
Qed.

(** Once the base unit is counted, the units that follow it, all of rate 1,
    are passed over. *)
Lemma loop_after_base base st l :
  Forall (fun ur => PyDecimal.eqb (snd ur) PyDecimal.one = true /\ fst ur <> base) l ->
  breakdown_loop base st l = Ok st.
Proof.
  induction 1 as [|[u r] l [Hr Hu] Hl IH]; simpl; [done|].
  cbn [fst snd] in *.
  destruct (String.eqb_spec u base) as [->|_]; [done|]. cbn [negb].
  rewrite Hr. rewrite andb_true_r. cbn [andb].
  by destruct (existsb _ _).
Qed.

Lemma breakdown_loop_counts conv base v l :
  v < 10 ^ PyDecimal.prec ->
  (exists r1, od_get String.eqb conv base = Some r1 /\ PyDecimal.coeff r1 = 1) ->
  NoDup (List.map fst l) -> StronglySorted dearer l -> Forall whole_rate l ->
  (forall u r, In (u, r) l -> od_get String.eqb conv u = Some r) ->
  In base (List.map fst l) ->
  forall st, counting conv base v st l ->
    exists st', breakdown_loop base st l = Ok st'
                /\ Forall (entry_ok conv) (bd_result st')
                /\ od_mem String.eqb (bd_result st') base = true
                /\ worth conv (bd_result st') = v.
Proof.
  intros Hv (r1 & Hbase & Hone) Hnd Hs Hw Hconv Hin.
  induction l as [|[u r] l IH]; [done|]. intros st (He & Hrem & Hok & Hdis & Hnb & Hsum).
  cbn [List.map fst] in Hnd. apply NoDup_cons in Hnd as [Hu Hnd].
  rewrite list_elem_of_In in Hu.
  apply StronglySorted_inv in Hs as [Hs Hle].
  apply Forall_cons in Hw as [[Hre Hr1] Hw]. cbn [snd] in Hre, Hr1.
  pose proof (Hconv u r (or_introl eq_refl)) as Hur.
  pose proof (worth_nonneg _ _ Hok) as Hwn.
  destruct (bd_remaining st) as [a ae] eqn:Erem. cbn [PyDecimal.exp PyDecimal.coeff] in *.
  subst ae. destruct r as [rc re]. cbn [PyDecimal.exp PyDecimal.coeff] in *. subst re.
  cbn [breakdown_loop breakdown_step]. rewrite !Erem.
  destruct (String.eqb_spec u base) as [->|Hne].
  - (* the base unit *)
    cbn [negb]. rewrite !andb_false_r.
    rewrite Hbase in Hur. injection Hur as ->. cbn [PyDecimal.coeff] in Hone. subst rc.
    rewrite loop_after_base.
    + eexists. split; [reflexivity|]. cbn [bd_result].
      rewrite od_set_fresh by done.
      split; [|split].
      * apply Forall_app. split; [done|]. constructor; [|done].
        split; [done|]. split; [done|]. exists (PyDecimal.mk 1 0).
        split; [exact Hbase|]. split; cbn; lia.
      * unfold od_mem.
        replace (bd_result st ++ [(base, PyDecimal.mk a 0)])%list
          with (od_set String.eqb (bd_result st) base (PyDecimal.mk a 0))
          by (by apply od_set_fresh).
        by rewrite od_get_set_eq.
      * rewrite worth_app. simpl. unfold entry_worth. cbn [fst snd].
        rewrite Hbase. cbn [PyDecimal.coeff]. lia.
    + rewrite Forall_forall in Hle, Hw. apply Forall_forall. intros [u' r'] Hin'.
      cbn [fst snd]. split.
      * destruct (Hw _ Hin') as [He' Hr']. specialize (Hle _ Hin').
        unfold dearer in Hle. cbn [snd PyDecimal.coeff] in *.
        rewrite eqb_whole by done. apply Z.eqb_eq. cbn [PyDecimal.one PyDecimal.coeff]. lia.
      * intros ->. apply Hu. apply list_elem_of_In in Hin'.
        exact (in_map fst _ (base, r') Hin').
  - (* another unit *)
    cbn [negb]. rewrite !andb_true_r.
    assert (In base (List.map fst l)) as Hin'.
    { cbn [List.map fst] in Hin. destruct Hin as [->|]; [done|done]. }
    assert (forall st', counting conv base v st' l ->
              exists st'', breakdown_loop base st' l = Ok st''
                /\ Forall (entry_ok conv) (bd_result st'')
                /\ od_mem String.eqb (bd_result st'') base = true
                /\ worth conv (bd_result st'') = v) as IH'.
    { apply IH; try done. intros u' r' Hi. apply Hconv. by right. }
    assert (counting conv base v st l) as Hsame.
    { unfold counting. rewrite Erem. cbn [PyDecimal.exp PyDecimal.coeff].
      repeat split; try done. intros u' Hu' Hl'. apply (Hdis u' Hu'). by right. }
    destruct (existsb _ _); [by apply IH'|].
    destruct (PyDecimal.eqb _ _); [by apply IH'|].
    rewrite floordiv_whole by lia.
    assert (0 <= a / rc /\ a / rc * rc <= a) as [Hq0 Hq1].
    { split; [apply Z.div_pos; lia|]. rewrite Z.mul_comm. apply Z.mul_div_le. lia. }
    unfold PyDecimal.gtb. rewrite ltb_whole by done.
    cbn [PyDecimal.zero PyDecimal.coeff].
    destruct (Z.ltb_spec 0 (a / rc)) as [Hpos|_]; [|by apply IH'].
    apply IH'. unfold counting. cbn [bd_result bd_remaining].
    rewrite mul_whole, sub_whole by lia. cbn [PyDecimal.exp PyDecimal.coeff].
    assert (od_get String.eqb (bd_result st) u = None) as Hfresh.
    { apply od_get_None. intros Hi. apply (Hdis u Hi). by left. }
    split; [done|]. split; [lia|]. split; [|split; [|split]].
    + rewrite od_set_fresh by done. apply Forall_app. split; [done|].
      constructor; [|done]. split; [done|]. split; [done|].
      exists (PyDecimal.mk rc 0). split; [exact Hur|]. split; cbn; lia.
    + rewrite od_set_fresh by done. rewrite map_app. intros u' Hu' Hl'.
      apply in_app_or in Hu' as [Hu'|[<-|[]]].
      * apply (Hdis u' Hu'). by right.
      * by apply Hu.
    + by rewrite od_get_set_ne.
    + rewrite od_set_fresh by done. rewrite worth_app. simpl. unfold entry_worth.
      cbn [fst snd]. rewrite Hur. cbn [PyDecimal.coeff]. lia.
Qed.


Lemma od_get_Some_In {V} (d : list (string * V)) k v :
  od_get String.eqb d k = Some v -> In (k, v) d.
Proof.
  induction d as [|[j w] d IH]; simpl; [done|].
  destruct (String.eqb_spec j k) as [->|_]; [|by right; apply IH].
  intros [= ->]. by left.
Qed.

Lemma breakdown_total_worth schema m :
  Forall (entry_ok (conversions schema)) m ->
  forall acc, 0 <= acc -> acc + worth (conversions schema) m < 10 ^ PyDecimal.prec ->
    fold_left
      (fun acc '(u, q) =>
         match od_get String.eqb (conversions schema) u with
         | Some r => PyDecimal.add acc (PyDecimal.mul q r)
         | None => acc
         end)
      m (PyDecimal.mk acc 0)
    = PyDecimal.mk (acc + worth (conversions schema) m) 0.
Proof.
  induction 1 as [|[u q] m Hx Hm IH]; intros acc Hacc Hlt; cbn [fold_left].
  - f_equal. cbn. lia.
  - change (worth (conversions schema) ((u, q) :: m))
      with (entry_worth (conversions schema) (u, q) + worth (conversions schema) m)
      in Hlt |- *.
    pose proof (entry_worth_nonneg _ _ Hx) as Hx0.
    pose proof (worth_nonneg _ _ Hm) as Hm0.
    destruct Hx as (Hqe & Hq & r & Hr & Hre & Hr1).
    unfold entry_worth in *. cbn [fst snd] in *. rewrite Hr in *.
    destruct q as [qc qe], r as [rc re]. cbn [PyDecimal.coeff PyDecimal.exp] in *.
    subst qe re.
    rewrite mul_whole, add_whole by lia.
    rewrite IH by lia. f_equal. lia.
Qed.

(** X1.  Where every rate is a whole number, so that none is below the base
    unit, the breakdown that [from_base] gives for a whole amount within
    the precision is worth the amount exactly, and holds the base unit. *)
Theorem breakdown_exact_for_whole_rates schema v :
  WorldSchemaM.valid schema = true ->
  Forall whole_rate (conversions schema) ->
  0 <= v < 10 ^ PyDecimal.prec ->
  exists m,
    from_base schema (PyDecimal.of_Z v) None = Ok (Breakdown m)
    /\ breakdown_total schema m = PyDecimal.of_Z v
    /\ od_mem String.eqb m (base_unit schema) = true.
Proof.
  intros Hvalid Hwhole Hv. unfold WorldSchemaM.valid in Hvalid.
  repeat (apply andb_prop in Hvalid as [Hvalid ?]).
  destruct (od_get String.eqb (conversions schema) (base_unit schema)) as [r1|] eqn:Hbase;
    [|done].
  assert (NoDup (List.map fst (conversions schema))) as Hnd
    by (by eapply bool_decide_eq_true_1).
  pose proof (sorted_units_perm schema) as Hperm.
  assert (In (base_unit schema, r1) (conversions schema)) as Hin1
    by (by apply od_get_Some_In).
  assert (PyDecimal.coeff r1 = 1) as Hone.
  { rewrite Forall_forall in Hwhole.
    destruct (Hwhole (base_unit schema, r1)) as [He _]; [by apply list_elem_of_In|].
    rewrite eqb_whole in Hvalid by done. by apply Z.eqb_eq in Hvalid. }
  destruct (breakdown_loop_counts (conversions schema) (base_unit schema) v
              (sorted_units schema)) with
    (st := {| bd_result := []; bd_remaining := PyDecimal.of_Z v; bd_processed := [] |})
    as (st' & Hloop & Hok & Hmem & Hsum).
  - lia.
  - eauto.
  - by rewrite (Permutation_map fst Hperm).
  - by apply sorted_units_sorted.
  - eapply Permutation_Forall; [|exact Hwhole]. by symmetry.
  - intros u r Hin. apply od_get_In; [done|].
    eapply Permutation_in; [exact Hperm|done].
  - apply (in_map fst _ (base_unit schema, r1)).
    eapply Permutation_in; [symmetry; exact Hperm|done].
  - unfold counting. cbn. repeat split; try done; lia.
  - exists (bd_result st'). unfold from_base, breakdown. rewrite Hloop, Hmem.
    rewrite andb_false_r. split; [done|]. split; [|done].
    unfold breakdown_total. change PyDecimal.zero with (PyDecimal.mk 0 0).
    rewrite (breakdown_total_worth schema (bd_result st') Hok 0) by lia.
    by rewrite Hsum.
Qed.

End breakdown_facts.


(** ** Formula registration (C6) *)

Section registration.
Import FormulaEngine.

Lemma deps_of_A : _extract_dependencies "B * 2" = ["B"].
Proof. reflexivity. Qed.

Lemma deps_of_B : _extract_dependencies "A / 2" = ["A"].
Proof. reflexivity. Qed.

(** Registering [A = B * 2] where [B] is no formula goes through. *)
Lemma register_A_succeeds (fe : FormulaEngine.t) :
  od_get String.eqb (dependencies fe) "B" = None ->
  register_formula fe "A" "B * 2" =
    ({| formulas := od_set String.eqb (formulas fe) "A" "B * 2";
        dirty_flags := od_set String.eqb (dirty_flags fe) "A" true;
        dependencies := od_set String.eqb (dependencies fe) "A" ["B"] |}, None).
Proof.
  intros HB. unfold register_formula. rewrite deps_of_A.
  cbn [dependencies formulas dirty_flags].
  cbn [_detect_cycles existsb]. rewrite od_get_set_eq.
  cbn [List.map first_error _detect_cycles existsb].
  replace (String.eqb "B" "A") with false by reflexivity. cbn [orb].
  rewrite od_get_set_ne by discriminate. rewrite HB. reflexivity.
Qed.

(** C6, as amended: after [A = B * 2] is registered over an engine in which
    [B] is no formula, registering [B = A / 2] raises the ValueError that
    names the cycle [B → A → B] and rolls back that second registration
    only: the three tables are what they were after the first call, with
    [A] still registered. *)
Theorem cycle_rejected_and_second_registration_rolled_back (fe : FormulaEngine.t) :
  od_get String.eqb (formulas fe) "B" = None ->
  od_get String.eqb (dirty_flags fe) "B" = None ->
  od_get String.eqb (dependencies fe) "B" = None ->
  exists fe1,
    register_formula fe "A" "B * 2" = (fe1, None)
    /\ od_get String.eqb (formulas fe1) "A" = Some "B * 2"
    /\ register_formula fe1 "B" "A / 2" =
         (fe1, Some (Raise ValueError "Circular dependency detected: B → A → B")).
Proof.
  intros HF HD HB. eexists. split; [by apply register_A_succeeds|].
  split; [apply od_get_set_eq|].
  unfold register_formula. rewrite deps_of_B.
  cbn [dependencies formulas dirty_flags].
  destruct (od_set_length (od_set String.eqb (dependencies fe) "A" ["B"]) "B" ["A"])
    as [n Hn].
  rewrite Hn.
  cbn [_detect_cycles existsb]. rewrite od_get_set_eq.
  cbn [List.map first_error existsb].
  replace (String.eqb "A" "B") with false by reflexivity. cbn [orb].
  rewrite od_get_set_ne by discriminate. rewrite od_get_set_eq.
  cbn [List.map first_error existsb].
  replace (String.eqb "B" "A") with false by reflexivity.
  rewrite String.eqb_refl. cbn [orb app PyStr.join].
  rewrite !od_del_set_fresh; [reflexivity | | |];
    rewrite od_get_set_ne by discriminate; assumption.
Qed.

End registration.

(** ** Division in formulas (C8) *)

Section division.
Context `{Externals}.
Import FormulaEngine.





End division.

(** ** Security screening of a batch (C5) *)

Section screening.
Context `{Externals}.
Import LedgerEngine.







End screening.

(** ** What a replay writes into the events *)

Section frame.
Context `{Externals}.
Import LedgerEngine.

Lemma same_payload_refl ev : same_payload ev ev.
Proof. by intros k _. Qed.

Lemma same_payload_trans ev1 ev2 ev3 :
  same_payload ev1 ev2 -> same_payload ev2 ev3 -> same_payload ev1 ev3.
Proof. intros H12 H23 k Hk. rewrite H23, H12; auto. Qed.

Lemma same_payload_insert ev ev' k v :
  In k replay_keys -> same_payload ev ev' -> same_payload ev (<[k := v]> ev').
Proof.
  intros Hin Hs j Hj. rewrite lookup_insert_ne; [by apply Hs|].
  intros ->. contradiction.
Qed.

Lemma add_log_frame ev msg ev' :
  add_log ev msg = Ok ev' -> same_payload ev ev'.
Proof.
  unfold add_log. intros Hl.
  destruct (ev !! "logs") as [[| | | |l|]|]; try discriminate;
    injection Hl as <-; apply same_payload_insert;
    (apply same_payload_refl || (simpl; auto 10)).
Qed.

Ltac in_keys := simpl; auto 10.

Ltac frame :=
  repeat first
    [ apply same_payload_refl
    | apply same_payload_insert; [in_keys|]
    | match goal with
      | Hl : add_log ?a _ = Ok ?b |- same_payload ?e ?b =>
          apply (same_payload_trans e a b); [|exact (add_log_frame _ _ _ Hl)]
      end ].

Ltac split_applied H :=
  repeat match type of H with
         | context [match ?x with _ => _ end] => destruct x eqn:?
         | context [if ?x then _ else _] => destruct x eqn:?
         end;
  try discriminate;
  try (injection H as <- <- <-).

Lemma apply_gold_frame strict schema w ev ev' w' exc :
  apply_gold strict schema w ev = (ev', w', exc) -> same_payload ev ev'.
Proof. unfold apply_gold. intros Ha. split_applied Ha; frame. Qed.

Lemma apply_item_qty_frame strict w ev name ev' w' exc :
  apply_item_qty strict w ev name = (ev', w', exc) -> same_payload ev ev'.
Proof. unfold apply_item_qty. intros Ha. split_applied Ha; frame. Qed.

Lemma apply_item_frame strict w ev ev' w' exc :
  apply_item strict w ev = (ev', w', exc) -> same_payload ev ev'.
Proof.
  unfold apply_item. intros Ha.
  repeat match type of Ha with
         | context [match normalize_entity_name ?a ?b with _ => _ end] =>
             destruct (normalize_entity_name a b) as [[? ?]|] eqn:?
         | context [match add_log ?a ?b with _ => _ end] =>
             destruct (add_log a b) eqn:?
         | context [if ?x then _ else _] => destruct x eqn:?
         end;
    try (injection Ha as <- <- <-; frame);
    (eapply same_payload_trans; [|eapply apply_item_qty_frame; exact Ha]); frame.
Qed.

Lemma apply_stat_frame w ev ev' w' exc :
  apply_stat w ev = (ev', w', exc) -> same_payload ev ev'.
Proof. unfold apply_stat. intros Ha. split_applied Ha; frame. Qed.

Lemma apply_buff_frame w ev ev' w' exc :
  apply_buff w ev = (ev', w', exc) -> same_payload ev ev'.
Proof.
  unfold apply_buff. intros Ha.
  destruct (Py.eqb (get ev "action") (VStr "gain")); [|injection Ha as <- <- <-; frame].
  set (ev1 := if negb (Py.truthy (get ev "expiry_type")) then _ else ev) in *.
  set (ev2 := if _ && _ then _ else ev1) in *.
  assert (same_payload ev ev2) as Hs.
  { subst ev2 ev1.
    destruct (negb (Py.truthy (get ev "expiry_type")));
      match goal with |- context [if ?c then _ else _] => destruct c end; frame. }
  clearbody ev2. clear ev1.
  split_applied Ha; exact Hs.
Qed.

Lemma _apply_event_frame strict schema w ev context ev' w' exc :
  _apply_event strict schema w ev context = (ev', w', exc) -> same_payload ev ev'.
Proof.
  unfold _apply_event. intros Ha.
  repeat match type of Ha with
         | context [if ?x then _ else _] => destruct x
         end;
    eauto using apply_gold_frame, apply_item_frame, apply_stat_frame, apply_buff_frame;
    injection Ha as <- <- <-; apply same_payload_refl.
Qed.

Lemma step_frame strict schema context w ev ev' context' w' exc :
  step strict schema context w ev = (ev', context', w', exc) -> same_payload ev ev'.
Proof.
  unfold step. intros Hs.
  destruct (update_context context ev) as [c|]; [|injection Hs as <- _ _ _; frame].
  destruct (TemporalState.check_expiry _ _ _ _) as [ts' [expired|]];
    [|injection Hs as <- _ _ _; frame].
  destruct (_apply_event _ _ _ _ _) as [[e1 w1] x1] eqn:Ha.
  injection Hs as <- _ _ _. by eapply _apply_event_frame.
Qed.

(** A replay hands back as many events as it was given, each with the
    payload it had. *)
Lemma replay_frame strict schema evs :
  forall context w evs' context' w' exc,
    replay strict schema context w evs = (evs', context', w', exc) ->
    Forall2 same_payload evs evs'.
Proof.
  induction evs as [|ev rest IH]; intros context w evs' context' w' exc Hr.
  - injection Hr as <- _ _ _. constructor.
  - cbn [replay] in Hr.
    destruct (step strict schema context w ev) as [[[ev1 c1] w1] [e|]] eqn:Hs.
    + injection Hr as <- _ _ _. constructor; [by eapply step_frame|].
      clear. induction rest; constructor; auto using same_payload_refl.
    + destruct (replay strict schema c1 w1 rest) as [[[r1 c2] w2] x2] eqn:Hrest.
      injection Hr as <- _ _ _. constructor; [by eapply step_frame|by eapply IH].
Qed.

Lemma reduce_frame eng evs :
  Forall2 same_payload evs (red_events (reduce eng evs)).
Proof.
  unfold reduce.
  destruct (replay _ _ _ _ evs) as [[[evs' c] w] exc] eqn:Hr.
  apply replay_frame in Hr.
  destruct exc; [exact Hr|]. by destruct (finalize _ _).
Qed.

Lemma take_frame (old new evs' : list event) :
  Forall2 same_payload (old ++ new) evs' ->
  Forall2 same_payload old (take (List.length old) evs')
  /\ Forall2 same_payload new (drop (List.length old) evs').
Proof.
  intros Hf. apply Forall2_app_inv_l in Hf as (l1 & l2 & H1 & H2 & ->).
  pose proof (Forall2_length _ _ _ H1) as Hlen.
  rewrite Hlen, take_app_length, drop_app_length. auto.
Qed.

End frame.

(** ** Rejected submissions (C10) *)

Section rejection.
Context `{Externals}.
Import LedgerEngine.

Lemma ids_between_le lo hi evs : ids_between lo hi evs -> lo <= hi.
Proof.
  revert lo. induction evs as [|ev r IH]; simpl; intros lo Hi; [done|].
  destruct Hi as (n & _ & Hlt & Hr). apply IH in Hr. lia.
Qed.

Lemma ids_between_widen lo lo' hi hi' evs :
  ids_between lo hi evs -> lo' <= lo -> hi <= hi' -> ids_between lo' hi' evs.
Proof.
  revert lo lo'. induction evs as [|ev r IH]; simpl; intros lo lo' Hi Hlo Hhi; [lia|].
  destruct Hi as (n & Hn & Hlt & Hr). exists n. repeat split; [done|lia|].
  eapply IH; eauto. lia.
Qed.

Lemma ids_between_app lo mid hi l1 l2 :
  ids_between lo mid l1 -> ids_between mid hi l2 -> ids_between lo hi (l1 ++ l2).
Proof.
  revert lo. induction l1 as [|ev r IH]; simpl; intros lo H1 H2.
  - eapply ids_between_widen; eauto. lia.
  - destruct H1 as (n & Hn & Hlt & Hr). exists n. eauto.
Qed.

Lemma ids_between_frame lo hi l l' :
  Forall2 same_payload l l' -> ids_between lo hi l -> ids_between lo hi l'.
Proof.
  intros Hf. revert lo. induction Hf as [|ev ev' l l' Hs Hf IH]; simpl; intros lo Hi; [done|].
  destruct Hi as (n & Hn & Hlt & Hr). exists n. repeat split; auto.
  rewrite Hs; [done|]. unfold replay_keys. simpl.
  intros Hin. repeat destruct Hin as [Hin|Hin]; done.
Qed.

Lemma apply_rule_event_id ev rule ev' :
  RuleEngine.apply_rule ev rule = Ok ev' -> ev' !! "event_id" = ev !! "event_id".
Proof.
  unfold RuleEngine.apply_rule. intros Ha.
  repeat match type of Ha with
         | context [match ?x with _ => _ end] => destruct x eqn:?
         | context [if ?x then _ else _] => destruct x eqn:?
         end; try discriminate; injection Ha as <-;
    by rewrite ?lookup_insert_ne.
Qed.

Lemma apply_rules_event_id re ev ev' :
  RuleEngine.apply_rules re ev = Ok ev' -> ev' !! "event_id" = ev !! "event_id".
Proof.
  unfold RuleEngine.apply_rules.
  generalize (List.filter (RuleEngine.matches (default (VStr "") (ev !! "type")))
                          (RuleEngine.active_rules re)).
  intros rules. revert ev. induction rules as [|rule r IH]; simpl; intros ev Ha.
  - by injection Ha as <-.
  - destruct (RuleEngine.apply_rule ev rule) as [e1|] eqn:E; [|discriminate].
    rewrite (IH _ Ha). by eapply apply_rule_event_id.
Qed.

(** What the first loop of [process_batch] hands on: one event per
    transaction, with the ids that follow the counter. *)
Lemma screen_passed transactions :
  forall counter acc n evs,
    screen counter acc transactions = Passed n evs ->
    exists added,
      evs = (acc ++ added)%list
      /\ ids_between counter n added
      /\ n = counter + Z.of_nat (List.length transactions).
Proof.
  induction transactions as [|tx r IH]; intros counter acc n evs Hs.
  - injection Hs as <- <-. exists []. rewrite app_nil_r. simpl. repeat split; lia.
  - cbn [screen] in Hs.
    destruct (_validate_security_rules tx) as [[[|] m]|]; try discriminate.
    destruct (IH _ _ _ _ Hs) as (added & -> & Hi & ->).
    exists (<["event_id" := VInt (counter + 1)]> tx :: added).
    rewrite <- app_assoc. repeat split.
    + simpl. exists (counter + 1). rewrite lookup_insert_eq. repeat split; [lia|done].
    + cbn [List.length]. lia.
Qed.

Lemma screen_stopped transactions :
  forall counter acc,
    match screen counter acc transactions with
    | Blocked n _ | Raised n _ =>
        counter <= n <= counter + Z.of_nat (List.length transactions)
    | Passed _ _ => True
    end.
Proof.
  induction transactions as [|tx r IH]; intros counter acc; [done|].
  cbn [screen List.length].
  destruct (_validate_security_rules tx) as [[[|] m]|]; try lia.
  specialize (IH (counter + 1) (acc ++ [<["event_id" := VInt (counter + 1)]> tx])%list).
  destruct (screen _ _ r); try done; lia.
Qed.

Lemma log_ok_add_event eng ev0 : log_ok eng -> log_ok (fst (add_event eng ev0)).
Proof.
  intros [lo Hlo]. unfold add_event.
  destruct (RuleEngine.apply_rules _ _) as [ev|e] eqn:Hrules.
  { pose proof (reduce_frame eng (events eng ++ [ev])) as Hf.
    destruct (take_frame _ _ _ Hf) as [Hold _].
    assert (ids_between lo (_event_id_counter eng + 1) (events eng ++ [ev])) as Hall.
    { eapply ids_between_app; [exact Hlo|]. simpl.
      exists (_event_id_counter eng + 1).
      rewrite (apply_rules_event_id _ _ _ Hrules), lookup_insert_eq.
      repeat split; lia. }
    assert (ids_between lo (_event_id_counter eng + 1)
              (take (List.length (events eng)) (red_events (reduce eng (events eng ++ [ev])))))
      as Hkept.
    { eapply ids_between_frame; [exact Hold|].
      eapply ids_between_widen; [exact Hlo| |]; lia. }
    destruct (red_state _) as [st|e]; [|by exists lo].
    destruct (add_event_check _ _); exists lo; [exact Hkept|].
    cbn [fst with_replay events _event_id_counter].
    by eapply ids_between_frame. }
  exists lo. cbn [fst with_counter events _event_id_counter].
  eapply ids_between_widen; [exact Hlo| |]; lia.
Qed.

Lemma log_ok_process_batch eng transactions :
  log_ok eng -> log_ok (fst (process_batch eng transactions)).
Proof.
  intros [lo Hlo]. unfold process_batch.
  pose proof (screen_stopped transactions (_event_id_counter eng) []) as Hstop.
  destruct (screen _ _ transactions) as [n m|n e|n evs] eqn:Hs.
  1, 2: exists lo; cbn [fst with_counter events _event_id_counter];
        eapply ids_between_widen; [exact Hlo| |]; lia.
  destruct (screen_passed _ _ _ _ _ Hs) as (added & -> & Hadd & Hn).
  cbn [app] in *.
  pose proof (reduce_frame eng (events eng ++ added)) as Hf.
  destruct (take_frame _ _ _ Hf) as [Hold _].
  assert (ids_between lo n (events eng ++ added)) as Hall
    by (eapply ids_between_app; eauto).
  assert (ids_between lo n
            (take (List.length (events eng)) (red_events (reduce eng (events eng ++ added)))))
    as Hkept.
  { eapply ids_between_frame; [exact Hold|].
    eapply ids_between_widen; [exact Hlo| |]; lia. }
  destruct (red_state _) as [st|e]; [|by exists lo].
  destruct (batch_check _ _); [by exists lo|].
  destruct (success_logs _); exists lo;
    cbn [fst with_replay events _event_id_counter]; by eapply ids_between_frame.
Qed.


End rejection.

(** ** The loop of [reduce] *)

Section replaying.
Context `{Externals}.
Import LedgerEngine.
Variables (strict : bool) (schema : WorldSchema).


Lemma partition_expired_spec (l : list TemporalState.Buff) c wc t ids keep :
  TemporalState.partition_expired l c wc t = Ok (ids, keep) ->
  ids = List.map TemporalState.id (List.filter (expired_now c wc t) l)
  /\ keep = List.filter (fun b => negb (expired_now c wc t b)) l.
Proof.
  revert ids keep. induction l as [|b r IH]; simpl; intros ids keep Hp.
  - by injection Hp as <- <-.
  - assert (forall x, TemporalState.is_expired b c wc t = Ok x ->
                      expired_now c wc t b = x) as Hx
      by (intros x Hx; unfold expired_now; by rewrite Hx).
    destruct (TemporalState.is_expired b c wc t) as [x|]; [|discriminate].
    rewrite (Hx x eq_refl).
    destruct (TemporalState.partition_expired r c wc t) as [[i k]|]; [|discriminate].
    destruct (IH _ _ eq_refl) as [-> ->].
    destruct x; injection Hp as <- <-; done.
Qed.

Lemma check_expiry_spec ts c wc t ts' ids :
  TemporalState.check_expiry ts c wc t = (ts', Ok ids) ->
  ids = List.map TemporalState.id
          (List.filter (expired_now c wc t) (TemporalState.active_buffs ts))
  /\ TemporalState.active_buffs ts'
     = List.filter (fun b => negb (expired_now c wc t b)) (TemporalState.active_buffs ts)
  /\ TemporalState._buff_id_counter ts' = TemporalState._buff_id_counter ts.
Proof.
  unfold TemporalState.check_expiry.
  destruct (TemporalState.partition_expired _ _ _ _) as [[i k]|] eqn:Hp; [|discriminate].
  intros Hc. injection Hc as <- <-.
  destruct (partition_expired_spec _ _ _ _ _ _ Hp) as [-> ->]. done.
Qed.

(** A marker with an int for its delta, or with none, always moves the
    context. *)
Lemma update_context_total context ev :
  (ev !! "word_count_delta" = None
   \/ exists d, ev !! "word_count_delta" = Some (VInt d)) ->
  exists context', update_context context ev = Ok context'.
Proof.
  unfold update_context. intros [-> | [d ->]]; cbn [int_add]; eauto.
Qed.



End replaying.

(** ** Gold underflow (C4) *)

Section underflow.
Context `{Externals}.
Import LedgerEngine.





End underflow.

(** ** Buff ids are distinct *)

Section buff_ids.

Lemma digits_value_zeros (k : nat) (s : string) :
  PyStr.digits_value 0 (PyStr.repeat_char "0" k ++ s) = PyStr.digits_value 0 s.
Proof. induction k; [reflexivity|exact IHk]. Qed.

Lemma pad3_inj (n m : Z) : 0 <= n -> 0 <= m -> PyStr.pad3 n = PyStr.pad3 m -> n = m.
Proof.
  intros Hn Hm Heq. apply (f_equal (PyStr.digits_value 0)) in Heq.
  unfold PyStr.pad3 in Heq. by rewrite !digits_value_zeros, !digits_value_of_Z in Heq.
Qed.

Lemma buff_id_inj (n m : Z) :
  0 <= n -> 0 <= m -> TemporalState.buff_id n = TemporalState.buff_id m -> n = m.
Proof.
  unfold TemporalState.buff_id. intros Hn Hm Heq.
  apply pad3_inj; [done|done|]. by simplify_eq/=.
Qed.

End buff_ids.

(** ** Expiry of a chapter buff (C2) *)

Section buff_expiry.
Context `{Externals}.
Import LedgerEngine.
Variables (strict : bool) (schema : WorldSchema).






(** *** Removing expired ids *)









(** *** Well-formed temporal states *)

Lemma ts_wf_empty : ts_wf TemporalState.empty.
Proof. repeat split; [done|constructor|constructor]. Qed.

Lemma NoDup_map_filter {A B} (f : A -> B) (p : A -> bool) (l : list A) :
  NoDup (List.map f l) -> NoDup (List.map f (List.filter p l)).
Proof.
  induction l as [|a r IH]; simpl; [done|].
  intros Hn. apply NoDup_cons in Hn as [Ha Hr].
  destruct (p a); simpl; [|by apply IH].
  constructor; [|by apply IH].
  intros Hin. apply Ha. rewrite list_elem_of_In in *.
  apply in_map_iff in Hin as (x & Hx & Hin). apply in_map_iff.
  exists x. split; [done|]. apply filter_In in Hin. tauto.
Qed.

Lemma check_expiry_wf ts c wc t ts' ids :
  ts_wf ts -> TemporalState.check_expiry ts c wc t = (ts', Ok ids) -> ts_wf ts'.
Proof.
  intros (Hc & Hn & Hf) Hx.
  destruct (check_expiry_spec _ _ _ _ _ _ Hx) as (_ & Ha & Hk).
  unfold ts_wf. rewrite Ha, Hk. repeat split; [done|by apply NoDup_map_filter|].
  apply Forall_forall. intros b Hb. rewrite list_elem_of_In in Hb.
  apply filter_In in Hb as [Hb _].
  rewrite Forall_forall in Hf. apply Hf. by rewrite list_elem_of_In.
Qed.

Lemma add_buff_spec ts name effects et evl desc ts' bid :
  TemporalState.add_buff ts name effects et evl desc = (ts', Ok bid) ->
  bid = TemporalState.buff_id (TemporalState._buff_id_counter ts + 1)
  /\ TemporalState._buff_id_counter ts' = TemporalState._buff_id_counter ts + 1
  /\ exists b,
      TemporalState.active_buffs ts' = (TemporalState.active_buffs ts ++ [b])%list
      /\ TemporalState.id b = bid
      /\ TemporalState.expiry_type b = et
      /\ TemporalState.expiry_value b = evl.
Proof.
  unfold TemporalState.add_buff. intros Ha.
  destruct (_ && _); [discriminate|].
  destruct (TemporalState.decimal_effects effects) as [eff|]; [|discriminate].
  injection Ha as <- <-. cbn. repeat split. by eexists.
Qed.

Lemma add_buff_wf ts ts' b :
  ts_wf ts ->
  TemporalState.active_buffs ts' = (TemporalState.active_buffs ts ++ [b])%list ->
  TemporalState._buff_id_counter ts' = TemporalState._buff_id_counter ts + 1 ->
  TemporalState.id b = TemporalState.buff_id (TemporalState._buff_id_counter ts + 1) ->
  ts_wf ts'.
Proof.
  intros (Hc & Hn & Hf) Ha Hk Hid. unfold ts_wf. rewrite Ha, Hk.
  assert (forall b0, In b0 (TemporalState.active_buffs ts) ->
                     exists k, 0 <= k <= TemporalState._buff_id_counter ts
                               /\ TemporalState.id b0 = TemporalState.buff_id k) as Hf'.
  { intros b0 Hb0. rewrite Forall_forall in Hf. apply Hf. by rewrite list_elem_of_In. }
  repeat split; [lia| |].
  - rewrite map_app. apply NoDup_app. split; [done|]. split.
    + intros x Hx. rewrite list_elem_of_In in Hx. apply in_map_iff in Hx as (b0 & <- & Hb0).
      destruct (Hf' b0 Hb0) as (k & Hk0 & Hidk). cbn.
      rewrite list_elem_of_In. intros [Heq|[]]. rewrite Hid, Hidk in Heq.
      apply buff_id_inj in Heq; lia.
    + cbn. apply NoDup_singleton.
  - apply Forall_forall. intros b0 Hb0. rewrite list_elem_of_In in Hb0.
    apply in_app_or in Hb0 as [Hb0|[<-|[]]].
    + destruct (Hf' b0 Hb0) as (k & Hk0 & Hidk). exists k. split; [lia|done].
    + exists (TemporalState._buff_id_counter ts + 1). split; [lia|done].
Qed.

(** *** What one event does to the buffs *)













(** *** Following one buff through the replay *)







End buff_expiry.

Section buff_expiry_claim.
Context `{Externals}.
Import LedgerEngine.


End buff_expiry_claim.

(** * Properties of the code beyond the claims *)

(** ** Texts *)

Section text_facts.

Lemma append_nil_l (s : string) : "" ++ s = s.
Proof. reflexivity. Qed.

Lemma append_cons (c : ascii) (a b : string) : String c a ++ b = String c (a ++ b).
Proof. reflexivity. Qed.

Lemma append_nil_r (s : string) : s ++ "" = s.
Proof. induction s as [|c r IH]; [done|]. by rewrite append_cons, IH. Qed.


Lemma span_app p a b :
  all_chars p a ->
  match b with String c _ => p c = false | EmptyString => True end ->
  PyStr.span p (a ++ b) = (a, b).
Proof.
  intros Ha Hb. induction a as [|c r IH]; simpl.
  - rewrite ?append_nil_l. destruct b as [|c r]; simpl; [done|]. by rewrite Hb.
  - destruct Ha as [Hc Hr]. rewrite ?append_cons. simpl. by rewrite Hc, (IH Hr).
Qed.

Lemma all_chars_app p a b : all_chars p a -> all_chars p b -> all_chars p (a ++ b).
Proof.
  induction a as [|c r IH]; [done|]. intros [Hc Hr] Hb. rewrite ?append_cons.
  split; auto.
Qed.

Lemma all_chars_impl (p q : ascii -> bool) s :
  (forall c, p c = true -> q c = true) -> all_chars p s -> all_chars q s.
Proof. intros Hpq. induction s as [|c r IH]; simpl; [done|]. intros [Hc Hr]. auto. Qed.

Lemma filter_all_chars p s : all_chars p s -> PyStr.filter_chars p s = s.
Proof.
  induction s as [|c r IH]; simpl; [done|]. intros [Hc Hr]. by rewrite Hc, IH.
Qed.

End text_facts.

(** ** [_clean_number] *)

Section cleaning.
Import LedgerEngine.






End cleaning.

(** ** The text of a Decimal *)

Section decimal_text.

Lemma digit_plain c : PyStr.is_digit c = true -> plain_char c = true.
Proof. destruct c as [[] [] [] [] [] [] [] []]; done. Qed.

Lemma uint_digits d : all_chars PyStr.is_digit (NilEmpty.string_of_uint d).
Proof. induction d; simpl; auto. Qed.

Lemma of_Z_digits n : 0 <= n -> all_chars PyStr.is_digit (PyStr.of_Z n) /\ PyStr.of_Z n <> "".
Proof.
  intros Hn. destruct n as [|p|p]; [done| |lia].
  unfold PyStr.of_Z. cbn [Z.to_int NilZero.string_of_int].
  pose proof (DecimalPos.Unsigned.to_uint_nonnil p) as Hnil.
  pose proof (uint_digits (Pos.to_uint p)) as Hd.
  unfold NilZero.string_of_uint. destruct (Pos.to_uint p); done.
Qed.

Lemma of_Z_neg x : x < 0 -> PyStr.of_Z x = String "-" (PyStr.of_Z (- x)).
Proof. intros Hx. destruct x as [|p|p]; [lia|lia|done]. Qed.

Lemma all_digits_ok s : all_chars PyStr.is_digit s -> PyStr.all_digits s = true.
Proof.
  intros Hs. unfold PyStr.all_digits. rewrite filter_all_chars by done.
  apply String.eqb_refl.
Qed.

Lemma parse_exponent_pos x :
  0 < x -> PyDecimal.parse_exponent ("E+" ++ PyStr.of_Z x) = Some x.
Proof.
  intros Hx. destruct (of_Z_digits x ltac:(lia)) as [Hd Hne].
  rewrite !append_cons, append_nil_l. unfold PyDecimal.parse_exponent.
  change (Ascii.eqb "E" "e" || Ascii.eqb "E" "E") with true. cbv iota.
  rewrite (all_digits_ok _ Hd). apply String.eqb_neq in Hne. rewrite Hne.
  cbn [negb andb PyDecimal.signed]. by rewrite digits_value_of_Z by lia.
Qed.

Lemma parse_exponent_neg x :
  x < 0 -> PyDecimal.parse_exponent ("E" ++ PyStr.of_Z x) = Some x.
Proof.
  intros Hx. rewrite (of_Z_neg x Hx).
  destruct (of_Z_digits (- x) ltac:(lia)) as [Hd Hne].
  rewrite !append_cons, append_nil_l. unfold PyDecimal.parse_exponent.
  change (Ascii.eqb "E" "e" || Ascii.eqb "E" "E") with true. cbv iota.
  rewrite (all_digits_ok _ Hd). apply String.eqb_neq in Hne. rewrite Hne.
  cbn [negb andb PyDecimal.signed]. rewrite digits_value_of_Z by lia. f_equal. lia.
Qed.

Lemma all_chars_list p s :
  all_chars p s <-> List.Forall (fun c => p c = true) (list_ascii_of_string s).
Proof.
  induction s as [|c r IH]; simpl; [split; [constructor|done]|].
  rewrite IH. split; [intros [? ?]; by constructor|].
  intros Hf. by apply Forall_cons in Hf.
Qed.

Lemma all_chars_rev p s : all_chars p s -> all_chars p (PyStr.rev s).
Proof.
  rewrite !all_chars_list. unfold PyStr.rev.
  rewrite list_ascii_of_string_of_list_ascii. intros Hf.
  apply List.Forall_rev. exact Hf.
Qed.

Lemma rev_rev s : PyStr.rev (PyStr.rev s) = s.
Proof.
  unfold PyStr.rev. rewrite list_ascii_of_string_of_list_ascii, List.rev_involutive.
  apply string_of_list_ascii_of_string.
Qed.

Lemma strip_left_plain s : all_chars plain_char s -> PyStr.strip_left s = s.
Proof.
  unfold PyStr.strip_left. destruct s as [|c r]; simpl; [done|].
  intros [Hc _]. unfold plain_char in Hc. apply andb_true_iff in Hc as [Hc _].
  apply negb_true_iff in Hc. by rewrite Hc.
Qed.

Lemma strip_plain s : all_chars plain_char s -> PyStr.strip s = s.
Proof.
  intros Hs. unfold PyStr.strip. rewrite (strip_left_plain s Hs).
  rewrite (strip_left_plain (PyStr.rev s)) by (by apply all_chars_rev).
  apply rev_rev.
Qed.

Lemma no_underscore_plain s : all_chars plain_char s -> PyStr.remove_char "_" s = s.
Proof.
  intros Hs. unfold PyStr.remove_char. apply filter_all_chars.
  eapply all_chars_impl; [|exact Hs]. intros c Hc. unfold plain_char in Hc.
  by apply andb_true_iff in Hc as [_ Hc].
Qed.

Lemma append_assoc (a b c : string) : (a ++ b) ++ c = a ++ (b ++ c).
Proof. induction a as [|x r IH]; [done|]. by rewrite !append_cons, IH. Qed.

Lemma length_append (a b : string) :
  String.length (a ++ b) = (String.length a + String.length b)%nat.
Proof. induction a as [|x r IH]; [done|]. rewrite append_cons. simpl. by rewrite IH. Qed.

(** What [Decimal(s)] reads from digits, a point with digits and an
    exponent. *)
Lemma of_string_parts (neg dot : bool) (ip fp tail : string) (e : Z) :
  all_chars PyStr.is_digit ip -> ip <> "" ->
  all_chars PyStr.is_digit fp -> (dot = false -> fp = "") ->
  all_chars plain_char tail ->
  (tail = "" \/ exists r, tail = String "E" r) ->
  PyDecimal.parse_exponent tail = Some e ->
  PyDecimal.of_string
    ((if neg then "-" else "") ++ ip ++ (if dot then "." ++ fp else "") ++ tail)
  = Some (PyDecimal.mk (PyDecimal.signed neg (PyStr.digits_value 0 (ip ++ fp)))
                       (e - Z.of_nat (String.length fp))).
Proof.
  intros Hip Hne Hfp Hdot Htail Hhead He.
  set (rest := (if dot then "." ++ fp else "") ++ tail).
  assert (all_chars plain_char (ip ++ rest)) as Hplain.
  { apply all_chars_app.
    - eapply all_chars_impl; [|exact Hip]. apply digit_plain.
    - unfold rest. apply all_chars_app; [|done]. destruct dot; [|done].
      rewrite append_cons, append_nil_l. split; [done|].
      eapply all_chars_impl; [|exact Hfp]. apply digit_plain. }
  assert (match rest with String c _ => PyStr.is_digit c = false | EmptyString => True end)
    as Hrest.
  { unfold rest. destruct dot.
    - by rewrite !append_cons.
    - rewrite append_nil_l. destruct Hhead as [->|[r ->]]; done. }
  assert (PyDecimal.of_string ((if neg then "-" else "") ++ ip ++ rest)
          = let '(i, s) := PyStr.span PyStr.is_digit (ip ++ rest) in
            let '(f, s, d) :=
              match s with
              | String "." r => let '(f, r') := PyStr.span PyStr.is_digit r in (f, r', true)
              | _ => ("", s, false)
              end in
            if String.eqb i "" && String.eqb f "" then None
            else
              match PyDecimal.parse_exponent s with
              | Some e =>
                  Some (PyDecimal.mk (PyDecimal.signed neg (PyStr.digits_value 0 (i ++ f)))
                          (e - Z.of_nat (String.length f)))
              | None => None
              end) as ->.
  { unfold PyDecimal.of_string.
    destruct neg.
    - rewrite append_cons, append_nil_l.
      rewrite strip_plain by (split; [done|exact Hplain]).
      rewrite no_underscore_plain by (split; [done|exact Hplain]). done.
    - rewrite append_nil_l. rewrite strip_plain, no_underscore_plain by done.
      destruct ip as [|c r]; [done|]. destruct Hip as [Hc _].
      rewrite append_cons.
      destruct c as [[] [] [] [] [] [] [] []]; try discriminate Hc; reflexivity. }
  rewrite (span_app _ ip rest Hip Hrest). unfold rest.
  apply String.eqb_neq in Hne.
  destruct dot.
  - rewrite !append_cons, append_nil_l.
    rewrite (span_app _ fp tail Hfp); [|destruct Hhead as [->|[r ->]]; done].
    rewrite Hne. simpl. by rewrite He.
  - rewrite (Hdot eq_refl), append_nil_l.
    assert (match tail with
            | String "." r => let '(f, r') := PyStr.span PyStr.is_digit r in (f, r', true)
            | _ => ("", tail, false)
            end = ("", tail, false)) as ->
      by (destruct Hhead as [->|[r ->]]; done).
    rewrite Hne. simpl. by rewrite He.
Qed.

Lemma substring_all (s : string) : substring 0 (String.length s) s = s.
Proof. induction s as [|c r IH]; simpl; [done|]. by rewrite IH. Qed.

Lemma substring_split (k : nat) : forall s : string,
  (k <= String.length s)%nat ->
  substring 0 k s ++ substring k (String.length s - k) s = s
  /\ String.length (substring k (String.length s - k) s) = (String.length s - k)%nat.
Proof.
  induction k as [|k IH]; intros s Hk.
  - rewrite Nat.sub_0_r, substring_all.
    assert (substring 0 0 s = "") as -> by (by destruct s). done.
  - destruct s as [|c r]; [simpl in Hk; lia|]. simpl in Hk.
    destruct (IH r ltac:(lia)) as [H1 H2].
    cbn [String.length substring Nat.sub]. rewrite append_cons, H1. done.
Qed.

Lemma all_chars_split p a b : all_chars p (a ++ b) -> all_chars p a /\ all_chars p b.
Proof.
  induction a as [|c r IH]; [done|]. rewrite append_cons. intros [Hc Hr].
  destruct (IH Hr). repeat split; done.
Qed.

Lemma repeat_zero_digits k : all_chars PyStr.is_digit (PyStr.repeat_char "0" k).
Proof. induction k; simpl; auto. Qed.

Lemma length_repeat c k : String.length (PyStr.repeat_char c k) = k.
Proof. induction k; simpl; auto. Qed.

Lemma signed_abs (c : Z) : PyDecimal.signed (c <? 0) (Z.abs c) = c.
Proof. unfold PyDecimal.signed. destruct (Z.ltb_spec c 0); lia. Qed.

(** [Decimal(str(d)) == d], exponent included. *)
Lemma of_string_to_string (d : PyDecimal.t) :
  PyDecimal.of_string (PyDecimal.to_string d) = Some d.
Proof.
  destruct d as [c e]. unfold PyDecimal.to_string. cbn [PyDecimal.coeff PyDecimal.exp].
  destruct (of_Z_digits (Z.abs c) ltac:(lia)) as [Hds Hne].
  pose proof (digits_value_of_Z (Z.abs c) ltac:(lia)) as Hval.
  remember (PyStr.of_Z (Z.abs c)) as ds eqn:Hdsdef. clear Hdsdef.
  remember (Z.of_nat (String.length ds)) as n eqn:Hndef.
  assert (1 <= n) as Hn.
  { destruct ds; [done|]. simpl in Hndef. lia. }
  set (sign := if c <? 0 then "-" else "").
  assert (sign = if (c <? 0) then "-" else "") as Hsign by done.
  destruct ((e <=? 0) && (-6 <? e + n)) eqn:Hplainform.
  - apply andb_true_iff in Hplainform as [He Hl].
    apply Z.leb_le in He. apply Z.ltb_lt in Hl.
    replace (e + n - (e + n)) with 0 by lia. cbn [Z.eqb].
    rewrite append_nil_r.
    destruct (Z.leb_spec (e + n) 0) as [Hdp|Hdp].
    + (* 0.000ddd *)
      pose proof (of_string_parts (c <? 0) true "0"
                    (PyStr.repeat_char "0" (Z.to_nat (- (e + n))) ++ ds) "" 0) as Hp.
      rewrite append_nil_r in Hp. rewrite <- Hsign in Hp.
      rewrite !append_cons, !append_nil_l in *.
      rewrite Hp; try done.
      * f_equal. f_equal.
        -- change (PyStr.digits_value 0 (String "0" ?s)) with (PyStr.digits_value 0 s).
           rewrite digits_value_zeros, Hval. apply signed_abs.
        -- rewrite length_append, length_repeat. lia.
      * apply all_chars_app; [apply repeat_zero_digits|done].
      * by left.
    + destruct (Z.leb_spec n (e + n)) as [Hint|Hfrac].
      * (* ddd *)
        assert (e = 0) as -> by lia. rewrite Z.add_0_l, Z.sub_diag. cbn [Z.to_nat PyStr.repeat_char].
        rewrite append_nil_r.
        pose proof (of_string_parts (c <? 0) false ds "" "" 0 Hds Hne) as Hp.
        rewrite <- Hsign, !append_nil_r in Hp. rewrite Hp; try done.
        -- by rewrite Hval, signed_abs.
        -- by left.
      * (* dd.ddd *)
        assert (Z.to_nat (e + n) <= String.length ds)%nat as Hk
          by (clear - Hndef He Hdp; lia).
        destruct (substring_split (Z.to_nat (e + n)) ds Hk) as [Hsplit Hlen].
        replace (Z.to_nat (n - (e + n))) with (String.length ds - Z.to_nat (e + n))%nat
          by lia.
        set (ip := substring 0 (Z.to_nat (e + n)) ds) in *.
        set (fp := substring (Z.to_nat (e + n)) (String.length ds - Z.to_nat (e + n)) ds) in *.
        rewrite <- Hsplit in Hds. apply all_chars_split in Hds as [Hip Hfp].
        assert (ip <> "") as Hipne.
        { intros Hip0. rewrite Hip0, append_nil_l in Hsplit.
          apply (f_equal String.length) in Hsplit. rewrite Hlen in Hsplit.
          lia. }
        pose proof (of_string_parts (c <? 0) true ip fp "" 0 Hip Hipne Hfp) as Hp.
        rewrite <- Hsign, !append_nil_r in Hp. rewrite Hp; try done.
        -- rewrite Hsplit, Hval, signed_abs. do 2 f_equal. rewrite Hlen. lia.
        -- by left.
  - (* scientific *)
    assert (e + n - 1 <> 0) as Hx.
    { apply andb_false_iff in Hplainform as [He|Hl]; [apply Z.leb_gt in He|apply Z.ltb_ge in Hl]; lia. }
    apply Z.eqb_neq in Hx as Hxb. rewrite Hxb. apply Z.eqb_neq in Hxb.
    cbn [Z.leb]. change (1 <=? 0) with false. cbv iota.
    set (x := e + n - 1) in *.
    set (tail := "E" ++ (if 0 <=? x then "+" else "") ++ PyStr.of_Z x).
    assert (PyDecimal.parse_exponent tail = Some x) as Htail.
    { unfold tail. destruct (Z.leb_spec 0 x).
      - rewrite !append_cons, !append_nil_l.
        change (PyDecimal.parse_exponent ("E+" ++ PyStr.of_Z x) = Some x).
        apply parse_exponent_pos. lia.
      - rewrite append_nil_l. by apply parse_exponent_neg. }
    assert (all_chars plain_char tail) as Hplain.
    { unfold tail. rewrite append_cons, append_nil_l. split; [done|].
      destruct (Z.leb_spec 0 x).
      - rewrite append_cons, append_nil_l. split; [done|].
        eapply all_chars_impl; [apply digit_plain|]. by apply of_Z_digits.
      - rewrite append_nil_l, (of_Z_neg x) by lia. split; [done|].
        eapply all_chars_impl; [apply digit_plain|]. apply of_Z_digits. lia. }
    assert (tail = "" \/ exists r, tail = String "E" r) as Hhead
      by (right; unfold tail; rewrite append_cons; by eexists).
    destruct (Z.leb_spec n 1) as [Hone|Hmany].
    + assert (n = 1) as Hn1 by lia. rewrite Hn1. cbn [Z.sub Z.to_nat PyStr.repeat_char Pos.sub].
      replace (Z.to_nat (1 - 1)) with 0%nat by lia. cbn [PyStr.repeat_char].
      rewrite append_nil_r.
      pose proof (of_string_parts (c <? 0) false ds "" tail x Hds Hne) as Hp.
      rewrite <- Hsign, append_nil_l, append_nil_r in Hp. rewrite Hp; try done.
      rewrite ?append_nil_r, Hval, signed_abs. do 2 f_equal. unfold x. simpl. lia.
    + assert (1 <= String.length ds)%nat as Hk by (clear - Hndef Hn; lia).
      destruct (substring_split 1%nat ds Hk) as [Hsplit Hlen].
      change (Z.to_nat 1) with 1%nat.
      replace (Z.to_nat (n - 1)) with (String.length ds - 1)%nat by lia.
      set (ip := substring 0 1 ds) in *.
      set (fp := substring 1 (String.length ds - 1) ds) in *.
      rewrite <- Hsplit in Hds. apply all_chars_split in Hds as [Hip Hfp].
      assert (ip <> "") as Hipne.
      { intros Hip0. rewrite Hip0, append_nil_l in Hsplit.
        apply (f_equal String.length) in Hsplit. rewrite Hlen in Hsplit.
        lia. }
      pose proof (of_string_parts (c <? 0) true ip fp tail x Hip Hipne Hfp) as Hp.
      rewrite <- Hsign in Hp. rewrite (append_assoc ip ("." ++ fp) tail). rewrite Hp; try done.
      rewrite Hsplit, Hval, signed_abs. do 2 f_equal. rewrite Hlen. unfold x in *. lia.
Qed.

End decimal_text.

(** ** Conversions and display *)

Section conversions.
Import UnitRegistry.

Lemma ndigits_within (c : Z) :
  Z.abs c < 10 ^ PyDecimal.prec -> 1 <= PyDecimal.ndigits c <= PyDecimal.prec.
Proof.
  intros Hc. split.
  - unfold PyDecimal.ndigits. destruct (of_Z_digits (Z.abs c) ltac:(lia)) as [_ Hne].
    destruct (PyStr.of_Z (Z.abs c)); [done|]. simpl. lia.
  - destruct (Z.eq_dec c 0) as [->|Hn]; [by vm_compute|].
    assert (PyDecimal.ndigits c = PyDecimal.ndigits (Z.abs c)) as ->
      by (unfold PyDecimal.ndigits; f_equal; f_equal; f_equal; lia).
    pose proof (ndigits_lower (Z.abs c) ltac:(lia)) as Hl.
    destruct (Z.le_gt_cases (PyDecimal.ndigits (Z.abs c)) PyDecimal.prec) as [|Hgt]; [done|].
    exfalso.
    assert (10 ^ PyDecimal.prec <= 10 ^ (PyDecimal.ndigits (Z.abs c) - 1))
      by (apply Z.pow_le_mono_r; unfold PyDecimal.prec in *; lia).
    lia.
Qed.

Lemma strip_zeros_all (k : nat) : forall a ideal,
  PyDecimal.strip_zeros k (a * 10 ^ Z.of_nat k) (ideal - Z.of_nat k) ideal = (a, ideal).
Proof.
  induction k as [|k IH]; intros a ideal.
  - simpl. f_equal; lia.
  - cbn [PyDecimal.strip_zeros]. rewrite Nat2Z.inj_succ, Z.pow_succ_r by lia.
    assert ((ideal - Z.succ (Z.of_nat k) <? ideal) = true) as -> by (apply Z.ltb_lt; lia).
    assert (a * (10 * 10 ^ Z.of_nat k) = (a * 10 ^ Z.of_nat k) * 10) as -> by lia.
    rewrite Z.mod_mul by lia. cbn [Z.eqb andb]. rewrite Z.div_mul by lia.
    replace (ideal - Z.succ (Z.of_nat k) + 1) with (ideal - Z.of_nat k) by lia.
    apply IH.
Qed.

Lemma div_whole (v r : Z) :
  1 <= r -> Z.abs (v * r) < 10 ^ PyDecimal.prec ->
  PyDecimal.div (PyDecimal.mk (v * r) 0) (PyDecimal.mk r 0) = PyDecimal.mk v 0.
Proof.
  intros Hr Hb. unfold PyDecimal.div. cbn [PyDecimal.coeff PyDecimal.exp].
  destruct (Z.eqb_spec (v * r) 0) as [Hz|Hnz].
  - assert (v = 0) as -> by nia. done.
  - assert (v <> 0) as Hv by (intros ->; lia).
    pose proof (ndigits_within (Z.abs (v * r)) ltac:(lia)) as Hda.
    assert (1 <= PyDecimal.ndigits (Z.abs r)) as Hdb.
    { unfold PyDecimal.ndigits. destruct (of_Z_digits (Z.abs (Z.abs r)) ltac:(lia)) as [_ Hne].
      destruct (PyStr.of_Z _); [done|]. simpl. lia. }
    set (shift := PyDecimal.ndigits (Z.abs r) - PyDecimal.ndigits (Z.abs (v * r))
                  + PyDecimal.prec + 1) in *.
    assert (0 <= shift) as Hs by (unfold shift; lia).
    apply Z.leb_le in Hs as Hsb. rewrite Hsb. apply Z.leb_le in Hsb.
    assert (Z.abs (v * r) * 10 ^ shift = (Z.abs v * 10 ^ shift) * Z.abs r) as Hnum
      by (rewrite Z.abs_mul; lia).
    rewrite Hnum, Z.mod_mul, Z.div_mul by lia. cbn [Z.eqb].
    assert (PyDecimal.strip_zeros (Z.to_nat (0 - 0 - (0 - 0 - shift)))
              (Z.abs v * 10 ^ shift) (0 - 0 - shift) (0 - 0) = (Z.abs v, 0)) as ->.
    { pose proof (strip_zeros_all (Z.to_nat shift) (Z.abs v) 0) as Hz.
      rewrite Z2Nat.id in Hz by lia.
      replace (0 - 0 - (0 - 0 - shift)) with shift by lia.
      replace (0 - 0 - shift) with (0 - shift) by lia. exact Hz. }
    unfold PyDecimal.fix_.
    assert (Z.abs v < 10 ^ PyDecimal.prec) as Hvb by (rewrite Z.abs_mul in Hb; nia).
    pose proof (ndigits_within (Z.abs v) ltac:(lia)) as [_ Hdv].
    apply Z.leb_le in Hdv. rewrite Hdv. f_equal.
    unfold PyDecimal.signed.
    destruct (Z.ltb_spec (v * r) 0), (Z.ltb_spec r 0); simpl; nia.
Qed.

Lemma to_string_whole (v : Z) : PyDecimal.to_string (PyDecimal.mk v 0) = PyStr.of_Z v.
Proof.
  unfold PyDecimal.to_string. cbn [PyDecimal.coeff PyDecimal.exp].
  destruct (of_Z_digits (Z.abs v) ltac:(lia)) as [_ Hne].
  remember (PyStr.of_Z (Z.abs v)) as ds eqn:Hds.
  remember (Z.of_nat (String.length ds)) as n eqn:Hn.
  assert (1 <= n) by (destruct ds; [done|]; simpl in Hn; lia).
  rewrite Z.add_0_l. change (0 <=? 0) with true.
  assert ((-6 <? n) = true) as -> by (apply Z.ltb_lt; lia). cbn [andb].
  assert ((n <=? 0) = false) as -> by (apply Z.leb_gt; lia).
  rewrite Z.leb_refl, !Z.sub_diag. cbn [Z.to_nat PyStr.repeat_char Z.eqb].
  rewrite !append_nil_r. subst ds.
  destruct (Z.ltb_spec v 0) as [Hneg|Hpos].
  - rewrite (of_Z_neg v Hneg). by rewrite Z.abs_neq by lia.
  - rewrite append_nil_l. by rewrite Z.abs_eq by lia.
Qed.

Lemma of_string_whole (v : Z) : PyDecimal.of_string (PyStr.of_Z v) = Some (PyDecimal.of_Z v).
Proof. rewrite <- to_string_whole. apply of_string_to_string. Qed.

Lemma of_Z_no_comma (v : Z) : PyStr.remove_char "," (PyStr.of_Z v) = PyStr.of_Z v.
Proof.
  unfold PyStr.remove_char. apply filter_all_chars.
  assert (forall n, 0 <= n ->
            all_chars (fun d => negb (Ascii.eqb "," d)) (PyStr.of_Z n)) as Hpos.
  { intros n Hn. eapply all_chars_impl; [|by apply of_Z_digits].
    intros c Hc. destruct c as [[] [] [] [] [] [] [] []]; done. }
  destruct (Z.ltb_spec v 0) as [Hneg|Hnn]; [|by apply Hpos].
  rewrite (of_Z_neg v Hneg). split; [done|]. apply Hpos. lia.
Qed.

(** X2.  For a unit of the schema with a whole rate and a whole amount
    whose value in base units is within the precision, [to_base] gives the
    amount times the rate and [from_base] of that, for the same unit, gives
    the amount back. *)
Theorem whole_amounts_survive_to_base_and_from_base schema unit rate (v : Z) :
  od_get String.eqb (conversions schema) unit = Some rate ->
  whole_rate (unit, rate) ->
  unit <> "" ->
  Z.abs (v * PyDecimal.coeff rate) < 10 ^ PyDecimal.prec ->
  to_base schema (PyStr.of_Z v) (VStr unit) = Ok (PyDecimal.of_Z (v * PyDecimal.coeff rate))
  /\ from_base schema (PyDecimal.of_Z (v * PyDecimal.coeff rate)) (Some unit)
     = Ok (Single (PyDecimal.of_Z v)).
Proof.
  intros Hget [Hre Hr] Hne Hb. cbn [snd] in Hre, Hr.
  destruct rate as [r re]. cbn [PyDecimal.coeff PyDecimal.exp] in *. subst re.
  split.
  - unfold to_base. rewrite of_Z_no_comma, of_string_whole. cbn [rate_of]. rewrite Hget.
    unfold PyDecimal.of_Z. by rewrite mul_whole.
  - unfold from_base. apply String.eqb_neq in Hne. rewrite Hne, Hget.
    assert (PyDecimal.is_zero (PyDecimal.mk r 0) = false) as ->
      by (unfold PyDecimal.is_zero; cbn; apply Z.eqb_neq; lia).
    unfold PyDecimal.of_Z. by rewrite div_whole.
Qed.

End conversions.

Section display_facts.
Import UnitRegistry.

Lemma gtb_zero_nonpositive (v : PyDecimal.t) :
  PyDecimal.coeff v <= 0 -> PyDecimal.gtb v PyDecimal.zero = false.
Proof.
  intros Hv. unfold PyDecimal.gtb, PyDecimal.ltb, PyDecimal.lhs, PyDecimal.rhs.
  cbn [PyDecimal.coeff PyDecimal.exp PyDecimal.zero].
  apply Z.ltb_ge. rewrite Z.mul_0_l.
  assert (0 <= 10 ^ (PyDecimal.exp v - Z.min 0 (PyDecimal.exp v))) by (apply Z.pow_nonneg; lia).
  nia.
Qed.

Lemma floordiv_nonpositive (v r : PyDecimal.t) :
  PyDecimal.coeff v <= 0 ->
  Z.abs (PyDecimal.coeff v) * 10 ^ Z.max 0 (PyDecimal.exp v) < 10 ^ PyDecimal.prec ->
  PyDecimal.exp r = 0 -> 1 <= PyDecimal.coeff r ->
  exists q, PyDecimal.floordiv v r = Some (PyDecimal.mk q 0) /\ q <= 0.
Proof.
  intros Hv Hb Hre Hr. unfold PyDecimal.floordiv, PyDecimal.lhs, PyDecimal.rhs.
  rewrite Hre.
  set (a := PyDecimal.coeff v * 10 ^ (PyDecimal.exp v - Z.min (PyDecimal.exp v) 0)).
  set (b := PyDecimal.coeff r * 10 ^ (0 - Z.min (PyDecimal.exp v) 0)).
  assert (PyDecimal.exp v - Z.min (PyDecimal.exp v) 0 = Z.max 0 (PyDecimal.exp v)) as He by lia.
  assert (0 < 10 ^ (0 - Z.min (PyDecimal.exp v) 0)) as Hp by (apply Z.pow_pos_nonneg; lia).
  assert (0 < 10 ^ Z.max 0 (PyDecimal.exp v)) as Hp' by (apply Z.pow_pos_nonneg; lia).
  assert (a <= 0) as Ha by (unfold a; rewrite He; nia).
  assert (Z.abs a < 10 ^ PyDecimal.prec) as Hab by (unfold a; rewrite He; nia).
  assert (1 <= b) as Hb1 by (unfold b; nia).
  assert (Z.quot a b <= 0 /\ Z.abs (Z.quot a b) <= Z.abs a) as [Hq Hqa].
  { rewrite <- (Z.opp_involutive a) at 1 2. rewrite Z.quot_opp_l by lia.
    rewrite Z.abs_opp. rewrite Z.quot_div_nonneg by lia.
    assert (0 <= (- a) / b <= - a).
    { split; [apply Z.div_pos; lia|]. apply Z.div_le_upper_bound; nia. }
    lia. }
  exists (Z.quot a b).
  destruct (Z.ltb_spec (Z.abs (Z.quot a b)) (10 ^ PyDecimal.prec)); [done|lia].
Qed.

(** The loop of the breakdown on an amount that is not positive: nothing
    is taken from it, and the result holds at most the base unit, a unit
    of [all]. *)
Lemma debt_loop base (v : PyDecimal.t) (all : list string) units :
  PyDecimal.coeff v <= 0 ->
  Z.abs (PyDecimal.coeff v) * 10 ^ Z.max 0 (PyDecimal.exp v) < 10 ^ PyDecimal.prec ->
  Forall whole_rate units ->
  (forall u, In u (List.map fst units) -> In u all) ->
  forall st,
    bd_remaining st = v ->
    bd_result st = [] \/ bd_result st = [(base, v)] /\ In base all ->
    exists st',
      breakdown_loop base st units = Ok st'
      /\ bd_remaining st' = v
      /\ (bd_result st' = [] \/ bd_result st' = [(base, v)] /\ In base all).
Proof.
  intros Hv Hb Hw. induction Hw as [|[unit rate] r [Hre Hr] _ IH]; intros Hall st Hrem Hres.
  - by exists st.
  - simpl in Hre, Hr.
    assert (forall u, In u (List.map fst r) -> In u all) as Hall'
      by (intros u Hu; apply Hall; by right).
    cbn [breakdown_loop breakdown_step].
    destruct (_ && negb (String.eqb unit base)); [by apply IH|].
    destruct (_ && negb (String.eqb unit base)); [by apply IH|].
    destruct (String.eqb unit base) eqn:Hbase.
    + apply String.eqb_eq in Hbase. subst unit. apply IH; cbn; [done|done|]. right.
      split; [|apply Hall; by left]. rewrite Hrem.
      destruct Hres as [->|[-> _]]; simpl; rewrite ?String.eqb_refl; done.
    + rewrite Hrem.
      destruct (floordiv_nonpositive v rate Hv Hb Hre Hr) as (q & -> & Hq).
      rewrite gtb_zero_nonpositive by done. by apply IH.
Qed.

Lemma no_parts_for_a_debt schema (v : PyDecimal.t) m :
  PyDecimal.coeff v <= 0 ->
  m = [] \/ m = [(base_unit schema, v)]
           /\ In (base_unit schema) (List.map fst (conversions schema)) ->
  exists keyed,
    with_rates schema m = Ok keyed
    /\ display_parts (fold_right insert_by_rate [] keyed) = [].
Proof.
  intros Hv [->|[-> Hin]]; [by exists []|].
  cbn [with_rates].
  destruct (od_get String.eqb (conversions schema) (base_unit schema)) as [rate|] eqn:Hget.
  - eexists. split; [done|]. unfold display_parts. simpl.
    by rewrite gtb_zero_nonpositive.
  - exfalso. eapply od_get_None; [exact Hget|]. exact Hin.
Qed.

(** X3.  Where every rate is a whole number, [_format_standard] and
    [_format_time_mixed] display every amount that is zero or negative
    (within the precision) as "0 <base unit>": a debt is shown as
    nothing. *)
Theorem a_debt_is_displayed_as_zero schema (v : PyDecimal.t) :
  Forall whole_rate (conversions schema) ->
  PyDecimal.coeff v <= 0 ->
  Z.abs (PyDecimal.coeff v) * 10 ^ Z.max 0 (PyDecimal.exp v) < 10 ^ PyDecimal.prec ->
  _format_standard schema v = Ok ("0 " ++ base_unit schema)
  /\ _format_time_mixed schema v = Ok ("0 " ++ base_unit schema).
Proof.
  intros Hw Hv Hb.
  pose proof (sorted_units_perm schema) as Hperm.
  assert (Forall whole_rate (sorted_units schema)) as Hw'.
  { eapply Permutation_Forall; [|exact Hw]. by symmetry. }
  destruct (debt_loop (base_unit schema) v (List.map fst (conversions schema))
              (sorted_units schema) Hv Hb Hw') with
    (st := {| bd_result := []; bd_remaining := v; bd_processed := [] |})
    as (st' & Hloop & Hrem & Hres); [|done|by left|].
  { intros u Hu. rewrite <- list_elem_of_In in *.
    by rewrite <- (Permutation_map fst Hperm). }
  assert (breakdown schema v = Ok (bd_result st')) as Hbd.
  { unfold breakdown. rewrite Hloop, Hrem. by rewrite gtb_zero_nonpositive. }
  destruct (no_parts_for_a_debt schema v (bd_result st') Hv Hres) as (keyed & Hk & Hparts).
  unfold _format_standard, _format_time_mixed, format_parts.
  by rewrite Hbd, Hk, Hparts.
Qed.

End display_facts.

(** ** Entity names *)

Section names.
Context `{Externals}.
Import LedgerEngine.

Lemma candidates_spec raw existing cs :
  candidates raw existing = Ok cs ->
  forall x s, In (x, s) cs ->
    In (VStr s) existing
    /\ x = ratio (PyStr.lower raw) (PyStr.lower s)
    /\ Qltb (9 # 10) x = true
    /\ (skeleton raw <> skeleton s \/ raw = s).
Proof.
  revert cs. induction existing as [|n r IH]; simpl; intros cs Hc x s Hin.
  - injection Hc as <-. destruct Hin.
  - destruct n as [| | |name| |]; try discriminate.
    destruct (candidates raw r) as [cs'|]; [|discriminate].
    specialize (IH _ eq_refl).
    destruct (String.eqb (skeleton raw) (skeleton name) && negb (String.eqb raw name)) eqn:Hskip.
    + injection Hc as <-. destruct (IH _ _ Hin) as (? & ? & ? & ?). auto.
    + destruct (Qltb (9 # 10) (ratio (PyStr.lower raw) (PyStr.lower name))) eqn:Hq;
        injection Hc as <-.
      * destruct Hin as [Heq|Hin].
        -- injection Heq as <- <-. repeat split; [by left|done|].
           apply andb_false_iff in Hskip as [Hs|Hs].
           ++ left. by apply String.eqb_neq.
           ++ right. apply negb_false_iff in Hs. by apply String.eqb_eq.
        -- destruct (IH _ _ Hin) as (? & ? & ? & ?). auto.
      * destruct (IH _ _ Hin) as (? & ? & ? & ?). auto.
Qed.

Lemma insert_by_ratio_In x y l : In y (insert_by_ratio x l) -> y = x \/ In y l.
Proof.
  induction l as [|a r IH]; simpl.
  - intros [<-|[]]. by left.
  - destruct (Qltb (fst x) (fst a)); simpl.
    + intros [<-|Hin]; [right; by left|]. destruct (IH Hin); auto.
    + intros [<-|Hin]; auto.
Qed.

Lemma sorted_by_ratio_In y cs : In y (fold_right insert_by_ratio [] cs) -> In y cs.
Proof.
  induction cs as [|a r IH]; simpl; [done|].
  intros Hin. apply insert_by_ratio_In in Hin as [->|Hin]; auto.
Qed.

(** X5.  Whatever [normalize_entity_name] returns is the raw name or one of
    the existing names.  It returns an existing name other than the raw one
    only with the ambiguity flag off, and only a name that differs from the
    raw one in more than its digits (their texts without digits differ) and
    whose similarity ratio to it, both in lower case, is above 0.9. *)
Theorem normalize_entity_name_merges_only_close_names raw_name existing_names name ambiguous :
  normalize_entity_name raw_name existing_names = Ok (name, ambiguous) ->
  name = raw_name
  \/ (ambiguous = false
      /\ exists raw known,
           raw_name = VStr raw /\ name = VStr known
           /\ In (VStr known) existing_names
           /\ skeleton raw <> skeleton known
           /\ (9 # 10 < ratio (PyStr.lower raw) (PyStr.lower known))%Q).
Proof.
  unfold normalize_entity_name.
  destruct (_ || _); [intros Hn; injection Hn as <- <-; by left|].
  destruct (existsb (Py.eqb raw_name) existing_names) eqn:Hex;
    [intros Hn; injection Hn as <- <-; by left|].
  destruct raw_name as [| | |raw| |]; try discriminate.
  destruct (candidates raw existing_names) as [cs|] eqn:Hc; [|discriminate].
  destruct (fold_right insert_by_ratio [] cs) as [|[best_ratio best_name] rest] eqn:Hs;
    [intros Hn; injection Hn as <- <-; by left|].
  destruct (Qltb best_ratio (9 # 10)); [intros Hn; injection Hn as <- <-; by left|].
  assert (In (best_ratio, best_name) cs) as Hin
    by (apply sorted_by_ratio_In; rewrite Hs; by left).
  destruct (candidates_spec _ _ _ Hc _ _ Hin) as (Hknown & -> & Hq & Hsk).
  assert (name = VStr best_name /\ ambiguous = false ->
          name = VStr raw
          \/ ambiguous = false
             /\ exists raw0 known,
                  VStr raw = VStr raw0 /\ name = VStr known
                  /\ In (VStr known) existing_names
                  /\ skeleton raw0 <> skeleton known
                  /\ (9 # 10 < ratio (PyStr.lower raw0) (PyStr.lower known))%Q) as Hmerge.
  { intros [-> ->]. right. split; [done|]. exists raw, best_name.
    repeat split; [done| |].
    - destruct Hsk as [Hsk| ->]; [done|]. exfalso.
      assert (existsb (Py.eqb (VStr best_name)) existing_names = true) as Hyes.
      { apply existsb_exists. exists (VStr best_name). split; [done|].
        simpl. apply String.eqb_refl. }
      congruence.
    - unfold Qltb in Hq. apply negb_true_iff in Hq.
      apply Qnot_le_lt. intros Hle. apply Qle_bool_iff in Hle. congruence. }
  destruct rest as [|[second_ratio second_name] rest'].
  - intros Hn. injection Hn as <- <-. by apply Hmerge.
  - destruct (Qltb (_ - _) _); intros Hn; injection Hn as <- <-; [by left|by apply Hmerge].
Qed.

End names.

(** ** Buffs *)

Section temporal_facts.
Context `{Externals}.

Lemma remove_first_buff_spec bid l l' :
  TemporalState.remove_first_buff bid l = Some l' ->
  exists l1 b l2, l = (l1 ++ b :: l2)%list /\ l' = (l1 ++ l2)%list
    /\ TemporalState.id b = bid
    /\ Forall (fun x => TemporalState.id x <> bid) l1.
Proof.
  revert l'. induction l as [|a r IH]; simpl; intros l' Hr; [discriminate|].
  destruct (String.eqb (TemporalState.id a) bid) eqn:E.
  - injection Hr as <-. apply String.eqb_eq in E.
    exists [], a, r. repeat split; [done|constructor].
  - destruct (TemporalState.remove_first_buff bid r) as [x|]; [|discriminate].
    injection Hr as <-. destruct (IH _ eq_refl) as (l1 & b & l2 & -> & -> & Hb & Hf).
    exists (a :: l1), b, l2. repeat split; [done|].
    constructor; [|done]. by apply String.eqb_neq.
Qed.

Lemma remove_first_buff_None bid l :
  TemporalState.remove_first_buff bid l = None ->
  Forall (fun x => TemporalState.id x <> bid) l.
Proof.
  induction l as [|a r IH]; simpl; intros Hr; [constructor|].
  destruct (String.eqb (TemporalState.id a) bid) eqn:E; [discriminate|].
  destruct (TemporalState.remove_first_buff bid r); [discriminate|].
  constructor; [by apply String.eqb_neq|by apply IH].
Qed.

Lemma remove_buff_wf ts bid : ts_wf ts -> ts_wf (fst (TemporalState.remove_buff ts bid)).
Proof.
  intros (Hc & Hn & Hf). unfold TemporalState.remove_buff.
  destruct (TemporalState.remove_first_buff bid _) as [l|] eqn:Hr; [|done].
  destruct (remove_first_buff_spec _ _ _ Hr) as (l1 & b & l2 & Hl & -> & _ & _).
  rewrite Hl in Hn, Hf. unfold ts_wf. cbn. repeat split; [done| |].
  - rewrite map_app in Hn. cbn in Hn.
    apply NoDup_app in Hn as (H1 & H2 & H3). apply NoDup_cons in H3 as [_ H3].
    rewrite map_app. apply NoDup_app. repeat split; [done| |done].
    intros x Hx Hx'. apply (H2 x Hx). by right.
  - apply Forall_app in Hf as [H1 H2]. apply Forall_cons in H2 as [_ H2].
    apply Forall_app. done.
Qed.

Lemma buffs_history_wf ts : buffs_history ts -> ts_wf ts.
Proof.
  induction 1 as [|ts name effects et evl desc _ IH|ts bid _ IH|ts c wc t _ IH|ts _ IH].
  - apply ts_wf_empty.
  - destruct (TemporalState.add_buff ts name effects et evl desc) as [ts' [bid|e]] eqn:Ha.
    + destruct (add_buff_spec _ _ _ _ _ _ _ _ Ha) as (-> & Hk & b & Hl & Hid & _).
      by eapply add_buff_wf.
    + cbn. unfold TemporalState.add_buff in Ha.
      destruct (_ && _); [by injection Ha as <- _|].
      destruct (TemporalState.decimal_effects effects); [discriminate|].
      injection Ha as <- _. destruct IH as (Hc & Hn & Hf).
      repeat split; cbn; [lia|done|].
      eapply Forall_impl; [exact Hf|]. intros b (k & Hk & Hid). exists k. split; [lia|done].
  - by apply remove_buff_wf.
  - destruct (TemporalState.check_expiry ts c wc t) as [ts' [ids|e]] eqn:Hx.
    + by eapply check_expiry_wf.
    + unfold TemporalState.check_expiry in Hx.
      destruct (TemporalState.partition_expired _ _ _ _) as [[i k]|]; [discriminate|].
      by injection Hx as <- _.
  - apply ts_wf_empty.
Qed.

(** X15.  After any sequence of [add_buff], [remove_buff], [check_expiry]
    and [clear_all] on a new temporal state, the ids of the active buffs are
    pairwise distinct, and each is [buff_NNN] for a number from 0 up to the
    counter. *)
Theorem active_buff_ids_are_distinct ts :
  buffs_history ts ->
  NoDup (List.map TemporalState.id (TemporalState.active_buffs ts))
  /\ forall b, In b (TemporalState.active_buffs ts) ->
       exists k, 0 <= k <= TemporalState._buff_id_counter ts
                 /\ TemporalState.id b = TemporalState.buff_id k.
Proof.
  intros Hh. destruct (buffs_history_wf ts Hh) as (_ & Hn & Hf). split; [done|].
  intros b Hb. rewrite Forall_forall in Hf. apply Hf. by rewrite list_elem_of_In.
Qed.

Lemma find_app_fresh {A} (p : A -> bool) (l : list A) (b : A) :
  Forall (fun x => p x = false) l -> p b = true -> List.find p (l ++ [b]) = Some b.
Proof.
  induction 1 as [|a r Ha _ IH]; simpl; intros Hb; [by rewrite Hb|].
  rewrite Ha. by apply IH.
Qed.

Lemma remove_first_buff_last bid l b :
  Forall (fun x => TemporalState.id x <> bid) l -> TemporalState.id b = bid ->
  TemporalState.remove_first_buff bid (l ++ [b]) = Some l.
Proof.
  induction 1 as [|a r Ha _ IH]; simpl; intros Hb.
  - apply String.eqb_eq in Hb. by rewrite Hb.
  - apply String.eqb_neq in Ha. rewrite Ha. by rewrite (IH Hb).
Qed.

Lemma fresh_buff_id ts :
  ts_wf ts ->
  Forall (fun x => TemporalState.id x
                   <> TemporalState.buff_id (TemporalState._buff_id_counter ts + 1))
         (TemporalState.active_buffs ts).
Proof.
  intros (Hc & _ & Hf). eapply Forall_impl; [exact Hf|].
  intros b (k & Hk & Hid) Heq. rewrite Hid in Heq. apply buff_id_inj in Heq; lia.
Qed.

(** X16.  On a temporal state reached by its own operations, the id that a
    successful [add_buff] returns was not in use before; [get_buff_by_id]
    of it then finds the new buff, with the name and expiry given, and
    [remove_buff] of it returns True and leaves the active buffs as they
    were before the call, the counter staying one higher. *)
Theorem added_buff_is_found_and_removed_alone ts name effects et evl desc ts' bid :
  buffs_history ts ->
  TemporalState.add_buff ts name effects et evl desc = (ts', Ok bid) ->
  (exists b,
     TemporalState.get_buff_by_id ts' bid = Some b
     /\ TemporalState.name b = name
     /\ TemporalState.expiry_type b = et
     /\ TemporalState.expiry_value b = evl)
  /\ TemporalState.get_buff_by_id ts bid = None
  /\ TemporalState.remove_buff ts' bid
     = ({| TemporalState.active_buffs := TemporalState.active_buffs ts;
           TemporalState._buff_id_counter := TemporalState._buff_id_counter ts + 1 |},
        true).
Proof.
  intros Hh Ha. pose proof (fresh_buff_id ts (buffs_history_wf ts Hh)) as Hfresh.
  unfold TemporalState.add_buff in Ha.
  destruct (_ && _); [discriminate|].
  destruct (TemporalState.decimal_effects effects) as [eff|]; [|discriminate].
  injection Ha as <- <-. unfold TemporalState.get_buff_by_id, TemporalState.remove_buff. cbn.
  split; [|split].
  - eexists. split; [apply find_app_fresh; [|by apply String.eqb_eq]|by cbn].
    eapply Forall_impl; [exact Hfresh|]. intros x Hx. by apply String.eqb_neq.
  - destruct (List.find _ _) as [b|] eqn:Hfind; [|done].
    apply find_some in Hfind as [Hb Heq]. apply String.eqb_eq in Heq.
    rewrite Forall_forall in Hfresh. exfalso. apply (Hfresh b); [by rewrite list_elem_of_In|done].
  - by rewrite (remove_first_buff_last _ _ _ Hfresh).
Qed.

(** X17.  A second [check_expiry] in the same temporal context expires
    nothing and leaves the temporal state as the first one left it. *)
Theorem check_expiry_is_idempotent ts c wc t ts' ids :
  TemporalState.check_expiry ts c wc t = (ts', Ok ids) ->
  TemporalState.check_expiry ts' c wc t = (ts', Ok []).
Proof.
  unfold TemporalState.check_expiry.
  destruct (TemporalState.partition_expired _ c wc t) as [[i k]|] eqn:Hp; [|discriminate].
  intros Hx. injection Hx as <- <-. cbn.
  assert (TemporalState.partition_expired k c wc t = Ok ([], k)) as ->; [|done].
  revert i k Hp.
  induction (TemporalState.active_buffs ts) as [|b r IH]; simpl; intros i k Hp.
  - by injection Hp as <- <-.
  - destruct (TemporalState.is_expired b c wc t) as [x|] eqn:Hb; [|discriminate].
    destruct (TemporalState.partition_expired r c wc t) as [[i' k']|]; [|discriminate].
    specialize (IH _ _ eq_refl).
    destruct x; injection Hp as <- <-; [done|].
    simpl. by rewrite Hb, IH.
Qed.

Lemma partition_keeps l c wc t ids keep b :
  TemporalState.partition_expired l c wc t = Ok (ids, keep) ->
  In b l -> TemporalState.is_expired b c wc t = Ok false -> In b keep.
Proof.
  revert ids keep. induction l as [|a r IH]; simpl; intros ids keep Hp Hin Hb; [done|].
  destruct (TemporalState.is_expired a c wc t) as [x|] eqn:Ha; [|discriminate].
  destruct (TemporalState.partition_expired r c wc t) as [[i' k']|]; [|discriminate].
  destruct Hin as [->|Hin].
  - rewrite Hb in Ha. injection Ha as <-. injection Hp as <- <-. by left.
  - specialize (IH _ _ eq_refl Hin Hb). destruct x; injection Hp as <- <-; [done|by right].
Qed.

(** X18.  [check_expiry] never removes a buff whose expiry type is none of
    "chapter", "word_count" and "time": a permanent buff, and equally one
    with an unknown expiry type, stays active in every context. *)
Theorem only_timed_buffs_expire ts c wc t b :
  In b (TemporalState.active_buffs ts) ->
  Py.eqb (TemporalState.expiry_type b) (VStr "chapter") = false ->
  Py.eqb (TemporalState.expiry_type b) (VStr "word_count") = false ->
  Py.eqb (TemporalState.expiry_type b) (VStr "time") = false ->
  In b (TemporalState.active_buffs (fst (TemporalState.check_expiry ts c wc t))).
Proof.
  intros Hin H1 H2 H3. unfold TemporalState.check_expiry.
  destruct (TemporalState.partition_expired _ c wc t) as [[i k]|] eqn:Hp; [|done].
  cbn. eapply partition_keeps; [exact Hp|done|].
  unfold TemporalState.is_expired. by rewrite H1, H2, H3.
Qed.

End temporal_facts.

Section effects_facts.

Lemma od_mem_set (d : list (string * PyDecimal.t)) k j v :
  od_mem String.eqb (od_set String.eqb d k v) j
  = String.eqb k j || od_mem String.eqb d j.
Proof.
  unfold od_mem. destruct (String.eqb k j) eqn:E.
  - apply String.eqb_eq in E as <-. by rewrite od_get_set_eq.
  - apply String.eqb_neq in E. by rewrite od_get_set_ne.
Qed.

Lemma aggregate_mem (effects agg : list (string * PyDecimal.t)) stat :
  od_mem String.eqb
    (fold_left
       (fun agg '(stat, value) =>
          match od_get String.eqb agg stat with
          | Some v => od_set String.eqb agg stat (PyDecimal.add v value)
          | None => od_set String.eqb agg stat value
          end) effects agg) stat
  = od_mem String.eqb agg stat || od_mem String.eqb effects stat.
Proof.
  revert agg. induction effects as [|[k v] r IH]; intros agg; simpl.
  - by rewrite orb_false_r.
  - rewrite IH.
    assert (od_mem String.eqb ((k, v) :: r) stat
            = String.eqb k stat || od_mem String.eqb r stat) as ->
      by (unfold od_mem; simpl; by destruct (String.eqb k stat)).
    assert (od_mem String.eqb
              match od_get String.eqb agg k with
              | Some v0 => od_set String.eqb agg k (PyDecimal.add v0 v)
              | None => od_set String.eqb agg k v
              end stat = String.eqb k stat || od_mem String.eqb agg stat) as ->.
    { destruct (od_get String.eqb agg k); apply od_mem_set. }
    destruct (String.eqb k stat), (od_mem String.eqb agg stat); done.
Qed.

Lemma active_effects_mem (l : list TemporalState.Buff) agg stat :
  od_mem String.eqb
    (fold_left
       (fun aggregated buff =>
          fold_left
            (fun agg '(stat, value) =>
               match od_get String.eqb agg stat with
               | Some v => od_set String.eqb agg stat (PyDecimal.add v value)
               | None => od_set String.eqb agg stat value
               end)
            (TemporalState.effects buff) aggregated) l agg) stat
  = od_mem String.eqb agg stat
    || existsb (fun buff => od_mem String.eqb (TemporalState.effects buff) stat) l.
Proof.
  revert agg. induction l as [|b r IH]; intros agg; simpl.
  - by rewrite orb_false_r.
  - by rewrite IH, aggregate_mem, orb_assoc.
Qed.

(** X19.  A stat is a key of [get_active_effects()] exactly when
    [get_buffs_by_stat] of it is not empty, that is, when some active buff
    has an effect on it. *)
Theorem a_stat_has_an_effect_iff_a_buff_names_it (ts : TemporalState.t) (stat : string) :
  od_mem String.eqb (TemporalState.get_active_effects ts) stat = true
  <-> TemporalState.get_buffs_by_stat ts stat <> [].
Proof.
  unfold TemporalState.get_active_effects, TemporalState.get_buffs_by_stat.
  rewrite active_effects_mem. simpl.
  induction (TemporalState.active_buffs ts) as [|b r IH]; simpl; [done|].
  destruct (od_mem String.eqb (TemporalState.effects b) stat); simpl; [done|exact IH].
Qed.

End effects_facts.

(** ** Rules *)

Section rule_facts.

Lemma rule_id_inj n m : 0 <= n -> 0 <= m -> rule_id n = rule_id m -> n = m.
Proof.
  intros Hn Hm Heq. unfold rule_id in Heq. apply pad3_inj; [done|done|].
  by injection Heq.
Qed.

Lemma remove_first_rule_spec rid l l' :
  RuleEngine.remove_first_rule rid l = Some l' ->
  exists l1 b l2, l = (l1 ++ b :: l2)%list /\ l' = (l1 ++ l2)%list
    /\ RuleEngine.id b = rid
    /\ Forall (fun x => RuleEngine.id x <> rid) l1.
Proof.
  revert l'. induction l as [|a r IH]; simpl; intros l' Hr; [discriminate|].
  destruct (String.eqb (RuleEngine.id a) rid) eqn:E.
  - injection Hr as <-. apply String.eqb_eq in E.
    exists [], a, r. repeat split; [done|constructor].
  - destruct (RuleEngine.remove_first_rule rid r) as [x|]; [|discriminate].
    injection Hr as <-. destruct (IH _ eq_refl) as (l1 & b & l2 & -> & -> & Hb & Hf).
    exists (a :: l1), b, l2. repeat split; [done|].
    constructor; [|done]. by apply String.eqb_neq.
Qed.

Lemma rules_history_wf re : rules_history re -> rules_wf re.
Proof.
  induction 1 as [|re tt op m c d _ IH|re rid _ IH|re _ IH].
  - repeat split; [done|constructor|constructor].
  - destruct IH as (Hc & Hn & Hf). unfold rules_wf. cbn.
    assert (forall r, In r (RuleEngine.active_rules re) ->
              exists k, 0 <= k <= RuleEngine._rule_id_counter re
                        /\ RuleEngine.id r = rule_id k) as Hf'.
    { intros r Hr. rewrite Forall_forall in Hf. apply Hf. by rewrite list_elem_of_In. }
    repeat split; [lia| |].
    + rewrite map_app. apply NoDup_app. split; [done|]. split; [|apply NoDup_singleton].
      intros x Hx. rewrite list_elem_of_In in Hx.
      apply in_map_iff in Hx as (r & <- & Hr). destruct (Hf' r Hr) as (k & Hk & Hid).
      rewrite list_elem_of_In. intros [Heq|[]]. cbn in Heq. rewrite Hid in Heq.
      apply (rule_id_inj (RuleEngine._rule_id_counter re + 1) k) in Heq; lia.
    + apply Forall_app. split.
      * eapply Forall_impl; [exact Hf|]. intros r (k & Hk & Hid). exists k. split; [lia|done].
      * constructor; [|constructor]. exists (RuleEngine._rule_id_counter re + 1).
        split; [lia|done].
  - destruct IH as (Hc & Hn & Hf). unfold RuleEngine.remove_rule.
    destruct (RuleEngine.remove_first_rule rid _) as [l|] eqn:Hr; [|done].
    destruct (remove_first_rule_spec _ _ _ Hr) as (l1 & b & l2 & Hl & -> & _ & _).
    rewrite Hl in Hn, Hf. unfold rules_wf. cbn. repeat split; [done| |].
    + rewrite map_app in Hn. cbn in Hn.
      apply NoDup_app in Hn as (H1 & H2 & H3). apply NoDup_cons in H3 as [_ H3].
      rewrite map_app. apply NoDup_app. repeat split; [done| |done].
      intros x Hx Hx'. apply (H2 x Hx). by right.
    + apply Forall_app in Hf as [H1 H2]. apply Forall_cons in H2 as [_ H2].
      apply Forall_app. done.
  - repeat split; [done|constructor|constructor].
Qed.

(** X21.  After any sequence of [add_rule], [remove_rule] and
    [clear_all_rules] on a new rule engine, the ids of the active rules are
    pairwise distinct, and each is [rule_NNN] for a number from 0 up to the
    counter. *)
Theorem active_rule_ids_are_distinct re :
  rules_history re ->
  NoDup (List.map RuleEngine.id (RuleEngine.active_rules re))
  /\ forall r, In r (RuleEngine.active_rules re) ->
       exists k, 0 <= k <= RuleEngine._rule_id_counter re
                 /\ RuleEngine.id r = rule_id k.
Proof.
  intros Hh. destruct (rules_history_wf re Hh) as (_ & Hn & Hf). split; [done|].
  intros b Hb. rewrite Forall_forall in Hf. apply Hf. by rewrite list_elem_of_In.
Qed.




Lemma apply_each_idle rules ev :
  Forall (fun r => RuleEngine.has_condition r = true) rules \/ ev !! "value" = None ->
  RuleEngine.apply_each ev rules = Ok ev.
Proof.
  intros Hc. induction rules as [|r rs IH]; simpl; [done|].
  assert (RuleEngine.apply_rule ev r = Ok ev) as ->.
  { unfold RuleEngine.apply_rule. destruct Hc as [Hc|Hc].
    - apply Forall_cons in Hc as [-> _]. done.
    - rewrite Hc. by destruct (RuleEngine.has_condition r). }
  apply IH. destruct Hc as [Hc|Hc]; [left|by right]. by apply Forall_cons in Hc as [_ Hc].
Qed.

(** X23.  An event without the key "value" comes back from [apply_rules]
    unchanged, whatever rules are active. *)
Theorem apply_rules_leaves_an_event_without_value re ev :
  ev !! "value" = None -> RuleEngine.apply_rules re ev = Ok ev.
Proof. intros Hv. unfold RuleEngine.apply_rules. apply apply_each_idle. by right. Qed.

(** X24.  Rules that carry a condition are skipped: if every active rule
    has a non-empty condition, [apply_rules] returns the event unchanged. *)
Theorem conditional_rules_are_never_applied re ev :
  Forall (fun r => RuleEngine.has_condition r = true) (RuleEngine.active_rules re) ->
  RuleEngine.apply_rules re ev = Ok ev.
Proof.
  intros Hc. unfold RuleEngine.apply_rules. apply apply_each_idle. left.
  apply Forall_forall. intros r Hr. rewrite list_elem_of_In in Hr.
  apply filter_In in Hr as [Hr _]. rewrite Forall_forall in Hc. apply Hc.
  by rewrite list_elem_of_In.
Qed.

End rule_facts.

(** ** Saving and loading *)

Section rule_saving.

Lemma pad3_digits n : 0 <= n -> all_chars PyStr.is_digit (PyStr.pad3 n) /\ PyStr.pad3 n <> "".
Proof.
  intros Hn. destruct (of_Z_digits n Hn) as [Hd Hne]. unfold PyStr.pad3. split.
  - apply all_chars_app; [apply repeat_zero_digits|done].
  - intros Heq. apply (f_equal String.length) in Heq. rewrite length_append in Heq.
    destruct (PyStr.of_Z n); [done|]. simpl in Heq. lia.
Qed.

Lemma split_digits s : all_chars PyStr.is_digit s -> PyStr.split "_" s = [s].
Proof.
  induction s as [|c r IH]; [done|]. intros [Hc Hr]. cbn [PyStr.split].
  rewrite (IH Hr).
  destruct c as [[] [] [] [] [] [] [] []]; try discriminate Hc; reflexivity.
Qed.

Lemma int_body_digits s :
  all_chars PyStr.is_digit s -> s <> "" -> PyStr.int_body false s = true.
Proof.
  intros Hs Hne. destruct s as [|c r]; [done|]. destruct Hs as [Hc Hr].
  cbn [PyStr.int_body]. rewrite Hc. clear Hc Hne c.
  induction r as [|c r IH]; [done|]. destruct Hr as [Hc Hr]. cbn [PyStr.int_body].
  rewrite Hc. by apply IH.
Qed.

Lemma to_int_digits s :
  all_chars PyStr.is_digit s -> s <> "" -> PyStr.to_int s = Some (PyStr.digits_value 0 s).
Proof.
  intros Hs Hne. unfold PyStr.to_int.
  assert (all_chars plain_char s) as Hp
    by (eapply all_chars_impl; [apply digit_plain|done]).
  rewrite (strip_plain s Hp).
  assert (match s with
          | String "-" r => (true, r)
          | String "+" r => (false, r)
          | _ => (false, s)
          end = (false, s)) as ->.
  { destruct s as [|c r]; [done|]. destruct Hs as [Hc _].
    destruct c as [[] [] [] [] [] [] [] []]; try discriminate Hc; reflexivity. }
  rewrite (int_body_digits s Hs Hne). by rewrite (no_underscore_plain s Hp).
Qed.

Lemma id_number_numbered (stem : string) (n : Z) :
  all_chars (fun c => negb (Ascii.eqb c "_")) stem -> 0 <= n ->
  TemporalState.id_number (stem ++ "_") ((stem ++ "_") ++ PyStr.pad3 n) = Some n.
Proof.
  intros Hstem Hn. destruct (pad3_digits n Hn) as [Hd Hne].
  unfold TemporalState.id_number.
  assert (String.prefix (stem ++ "_") ((stem ++ "_") ++ PyStr.pad3 n) = true) as ->.
  { clear. induction (stem ++ "_") as [|c r IH]; simpl; [by destruct (PyStr.pad3 n)|].
    rewrite IH. by destruct (ascii_dec c c). }
  assert (PyStr.split "_" ((stem ++ "_") ++ PyStr.pad3 n) = [stem; PyStr.pad3 n]) as ->.
  { induction stem as [|c r IH].
    - rewrite !append_nil_l, append_cons, append_nil_l. cbn [PyStr.split].
      change (Ascii.eqb "_" "_") with true. cbv iota. by rewrite (split_digits _ Hd).
    - destruct Hstem as [Hc Hr]. rewrite !append_cons. cbn [PyStr.split].
      apply negb_true_iff in Hc. rewrite Hc. by rewrite (IH Hr). }
  rewrite (to_int_digits _ Hd Hne). unfold PyStr.pad3.
  by rewrite digits_value_zeros, digits_value_of_Z.
Qed.


Lemma buff_id_number n :
  0 <= n -> TemporalState.id_number "buff_" (TemporalState.buff_id n) = Some n.
Proof. intros Hn. by apply (id_number_numbered "buff" n). Qed.

Lemma last_number_bounds {A} prefix (id : A -> string) (number : Z -> string) hi l :
  (forall n, 0 <= n -> TemporalState.id_number prefix (number n) = Some n) ->
  Forall (fun x => exists k, 0 <= k <= hi /\ id x = number k) l ->
  forall c, 0 <= c <= hi ->
    c <= last_number prefix id c l <= hi
    /\ Forall (fun x => exists k, 0 <= k <= last_number prefix id c l /\ id x = number k) l.
Proof.
  intros Hnum Hl. induction Hl as [|x r (k & Hk & Hid) _ IH]; intros c Hc; simpl.
  - split; [lia|constructor].
  - rewrite Hid, (Hnum k) by lia.
    destruct (IH (Z.max c k) ltac:(lia)) as [Hb Hf]. split; [lia|].
    constructor; [|done]. exists k. split; [lia|done].
Qed.



End rule_saving.

Section buff_saving.
Context `{Externals}.

Lemma parse_effects_texts (effects : list (string * PyDecimal.t)) :
  TemporalState.parse_effects
    (List.map (fun '(k, v) => (k, PyDecimal.to_string v)) effects) = Ok effects.
Proof.
  induction effects as [|[k v] r IH]; [done|]. cbn [List.map TemporalState.parse_effects].
  by rewrite of_string_to_string, IH.
Qed.

Lemma decimal_effects_texts (effects : list (string * PyDecimal.t)) :
  TemporalState.decimal_effects
    (List.map (fun '(k, d) => (k, VStr (PyDecimal.to_string d))) effects) = Ok effects.
Proof.
  induction effects as [|[k v] r IH]; [done|]. cbn [List.map TemporalState.decimal_effects].
  change (Py.str (VStr (PyDecimal.to_string v))) with (PyDecimal.to_string v).
  by rewrite of_string_to_string, IH.
Qed.

Lemma buff_restore buffs : forall acc,
  TemporalState.restore acc
    (TemporalState.to_dict {| TemporalState.active_buffs := buffs;
                              TemporalState._buff_id_counter := 0 |})
  = ({| TemporalState.active_buffs := (TemporalState.active_buffs acc ++ buffs)%list;
        TemporalState._buff_id_counter :=
          last_number "buff_" TemporalState.id (TemporalState._buff_id_counter acc) buffs |},
     None).
Proof.
  unfold TemporalState.to_dict. cbn [TemporalState.active_buffs].
  induction buffs as [|b bs IH]; intros acc; cbn [List.map TemporalState.restore].
  - rewrite app_nil_r. by destruct acc.
  - cbn [TemporalState.bd_effects TemporalState.bd_id TemporalState.bd_name
         TemporalState.bd_expiry_type TemporalState.bd_expiry_value
         TemporalState.bd_description].
    rewrite parse_effects_texts, decimal_effects_texts. rewrite IH.
    cbn [TemporalState.active_buffs TemporalState._buff_id_counter].
    rewrite <- app_assoc. simpl. by destruct b.
Qed.

(** X20.  [from_dict(to_dict())] restores the active buffs exactly, effects
    included, on any temporal state with a counter that is not negative.
    The counter is never lowered: it ends between the counter of the
    restoring state and the larger of the two counters, and every restored
    id lies within it. *)
Theorem buffs_survive_to_dict_and_from_dict (ts0 ts : TemporalState.t) :
  buffs_history ts ->
  0 <= TemporalState._buff_id_counter ts0 ->
  exists counter,
    TemporalState.from_dict ts0 (TemporalState.to_dict ts)
    = ({| TemporalState.active_buffs := TemporalState.active_buffs ts;
          TemporalState._buff_id_counter := counter |}, None)
    /\ TemporalState._buff_id_counter ts0 <= counter
    /\ counter <= Z.max (TemporalState._buff_id_counter ts0)
                        (TemporalState._buff_id_counter ts)
    /\ Forall (fun b => exists k, 0 <= k <= counter
                                  /\ TemporalState.id b = TemporalState.buff_id k)
              (TemporalState.active_buffs ts).
Proof.
  intros Hh H0. destruct (buffs_history_wf ts Hh) as (Hc & _ & Hf).
  set (hi := Z.max (TemporalState._buff_id_counter ts0) (TemporalState._buff_id_counter ts)).
  assert (Forall (fun b => exists k, 0 <= k <= hi
                                     /\ TemporalState.id b = TemporalState.buff_id k)
                 (TemporalState.active_buffs ts)) as Hf'.
  { eapply Forall_impl; [exact Hf|]. intros b (k & Hk & Hid). exists k. split; [lia|done]. }
  exists (last_number "buff_" TemporalState.id (TemporalState._buff_id_counter ts0)
            (TemporalState.active_buffs ts)).
  destruct (last_number_bounds "buff_" TemporalState.id TemporalState.buff_id _ _
              buff_id_number Hf' (TemporalState._buff_id_counter ts0) ltac:(lia))
    as [Hb Hall].
  split; [|split; [lia|split; [lia|done]]].
  unfold TemporalState.from_dict.
  pose proof (buff_restore (TemporalState.active_buffs ts)
                {| TemporalState.active_buffs := [];
                   TemporalState._buff_id_counter := TemporalState._buff_id_counter ts0 |})
    as Hr.
  unfold TemporalState.to_dict in *. cbn [TemporalState.active_buffs] in Hr. exact Hr.
Qed.

Import LedgerEngine.

(** X14.  [load_events] on the dict that [_auto_save] dumps raises nothing
    and restores the events, the event id counter and the active buffs of
    the saved engine; the mode, the schema, the formulas and the rules of
    the loading engine stay as they are. *)
Theorem load_events_reads_back_what_was_saved (eng0 eng : LedgerEngine.t) :
  let '(eng', exc) := load_events eng0 (Some (saved_data eng)) in
  exc = None
  /\ events eng' = events eng
  /\ _event_id_counter eng' = _event_id_counter eng
  /\ TemporalState.active_buffs (temporal_state eng')
     = TemporalState.active_buffs (temporal_state eng)
  /\ strict_mode eng' = strict_mode eng0
  /\ unit_registry eng' = unit_registry eng0
  /\ formula_engine eng' = formula_engine eng0
  /\ rule_engine eng' = rule_engine eng0.
Proof.
  unfold load_events, saved_data. cbn [sf_events sf_last_event_id sf_active_buffs].
  unfold TemporalState.from_dict.
  pose proof (buff_restore (TemporalState.active_buffs (temporal_state eng))
                {| TemporalState.active_buffs := [];
                   TemporalState._buff_id_counter :=
                     TemporalState._buff_id_counter (temporal_state eng0) |}) as Hr.
  unfold TemporalState.to_dict in *. cbn [TemporalState.active_buffs] in Hr.
  rewrite Hr. cbn. done.
Qed.

End buff_saving.

(** ** Editing the log *)

Section log_invariant.
Context `{Externals}.
Import LedgerEngine.

Lemma reduce_length eng evs : List.length (red_events (reduce eng evs)) = List.length evs.
Proof. symmetry. eapply Forall2_length, reduce_frame. Qed.

Lemma ids_between_sublist l' l :
  sublist l' l -> forall lo hi, ids_between lo hi l -> ids_between lo hi l'.
Proof.
  induction 1 as [|ev l1 l2 _ IH|ev l1 l2 _ IH]; simpl; intros lo hi Hi; [done| |].
  - destruct Hi as (n & Hn & Hlt & Hr). exists n. eauto.
  - destruct Hi as (n & Hn & Hlt & Hr). apply IH.
    eapply ids_between_widen; [exact Hr|lia|lia].
Qed.

Lemma find_event_spec event_id evs i :
  find_event event_id evs = Some i ->
  exists l1 ev l2,
    evs = (l1 ++ ev :: l2)%list /\ List.length l1 = i
    /\ Py.eqb (get ev "event_id") (VInt event_id) = true
    /\ Forall (fun e => Py.eqb (get e "event_id") (VInt event_id) = false) l1.
Proof.
  revert i. induction evs as [|e r IH]; simpl; intros i Hf; [discriminate|].
  destruct (Py.eqb (get e "event_id") (VInt event_id)) eqn:E.
  - injection Hf as <-. exists [], e, r. repeat split; [done|constructor].
  - destruct (find_event event_id r) as [j|]; [|discriminate].
    injection Hf as <-. destruct (IH _ eq_refl) as (l1 & ev & l2 & -> & <- & He & Hl).
    exists (e :: l1), ev, l2. repeat split; [done|by constructor].
Qed.

Lemma find_event_None event_id evs :
  find_event event_id evs = None <->
  Forall (fun e => Py.eqb (get e "event_id") (VInt event_id) = false) evs.
Proof.
  induction evs as [|e r IH]; simpl; [split; [constructor|done]|].
  destruct (Py.eqb (get e "event_id") (VInt event_id)) eqn:E.
  - split; [discriminate|]. intros Hf. apply Forall_cons in Hf as [Hf _]. congruence.
  - destruct (find_event event_id r) as [j|]; simpl.
    + split; [discriminate|]. intros Hf. apply Forall_cons in Hf as [_ Hf].
      apply IH in Hf. discriminate.
    + split; [|done]. intros _. constructor; [done|]. by apply IH.
Qed.

Lemma delete_middle {A} (l1 : list A) x l2 :
  delete (List.length l1) (l1 ++ x :: l2)%list = (l1 ++ l2)%list.
Proof. induction l1 as [|a r IH]; simpl; [done|]. by rewrite IH. Qed.

Lemma put_back_frame l1 ev l2 red :
  Forall2 same_payload (l1 ++ l2)%list red ->
  Forall2 same_payload (l1 ++ ev :: l2)%list
    (put_back (l1 ++ ev :: l2)%list (List.length l1) red).
Proof.
  intros Hf. apply Forall2_app_inv_l in Hf as (r1 & r2 & H1 & H2 & ->).
  pose proof (Forall2_length _ _ _ H1) as Hlen. unfold put_back.
  rewrite drop_app_length, Hlen, take_app_length, drop_app_length.
  apply Forall2_app; [done|]. simpl. rewrite ?take_0.
  constructor; [apply same_payload_refl|done].
Qed.

Lemma remaining_spec event_ids evs kept :
  remaining event_ids evs = Ok kept ->
  kept = List.filter (fun e => negb (to_delete event_ids e)) evs.
Proof.
  revert kept. induction evs as [|e r IH]; simpl; intros kept Hr.
  - by injection Hr as <-.
  - destruct (negb (Py.hashable _)); [discriminate|].
    destruct (remaining event_ids r) as [l|]; [|discriminate].
    injection Hr as <-. rewrite (IH _ eq_refl). by destruct (to_delete event_ids e).
Qed.

Lemma put_back_all_frame event_ids evs : forall red,
  Forall2 same_payload (List.filter (fun e => negb (to_delete event_ids e)) evs) red ->
  Forall2 same_payload evs (put_back_all event_ids evs red).
Proof.
  induction evs as [|e r IH]; simpl; intros red Hf; [constructor|].
  destruct (to_delete event_ids e); simpl in Hf.
  - constructor; [apply same_payload_refl|by apply IH].
  - inversion Hf as [|? a ? red' Ha Hf']; subst. constructor; [done|by apply IH].
Qed.

Lemma filter_sublist {A} (p : A -> bool) (l : list A) : sublist (List.filter p l) l.
Proof.
  induction l as [|a r IH]; simpl; [constructor|].
  destruct (p a); by constructor.
Qed.

(** What [delete_event] does to the log and the counter. *)
Lemma delete_event_shape eng event_id eng' ok msg :
  delete_event eng event_id = (eng', (ok, msg)) ->
  _event_id_counter eng' = _event_id_counter eng
  /\ strict_mode eng' = strict_mode eng
  /\ if ok then
       exists l1 ev l2,
         events eng = (l1 ++ ev :: l2)%list
         /\ Py.eqb (get ev "event_id") (VInt event_id) = true
         /\ Forall (fun e => Py.eqb (get e "event_id") (VInt event_id) = false) l1
         /\ Forall2 same_payload (l1 ++ l2)%list (events eng')
     else Forall2 same_payload (events eng) (events eng').
Proof.
  unfold delete_event.
  destruct (find_event event_id (events eng)) as [i|] eqn:Hfind.
  - destruct (find_event_spec _ _ _ Hfind) as (l1 & ev & l2 & Hevs & <- & Hev & Hl1).
    rewrite Hevs, delete_middle.
    pose proof (reduce_frame eng (l1 ++ l2)) as Hf.
    destruct (red_state _) as [st|e].
    + destruct (delete_event_check _ st).
      * intros Hd. injection Hd as <- <- <-. cbn. repeat split. by apply put_back_frame.
      * intros Hd. injection Hd as <- <- <-. cbn. repeat split.
        by exists l1, ev, l2.
    + intros Hd. injection Hd as <- <- <-. cbn. repeat split. by apply put_back_frame.
  - intros Hd. injection Hd as <- <- <-. repeat split.
    clear. induction (events eng); constructor; auto using same_payload_refl.
Qed.

Lemma delete_events_shape eng event_ids eng' ok logs :
  delete_events eng event_ids = (eng', Ok (ok, logs)) ->
  _event_id_counter eng' = _event_id_counter eng
  /\ if ok then
       Forall2 same_payload
         (List.filter (fun e => negb (to_delete event_ids e)) (events eng)) (events eng')
     else Forall2 same_payload (events eng) (events eng').
Proof.
  unfold delete_events.
  destruct (remaining event_ids (events eng)) as [kept|] eqn:Hk; [|discriminate].
  apply remaining_spec in Hk. subst kept.
  set (kept := List.filter _ (events eng)).
  destruct (_ =? 0).
  - intros Hd. injection Hd as <- <- <-. cbn. split; [done|].
    clear. induction kept; constructor; auto using same_payload_refl.
  - pose proof (reduce_frame eng kept) as Hf.
    destruct (red_state _) as [st|e].
    + destruct (delete_events_check _ st).
      * intros Hd. injection Hd as <- <- <-. cbn. split; [done|].
        by apply put_back_all_frame.
      * intros Hd. injection Hd as <- <- <-. cbn. done.
    + intros Hd. injection Hd as <- <- <-. cbn. split; [done|].
      by apply put_back_all_frame.
Qed.

Lemma Forall2_same_payload_refl (l : list event) : Forall2 same_payload l l.
Proof. induction l; constructor; auto using same_payload_refl. Qed.

Lemma log_ok_delete_event eng event_id :
  log_ok eng -> log_ok (fst (delete_event eng event_id)).
Proof.
  intros [lo Hlo].
  destruct (delete_event eng event_id) as [eng' [ok msg]] eqn:Hd.
  destruct (delete_event_shape _ _ _ _ _ Hd) as (Hc & _ & Hs). cbn.
  exists lo. rewrite Hc. destruct ok.
  - destruct Hs as (l1 & ev & l2 & Hevs & _ & _ & Hf).
    eapply ids_between_frame; [exact Hf|].
    eapply ids_between_sublist; [|exact Hlo]. rewrite Hevs.
    apply sublist_app; [done|]. by constructor.
  - by eapply ids_between_frame.
Qed.

Lemma log_ok_delete_events eng event_ids :
  log_ok eng -> log_ok (fst (delete_events eng event_ids)).
Proof.
  intros [lo Hlo].
  destruct (delete_events eng event_ids) as [eng' [[ok logs]|e]] eqn:Hd.
  - destruct (delete_events_shape _ _ _ _ _ Hd) as (Hc & Hs). cbn.
    exists lo. rewrite Hc. destruct ok.
    + eapply ids_between_frame; [exact Hs|].
      eapply ids_between_sublist; [|exact Hlo]. apply filter_sublist.
    + by eapply ids_between_frame.
  - unfold delete_events in Hd.
    destruct (remaining _ _); [|injection Hd as <- _; by exists lo].
    destruct (_ =? 0); [discriminate|].
    destruct (red_state _) as [st|]; [|discriminate].
    destruct (delete_events_check _ _); discriminate.
Qed.

Lemma ledger_history_log_ok eng : ledger_history eng -> log_ok eng.
Proof.
  induction 1 as [schema strict|eng ev _ IH|eng txs _ IH|eng i _ IH|eng ids _ IH
                 |eng _ IH|eng re _ IH|eng fe _ IH].
  - exists 0. cbn. lia.
  - by apply log_ok_add_event.
  - by apply log_ok_process_batch.
  - by apply log_ok_delete_event.
  - by apply log_ok_delete_events.
  - destruct IH as [lo Hlo]. exists lo. cbn.
    eapply ids_between_frame; [apply reduce_frame|done].
  - exact IH.
  - exact IH.
Qed.

Lemma ids_between_ids lo hi evs :
  ids_between lo hi evs ->
  exists ids, List.map id_of evs = List.map Some ids
              /\ StronglySorted Z.lt ids /\ Forall (fun n => lo < n <= hi) ids.
Proof.
  revert lo. induction evs as [|ev r IH]; simpl; intros lo Hi.
  - exists []. repeat split; constructor.
  - destruct Hi as (n & Hn & Hlt & Hr). destruct (IH _ Hr) as (ids & Hm & Hs & Hb).
    pose proof (ids_between_le _ _ _ Hr) as Hle.
    exists (n :: ids). repeat split.
    + simpl. rewrite <- Hm. unfold id_of at 1. by rewrite Hn.
    + constructor; [done|]. eapply Forall_impl; [exact Hb|]. simpl. lia.
    + constructor; [lia|]. eapply Forall_impl; [exact Hb|]. simpl. lia.
Qed.

(** X7.  After any sequence of [add_event], [process_batch],
    [delete_event], [delete_events] and [get_state] on a new engine,
    whatever rules and formulas are registered in between, every event of
    the log has an int id, the ids increase strictly along the log (so no
    two events share one), and none exceeds the counter. *)
Theorem event_ids_increase_along_the_log eng :
  ledger_history eng ->
  exists ids,
    List.map id_of (events eng) = List.map Some ids
    /\ StronglySorted Z.lt ids
    /\ Forall (fun n => n <= _event_id_counter eng) ids.
Proof.
  intros Hh. destruct (ledger_history_log_ok eng Hh) as [lo Hlo].
  destruct (ids_between_ids _ _ _ Hlo) as (ids & Hm & Hs & Hb).
  exists ids. repeat split; [done|done|].
  eapply Forall_impl; [exact Hb|]. simpl. lia.
Qed.

End log_invariant.

Section single_edits.
Context `{Externals}.
Import LedgerEngine.


Lemma id_of_eqb ev n event_id :
  id_of ev = Some n -> Py.eqb (get ev "event_id") (VInt event_id) = (n =? event_id).
Proof.
  unfold id_of, get. destruct (ev !! "event_id") as [[]|]; try discriminate.
  intros Hn. by injection Hn as ->.
Qed.

Lemma id_of_frame ev ev' : same_payload ev ev' -> id_of ev' = id_of ev.
Proof.
  intros Hs. unfold id_of. rewrite Hs; [done|].
  unfold replay_keys. simpl. intros Hin. repeat destruct Hin as [Hin|Hin]; done.
Qed.

Lemma map_id_of_frame l l' :
  Forall2 same_payload l l' -> List.map id_of l' = List.map id_of l.
Proof.
  induction 1 as [|ev ev' l l' Hs _ IH]; simpl; [done|].
  by rewrite IH, (id_of_frame _ _ Hs).
Qed.

Lemma sorted_ids_unknown ids evs event_id :
  List.map id_of evs = List.map Some ids ->
  Forall (fun n => n <> event_id) ids ->
  find_event event_id evs = None.
Proof.
  intros Hm Hne. apply find_event_None.
  revert ids Hm Hne. induction evs as [|e r IH]; intros [|n ids] Hm Hne;
    try discriminate; [constructor|].
  simpl in Hm. injection Hm as Hn Hm. apply Forall_cons in Hne as [Hne Hrest].
  constructor; [|by eapply IH].
  rewrite (id_of_eqb _ _ _ Hn). by apply Z.eqb_neq.
Qed.

(** X8.  On an engine reached by adding and deleting events, [delete_event]
    and [modify_event] of an id above the counter return
    [(False, "Event #<id> not found")] and leave the engine as it is. *)
Theorem an_id_above_the_counter_is_not_found eng saved event_id new_data :
  ledger_history eng ->
  _event_id_counter eng < event_id ->
  delete_event eng event_id = (eng, (false, not_found event_id))
  /\ modify_event eng saved event_id new_data = (eng, Ok (false, not_found event_id)).
Proof.
  intros Hh Hlt.
  destruct (ledger_history_log_ok eng Hh) as [lo Hlo].
  destruct (ids_between_ids _ _ _ Hlo) as (ids & Hm & _ & Hb).
  assert (find_event event_id (events eng) = None) as Hnone.
  { eapply sorted_ids_unknown; [exact Hm|].
    eapply Forall_impl; [exact Hb|]. simpl. lia. }
  unfold delete_event, modify_event. by rewrite Hnone.
Qed.

(** X9.  [delete_event] never changes the counter.  When it succeeds, the
    log is the old one without the first event whose id equals the given
    one; when it fails, the log keeps every event in place.  In both cases
    the events kept may differ from what they were only in the keys that a
    replay writes. *)
Theorem delete_event_removes_one_event_or_none eng event_id eng' ok msg :
  delete_event eng event_id = (eng', (ok, msg)) ->
  _event_id_counter eng' = _event_id_counter eng
  /\ if ok then
       exists l1 ev l2,
         events eng = (l1 ++ ev :: l2)%list
         /\ Py.eqb (get ev "event_id") (VInt event_id) = true
         /\ Forall (fun e => Py.eqb (get e "event_id") (VInt event_id) = false) l1
         /\ Forall2 same_payload (l1 ++ l2)%list (events eng')
     else Forall2 same_payload (events eng) (events eng').
Proof.
  intros Hd. destruct (delete_event_shape _ _ _ _ _ Hd) as (Hc & _ & Hs). done.
Qed.

Lemma sorted_lt_not_in n ids : Forall (Z.lt n) ids -> Forall (fun m => m <> n) ids.
Proof. intros Hf. eapply Forall_impl; [exact Hf|]. simpl. lia. Qed.

Lemma sorted_middle_absent i1 n i2 :
  StronglySorted Z.lt (i1 ++ n :: i2) -> Forall (fun m => m <> n) (i1 ++ i2).
Proof.
  induction i1 as [|a r IH]; simpl; intros Hs.
  - apply StronglySorted_inv in Hs as [_ Hlt]. by apply sorted_lt_not_in.
  - apply StronglySorted_inv in Hs as [Hs Hlt]. constructor; [|by apply IH].
    apply Forall_app in Hlt as [_ Hlt]. apply Forall_cons in Hlt as [Hlt _]. lia.
Qed.

(** X10.  On an engine reached by adding and deleting events, after a
    successful [delete_event] no event of the log has the deleted id, and
    a later [add_event] does not bring it back, whatever its outcome. *)
Theorem a_deleted_id_is_gone_for_good eng event_id eng' msg :
  ledger_history eng ->
  delete_event eng event_id = (eng', (true, msg)) ->
  Forall (fun e => id_of e <> Some event_id) (events eng')
  /\ forall ev eng'' r,
       add_event eng' ev = (eng'', r) ->
       Forall (fun e => id_of e <> Some event_id) (events eng'').
Proof.
  intros Hh Hd.
  assert (ledger_history eng') as Hh'.
  { replace eng' with (fst (delete_event eng event_id)) by (by rewrite Hd).
    by constructor. }
  destruct (ledger_history_log_ok eng Hh) as [lo Hlo].
  destruct (ids_between_ids _ _ _ Hlo) as (ids & Hm & Hs & Hb).
  destruct (delete_event_shape _ _ _ _ _ Hd) as (Hc & _ & l1 & ev & l2 & Hevs & Hev & Hl1 & Hf).
  assert (Forall (fun e => id_of e <> Some event_id) (events eng')) as Hgone.
  { pose proof (map_id_of_frame _ _ Hf) as Hm'.
    rewrite Hevs in Hm. rewrite map_app in Hm. simpl in Hm.
    symmetry in Hm. apply map_eq_app in Hm as (i1 & i2' & -> & Hm1 & Hm2).
    destruct i2' as [|n i2]; [discriminate|]. simpl in Hm2. injection Hm2 as Hn Hm2.
    symmetry in Hn. rewrite (id_of_eqb _ _ _ Hn) in Hev. apply Z.eqb_eq in Hev. subst n.
    pose proof (sorted_middle_absent _ _ _ Hs) as Hne.
    assert (List.map id_of (events eng') = List.map Some (i1 ++ i2)) as Hids.
    { rewrite Hm', !map_app. by rewrite <- Hm1, <- Hm2. }
    clear - Hids Hne. revert Hids Hne. generalize (i1 ++ i2)%list. intros ids.
    revert ids. induction (events eng') as [|e r IH]; intros [|n ids] Hids Hne;
      try discriminate; [constructor|].
    simpl in Hids. injection Hids as Hn Hids. apply Forall_cons in Hne as [Hne Hrest].
    constructor; [|by eapply IH]. rewrite Hn. congruence. }
  split; [done|].
  intros ev0 eng'' r Ha.
  unfold add_event in Ha.
  assert (event_id <= _event_id_counter eng') as Hle.
  { rewrite Hc. rewrite Hevs in Hlo. clear - Hlo Hev.
    revert lo Hlo. induction l1 as [|e l IH]; simpl; intros lo Hlo.
    - destruct Hlo as (n & Hn & Hlt & Hr). apply ids_between_le in Hr.
      unfold get in Hev. rewrite Hn in Hev. simpl in Hev. apply Z.eqb_eq in Hev. lia.
    - destruct Hlo as (n & Hn & Hlt & Hr). by eapply IH. }
  assert (forall red, Forall2 same_payload (events eng') red ->
                      Forall (fun e => id_of e <> Some event_id) red) as Hkeep.
  { intros red Hred. clear - Hred Hgone.
    induction Hred as [|a b l l' Hs _ IH]; [constructor|].
    apply Forall_cons in Hgone as [Ha Hl]. constructor; [|by apply IH].
    by rewrite (id_of_frame _ _ Hs). }
  destruct (RuleEngine.apply_rules _ _) as [ev1|] eqn:Hrules.
  - pose proof (reduce_frame eng' (events eng' ++ [ev1])) as Hf'.
    destruct (take_frame _ _ _ Hf') as [Hold Hnew].
    assert (Forall (fun e => id_of e <> Some event_id)
                   (red_events (reduce eng' (events eng' ++ [ev1])))) as Hall.
    { rewrite <- (take_drop (List.length (events eng'))).
      apply Forall_app. split; [by apply Hkeep|].
      inversion Hnew as [|? b ? rest Hsame Hrest Heq1 Heq2]; subst.
      inversion Hrest; subst. constructor; [|constructor].
      rewrite (id_of_frame _ _ Hsame). unfold id_of.
      rewrite (apply_rules_event_id _ _ _ Hrules), lookup_insert_eq.
      intros Heq. injection Heq as Heq. lia. }
    destruct (red_state _) as [st|].
    + destruct (add_event_check _ st); injection Ha as <- _; cbn; [by apply Hkeep|done].
    + injection Ha as <- _. cbn. by apply Hkeep.
  - injection Ha as <- _. done.
Qed.

End single_edits.

Section batch_edits.
Context `{Externals}.
Import LedgerEngine.

Lemma with_log_same eng :
  with_log eng (events eng) (_event_id_counter eng) (temporal_state eng) = eng.
Proof. by destruct eng. Qed.

Lemma filter_all {A} (p : A -> bool) (l : list A) :
  Forall (fun x => p x = true) l -> List.filter p l = l.
Proof.
  induction 1 as [|a r Ha _ IH]; simpl; [done|]. by rewrite Ha, IH.
Qed.

Lemma filter_length_lt {A} (p : A -> bool) (l : list A) :
  (List.length (List.filter p l) <= List.length l)%nat.
Proof. induction l as [|a r IH]; simpl; [done|]. destruct (p a); simpl; lia. Qed.

Lemma remaining_total event_ids evs :
  Forall (fun e => exists n, id_of e = Some n) evs ->
  remaining event_ids evs
  = Ok (List.filter (fun e => negb (to_delete event_ids e)) evs).
Proof.
  induction 1 as [|e r [n Hn] _ IH]; simpl; [done|].
  assert (Py.hashable (get e "event_id") = true) as ->.
  { unfold id_of in Hn. unfold get.
    destruct (e !! "event_id") as [[]|]; try discriminate. done. }
  simpl. rewrite IH. by destruct (to_delete event_ids e).
Qed.

Lemma history_ids eng :
  ledger_history eng -> Forall (fun e => exists n, id_of e = Some n) (events eng).
Proof.
  intros Hh. destruct (ledger_history_log_ok eng Hh) as [lo Hlo].
  revert lo Hlo. induction (events eng) as [|e r IH]; simpl; intros lo Hlo; [constructor|].
  destruct Hlo as (n & Hn & _ & Hr). constructor; [|by eapply IH].
  exists n. unfold id_of. by rewrite Hn.
Qed.

(** X11.  On an engine reached by adding and deleting events,
    [delete_events] of ids that no event has returns
    [(True, ["No events deleted (IDs not found)"])] and leaves the engine
    as it is. *)
Theorem delete_events_without_a_match_succeeds eng event_ids :
  ledger_history eng ->
  Forall (fun e => to_delete event_ids e = false) (events eng) ->
  delete_events eng event_ids = (eng, Ok (true, ["No events deleted (IDs not found)"])).
Proof.
  intros Hh Hno. unfold delete_events.
  rewrite (remaining_total _ _ (history_ids eng Hh)).
  rewrite filter_all; [|eapply Forall_impl; [exact Hno|]; by intros e ->].
  rewrite Z.sub_diag. simpl. by rewrite with_log_same.
Qed.

(** X12.  On an engine reached by adding and deleting events,
    [delete_events] raises nothing and never changes the counter; when it
    succeeds the log is the old one without the events whose ids are in the
    list, and when it fails the log keeps every event in place (up to the
    keys that a replay writes). *)
Theorem delete_events_removes_all_matches_or_nothing eng event_ids eng' r :
  ledger_history eng ->
  delete_events eng event_ids = (eng', r) ->
  _event_id_counter eng' = _event_id_counter eng
  /\ exists ok logs,
       r = Ok (ok, logs)
       /\ if ok then
            Forall2 same_payload
              (List.filter (fun e => negb (to_delete event_ids e)) (events eng))
              (events eng')
          else Forall2 same_payload (events eng) (events eng').
Proof.
  intros Hh Hd.
  destruct r as [[ok logs]|e].
  - destruct (delete_events_shape _ _ _ _ _ Hd) as [Hc Hs]. split; [done|].
    by exists ok, logs.
  - exfalso. unfold delete_events in Hd.
    rewrite (remaining_total _ _ (history_ids eng Hh)) in Hd.
    destruct (_ =? 0); [discriminate|].
    destruct (red_state _) as [st|]; [|discriminate].
    destruct (delete_events_check _ _); discriminate.
Qed.

Lemma load_events_log eng saved :
  events (fst (load_events eng saved))
  = match saved with Some data => default [] (sf_events data) | None => [] end
  /\ _event_id_counter (fst (load_events eng saved))
     = match saved with Some data => default 0 (sf_last_event_id data) | None => 0 end.
Proof.
  unfold load_events. destruct saved as [data|]; [|done].
  destruct (sf_active_buffs data) as [active|]; [|done].
  by destruct (TemporalState.from_dict _ active).
Qed.

Lemma reload_after_log eng saved e eng' r :
  reload_after eng saved e = (eng', r) ->
  ((exists msg, r = Ok (false, msg)) \/ (exists x, r = Err x))
  /\ events eng' = events (fst (load_events eng saved))
  /\ _event_id_counter eng' = _event_id_counter (fst (load_events eng saved)).
Proof.
  unfold reload_after. destruct (load_events eng saved) as [eng1 [x|]];
    intros Hr; injection Hr as <- <-; (split; [|done]); [right|left]; by eexists.
Qed.

Lemma reload_log eng saved msg eng' r :
  reload eng saved msg = (eng', r) ->
  ((exists msg', r = Ok (false, msg')) \/ (exists x, r = Err x))
  /\ events eng' = events (fst (load_events eng saved))
  /\ _event_id_counter eng' = _event_id_counter (fst (load_events eng saved)).
Proof.
  unfold reload. pose proof (load_events_log eng saved) as [H1 H2].
  destruct (load_events eng saved) as [eng1 [x|]] eqn:Hl; cbn [fst] in *.
  - intros Hr. destruct (reload_after_log _ _ _ _ _ Hr) as (Hres & He & Hc).
    split; [done|]. rewrite He, Hc, H1, H2. apply load_events_log.
  - intros Hr. injection Hr as <- <-. split; [left; by eexists|done].
Qed.

(** X13.  [modify_event] ends in one of three ways.  The id is not found:
    the engine is unchanged.  It succeeds: the counter is unchanged and the
    log is the old one with the new data written over the first event of
    that id (up to the keys that a replay writes).  Otherwise it fails or
    raises, and the log and the counter are then whatever [load_events]
    reads from the save file, not what they were before the call: the
    events and last event id of the file, and the empty log with counter 0
    when the engine has no file. *)
Theorem modify_event_updates_in_place_or_reloads_the_file
  eng saved event_id new_data eng' r :
  modify_event eng saved event_id new_data = (eng', r) ->
  (r = Ok (false, not_found event_id) /\ eng' = eng)
  \/ (r = Ok (true, "事件已修改，状态已重算")
      /\ _event_id_counter eng' = _event_id_counter eng
      /\ exists i, find_event event_id (events eng) = Some i
           /\ Forall2 same_payload
                (alter (fun evt => new_data ∪ evt) i (events eng)) (events eng'))
  \/ (((exists msg, r = Ok (false, msg)) \/ (exists x, r = Err x))
      /\ events eng'
         = match saved with Some data => default [] (sf_events data) | None => [] end
      /\ _event_id_counter eng'
         = match saved with Some data => default 0 (sf_last_event_id data) | None => 0 end).
Proof.
  unfold modify_event.
  destruct (find_event event_id (events eng)) as [i|] eqn:Hfind.
  - pose proof (reduce_frame eng (alter (fun evt => new_data ∪ evt) i (events eng))) as Hf.
    destruct (red_state _) as [st|e].
    + destruct (modify_event_check _ st) as [msg|].
      * intros Hm. right. right.
        destruct (reload_log _ _ _ _ _ Hm) as (Hres & -> & ->). split; [done|].
        apply load_events_log.
      * intros Hm. injection Hm as <- <-. right. left. cbn. repeat split. by exists i.
    + intros Hm. right. right.
      destruct (reload_after_log _ _ _ _ _ Hm) as (Hres & -> & ->). split; [done|].
      apply load_events_log.
  - intros Hm. injection Hm as <- <-. by left.
Qed.

End batch_edits.

(** ** Formulas *)

Section formula_facts.
Context `{Externals}.
Import FormulaEngine.

Lemma od_get_del_ne {V} (d : list (string * V)) k j :
  k <> j -> od_get String.eqb (od_del String.eqb d k) j = od_get String.eqb d j.
Proof.
  intros Hne. induction d as [|[i v] r IH]; simpl; [done|].
  destruct (String.eqb i k) eqn:Ek.
  - apply String.eqb_eq in Ek. subst i.
    apply String.eqb_neq in Hne. by rewrite Hne.
  - simpl. by rewrite IH.
Qed.

Lemma od_del_set_gone {V} (d : list (string * V)) k v :
  NoDup (List.map fst d) ->
  od_get String.eqb (od_del String.eqb (od_set String.eqb d k v) k) k = None.
Proof.
  induction d as [|[i w] r IH]; simpl; intros Hn.
  - by rewrite String.eqb_refl.
  - apply NoDup_cons in Hn as [Hi Hr].
    destruct (String.eqb i k) eqn:Ek; simpl; rewrite Ek.
    + apply String.eqb_eq in Ek. subst i. apply od_get_None.
      by rewrite <- list_elem_of_In.
    + simpl. rewrite Ek. by apply IH.
Qed.

(** X26.  [register_formula], accepted or rejected, leaves the formula, the
    dirty flag and the dependencies of every other field as they were. *)
Theorem register_formula_touches_only_its_field fe field_name expression other :
  other <> field_name ->
  let fe' := fst (register_formula fe field_name expression) in
  od_get String.eqb (formulas fe') other = od_get String.eqb (formulas fe) other
  /\ od_get String.eqb (dirty_flags fe') other = od_get String.eqb (dirty_flags fe) other
  /\ od_get String.eqb (dependencies fe') other
     = od_get String.eqb (dependencies fe) other.
Proof.
  intros Hne. unfold register_formula.
  assert (field_name <> other) as Hne' by congruence.
  destruct (_detect_cycles _ _ _ _ _); cbn;
    rewrite ?od_get_del_ne, !od_get_set_ne by done; done.
Qed.

(** X27.  After a registration that [register_formula] rejects, the field
    is registered nowhere, even if it had a formula before the call: the
    rollback deletes the entries of the field and does not restore the
    earlier ones. *)
Theorem a_rejected_registration_unregisters_the_field fe field_name expression fe' e :
  tables_ok fe ->
  register_formula fe field_name expression = (fe', Some e) ->
  od_get String.eqb (formulas fe') field_name = None
  /\ od_get String.eqb (dirty_flags fe') field_name = None
  /\ od_get String.eqb (dependencies fe') field_name = None.
Proof.
  intros (H1 & H2 & H3). unfold register_formula.
  destruct (_detect_cycles _ _ _ _ _); [|discriminate].
  intros Hr. injection Hr as <- _. cbn.
  by rewrite !od_del_set_gone.
Qed.

Lemma first_error_In (l : list (option exn)) e :
  In (Some e) l -> exists e', first_error l = Some e'.
Proof.
  induction l as [|[x|] r IH]; simpl; [done|by eexists|].
  intros [Hx|Hin]; [discriminate|by apply IH].
Qed.

Lemma detect_self n deps f ds :
  od_get String.eqb deps f = Some ds -> In f ds ->
  exists e, _detect_cycles (S (S n)) deps f [] [] = Some e.
Proof.
  intros Hget Hin. cbn [_detect_cycles existsb]. rewrite Hget.
  eapply first_error_In. apply in_map_iff. exists f. split; [|done].
  cbn [_detect_cycles existsb]. by rewrite String.eqb_refl.
Qed.

Lemma first_error_Some (l : list (option exn)) e :
  first_error l = Some e -> In (Some e) l.
Proof.
  induction l as [|[x|] r IH]; simpl; [done| |].
  - intros He. injection He as ->. by left.
  - intros He. right. by apply IH.
Qed.

Lemma detect_cycles_error fuel deps : forall f visited path e,
  _detect_cycles fuel deps f visited path = Some e ->
  exists cycle, e = Raise ValueError ("Circular dependency detected: " ++ cycle).
Proof.
  induction fuel as [|k IH]; intros f visited path e; cbn [_detect_cycles]; [done|].
  destruct (existsb _ visited).
  - intros He. injection He as <-. by eexists.
  - destruct (od_get String.eqb deps f) as [ds|]; [|done].
    intros He. apply first_error_Some in He. apply in_map_iff in He as (d & Hd & _).
    by eapply IH.
Qed.

(** X28.  A formula whose expression names its own field is rejected with
    the ValueError "Circular dependency detected: ...", whatever else is
    registered. *)
Theorem a_formula_naming_itself_is_rejected fe field_name expression :
  In field_name (_extract_dependencies expression) ->
  exists cycle,
    snd (register_formula fe field_name expression)
    = Some (Raise ValueError ("Circular dependency detected: " ++ cycle)).
Proof.
  intros Hin. unfold register_formula. cbn [dependencies].
  destruct (detect_self
              (List.length (od_set String.eqb (dependencies fe) field_name
                              (_extract_dependencies expression)))
              _ _ _ (od_get_set_eq (dependencies fe) field_name _) Hin) as [e He].
  rewrite He. destruct (detect_cycles_error _ _ _ _ _ _ He) as [cycle ->].
  by exists cycle.
Qed.

Lemma recalculate_flags fe field_name context fe' d :
  recalculate fe field_name context = (fe', Ok d) ->
  formulas fe' = formulas fe
  /\ od_get String.eqb (dirty_flags fe') field_name = Some false
  /\ forall k, od_get String.eqb (dirty_flags fe) k = Some false ->
               od_get String.eqb (dirty_flags fe') k = Some false.
Proof.
  unfold recalculate.
  destruct (od_get String.eqb (formulas fe) field_name); [|intros; discriminate].
  destruct (decimal_context [] context); [|intros; discriminate].
  destruct (od_get String.eqb (dependencies fe) field_name); [|intros; discriminate].
  destruct (negb _); [intros; discriminate|].
  destruct (simple_eval _ _); [|intros; discriminate].
  intros Hr. injection Hr as <- _. cbn. repeat split; [apply od_get_set_eq|].
  intros k Hk. destruct (String.eqb_spec field_name k) as [->|Hne].
  - apply od_get_set_eq.
  - by rewrite od_get_set_ne.
Qed.

Lemma recalculate_dirty_flags names : forall fe context results fe' results',
  recalculate_dirty fe names context results = (fe', Ok results') ->
  formulas fe' = formulas fe
  /\ (forall k, In k names -> od_get String.eqb (dirty_flags fe') k = Some false)
  /\ (forall k, od_get String.eqb (dirty_flags fe) k = Some false ->
                od_get String.eqb (dirty_flags fe') k = Some false).
Proof.
  induction names as [|n r IH]; simpl; intros fe context results fe' results' Hr.
  - injection Hr as <- _. done.
  - destruct (default true (od_get String.eqb (dirty_flags fe) n)) eqn:Hflag.
    + destruct (recalculate fe n context) as [fe1 [d|]] eqn:Hrec; [|discriminate].
      destruct (recalculate_flags _ _ _ _ _ Hrec) as (Hf1 & Hn1 & Hk1).
      destruct (IH _ _ _ _ _ Hr) as (Hf2 & Hn2 & Hk2).
      repeat split; [congruence| |auto].
      intros k [<-|Hin]; auto.
    + destruct (IH _ _ _ _ _ Hr) as (Hf2 & Hn2 & Hk2).
      repeat split; [done| |done].
      intros k [<-|Hin]; [|auto]. apply Hk2.
      destruct (od_get String.eqb (dirty_flags fe) n) as [[]|]; done.
Qed.

Lemma recalculate_dirty_clean names fe context results :
  (forall k, In k names -> od_get String.eqb (dirty_flags fe) k = Some false) ->
  recalculate_dirty fe names context results = (fe, Ok results).
Proof.
  induction names as [|n r IH]; simpl; intros Hclean; [done|].
  rewrite (Hclean n) by (by left). simpl. apply IH. auto.
Qed.

(** X29.  After a [recalculate_all_dirty] that raised nothing, a second
    call with the same context recalculates nothing: it returns the empty
    dict and leaves the engine as it is. *)
Theorem recalculate_all_dirty_leaves_nothing_dirty fe context fe' results :
  recalculate_all_dirty fe context = (fe', Ok results) ->
  recalculate_all_dirty fe' context = (fe', Ok []).
Proof.
  unfold recalculate_all_dirty. intros Hr.
  destruct (recalculate_dirty_flags _ _ _ _ _ _ Hr) as (Hf & Hn & _).
  rewrite Hf. by apply recalculate_dirty_clean.
Qed.

Lemma mark_fold base (deps : list (string * list string)) : forall flags f,
  NoDup (List.map fst deps) ->
  od_get String.eqb
    (fold_left
       (fun flags '(formula_name, deps) =>
          if existsb (fun d => Py.eqb base (VStr d)) deps
          then od_set String.eqb flags formula_name true
          else flags) deps flags) f
  = match od_get String.eqb deps f with
    | Some ds =>
        if existsb (fun d => Py.eqb base (VStr d)) ds then Some true
        else od_get String.eqb flags f
    | None => od_get String.eqb flags f
    end.
Proof.
  induction deps as [|[n ds] r IH]; simpl; intros flags f Hn; [done|].
  apply NoDup_cons in Hn as [Hfresh Hr]. rewrite (IH _ _ Hr).
  destruct (String.eqb n f) eqn:E.
  - apply String.eqb_eq in E. subst n.
    rewrite (proj2 (od_get_None r f)) by (by rewrite <- list_elem_of_In).
    destruct (existsb _ ds); [apply od_get_set_eq|done].
  - apply String.eqb_neq in E.
    destruct (existsb _ ds); [|done]. by rewrite od_get_set_ne.
Qed.

(** X30.  [mark_dirty] sets the flag of exactly the formulas whose
    dependencies hold the field itself; the flag of every other field,
    also of a formula that depends on the field only through another
    formula, is what it was. *)
Theorem mark_dirty_flags_the_direct_dependents fe base_field formula_name :
  tables_ok fe ->
  od_get String.eqb (dirty_flags (mark_dirty fe base_field)) formula_name
  = match od_get String.eqb (dependencies fe) formula_name with
    | Some deps =>
        if existsb (fun d => Py.eqb base_field (VStr d)) deps then Some true
        else od_get String.eqb (dirty_flags fe) formula_name
    | None => od_get String.eqb (dirty_flags fe) formula_name
    end.
Proof. intros (_ & _ & Hd). unfold mark_dirty. cbn. by apply mark_fold. Qed.

End formula_facts.

(** * The properties at concrete inputs *)

Section examples.
Import LedgerEngine Examples.
#[local] Existing Instance library.

(** ** C1: what a second [reduce] returns *)

(** C1 does not hold of the code: on one engine, two calls of [reduce] in
    a row on the same one-event list, a permanent buff of +10 Attack,
    return different states.  The temporal state keeps the buff that the
    first call added, so the second call adds it again under a new id, and
    the stat computed from Attack doubles. *)
Theorem reduce_twice_returns_two_states :
  let first := reduce with_might [aura] in
  let second := reduce (after with_might first) (red_events first) in
  red_events first = [aura]
  /\ (exists st, red_state first = Ok st
                 /\ buffs st = ["buff_001"]
                 /\ computed_stats st = [("Might", PyDecimal.of_Z 10)])
  /\ (exists st, red_state second = Ok st
                 /\ buffs st = ["buff_002"]
                 /\ computed_stats st = [("Might", PyDecimal.of_Z 20)])
  /\ red_state first <> red_state second.
Proof.
  cbv zeta. split; [by vm_compute|].
  split; [eexists; split; [by vm_compute|by vm_compute]|].
  split; [eexists; split; [by vm_compute|by vm_compute]|].
  vm_compute. discriminate.
Qed.

(** ** C3: rules and [process_batch] *)

(** C3 does not hold of the code: with the rule "gold halved" registered,
    [add_event] commits a gain of 100 as 50.0, while [process_batch]
    commits the same gain untouched.  It never calls the rule engine: what
    it returns and what it commits are the same under any rules. *)
Theorem process_batch_applies_no_rule :
  snd (add_event halving (gold "gain" "100" "CP")) = Ok (true, "Success")
  /\ last_value (fst (add_event halving (gold "gain" "100" "CP"))) = Some (VStr "50.0")
  /\ snd (process_batch halving [gold "gain" "100" "CP"]) = Ok (true, ["GAIN 100 CP"])
  /\ last_value (fst (process_batch halving [gold "gain" "100" "CP"])) = Some (VStr "100")
  /\ (forall e, In e (events (fst (process_batch halving [gold "gain" "100" "CP"]))) ->
                e !! "applied_rules" = None)
  /\ (forall eng re transactions,
        snd (process_batch (with_rules eng re) transactions)
        = snd (process_batch eng transactions)
        /\ events (fst (process_batch (with_rules eng re) transactions))
           = events (fst (process_batch eng transactions))).
Proof.
  split; [by vm_compute|]. split; [by vm_compute|]. split; [by vm_compute|].
  split; [by vm_compute|]. split.
  - intros e He. vm_compute in He. destruct He as [<-|[]]. by vm_compute.
  - intros eng re transactions. unfold process_batch, with_rules, reduce.
    cbn [strict_mode events _event_id_counter unit_registry formula_engine
         temporal_state].
    destruct (screen _ _ _); [done|done|].
    destruct (replay _ _ _ _ _) as [[[evs c] w] [e|]]; [done|].
    destruct (finalize c w) as [fe' [st|]]; cbn; [|done].
    destruct (batch_check _ _); [done|].
    by destruct (success_logs _).
Qed.

(** ** C9: a breakdown with a unit below the base unit *)

(** C9 does not hold of the code: the schema with a unit worth half a CP
    is valid, and the breakdown of 7 is 7 CP and 14 HCP, which is worth 14:
    the base unit takes all that remains and the smaller unit counts it a
    second time. *)
Theorem breakdown_counts_twice_below_base_unit :
  WorldSchemaM.valid half_coins = true
  /\ UnitRegistry.from_base half_coins (PyDecimal.of_Z 7) None
     = Ok (UnitRegistry.Breakdown [("CP", PyDecimal.of_Z 7); ("HCP", PyDecimal.of_Z 14)])
  /\ UnitRegistry.breakdown_total half_coins
       [("CP", PyDecimal.of_Z 7); ("HCP", PyDecimal.of_Z 14)]
     = PyDecimal.mk 140 (-1)
  /\ PyDecimal.eqb (PyDecimal.mk 140 (-1)) (PyDecimal.of_Z 7) = false.
Proof. repeat split; by vm_compute. Qed.

(** In the classic schema 1234 CP are 12 GP, 3 SP and 4 CP. *)
Example breakdown_of_1234 :
  UnitRegistry.from_base WorldSchemaM.classic_fantasy (PyDecimal.of_Z 1234) None
  = Ok (UnitRegistry.Breakdown
          [("GP", PyDecimal.of_Z 12); ("SP", PyDecimal.of_Z 3); ("CP", PyDecimal.of_Z 4)]).
Proof. by vm_compute. Qed.

(** With its aliases, the modern schema has whole rates too. *)
Lemma breakdown_exact_on_modern :
  exists m,
    UnitRegistry.from_base WorldSchemaM.modern (PyDecimal.of_Z 1250) None
    = Ok (UnitRegistry.Breakdown m)
    /\ UnitRegistry.breakdown_total WorldSchemaM.modern m = PyDecimal.of_Z 1250
    /\ od_mem String.eqb m "Cent" = true.
Proof.
  apply (breakdown_exact_for_whole_rates WorldSchemaM.modern 1250).
  - by vm_compute.
  - repeat constructor; by vm_compute.
  - split; [lia|]. by vm_compute.
Defined.

End examples.

Section witnesses.
Import LedgerEngine Examples.
#[local] Existing Instance library.

(** ** C2 *)


(** ** C6 *)

(** C6 as stated fails: after the two calls on a fresh engine, [A] is still
    registered, and the tables are not those of an engine on which neither
    call was made. *)
Lemma first_formula_stays_registered :
  let fe1 := fst (FormulaEngine.register_formula FormulaEngine.empty "A" "B * 2") in
  let fe2 := fst (FormulaEngine.register_formula fe1 "B" "A / 2") in
  od_get String.eqb (FormulaEngine.formulas fe2) "A" = Some "B * 2"
  /\ od_get String.eqb (FormulaEngine.dependencies fe2) "A" = Some ["B"]
  /\ od_get String.eqb (FormulaEngine.formulas fe2) "B" = None
  /\ fe2 <> FormulaEngine.empty.
Proof. repeat split; try (vm_compute; reflexivity). vm_compute. discriminate. Qed.

Lemma cycle_rollback_witness :
  exists fe1,
    FormulaEngine.register_formula FormulaEngine.empty "A" "B * 2" = (fe1, None)
    /\ od_get String.eqb (FormulaEngine.formulas fe1) "A" = Some "B * 2"
    /\ FormulaEngine.register_formula fe1 "B" "A / 2"
       = (fe1, Some (Raise ValueError "Circular dependency detected: B → A → B")).
Proof.
  apply (cycle_rejected_and_second_registration_rolled_back FormulaEngine.empty);
    reflexivity.
Defined.

(** ** C8 *)



(** ** C5 *)


(** A gain of 51 items is a violation of its own. *)
Example fifty_one_items_violate : violation (item "gain" "Potion" "51" "loot").
Proof.
  apply (item_over_cap _ (PyDecimal.of_Z 51)); vm_compute; reflexivity.
Qed.

(** ** C7 *)


(** ** C4 *)



(** The balance after that overdraft, as [get_state] computes it. *)
Example overdraft_balance :
  exists st,
    snd (get_state (fst (add_event funded (gold "lose" "2000" "CP")))) = Ok st
    /\ PyDecimal.to_string (gold_cp st) = "-1900".
Proof. eexists. split; vm_compute; reflexivity. Qed.

(** ** C10 *)




(** The id of the rejected candidate is not handed out again: the next event
    committed is the third candidate and the second event of the log. *)
Example ids_skip_a_rejected_candidate :
  let eng' := fst (add_event (fst (add_event overdrawn bad_marker)) (gold "gain" "1" "GP")) in
  List.map (fun e : event => e !! "event_id") (events eng')
  = [Some (VInt 1); Some (VInt 3)].
Proof. vm_compute. reflexivity. Qed.

(** ** The further properties *)

(** 10 GP are 1000 CP, and 1000 CP are 10 GP. *)
Lemma gold_pieces_round_trip :
  UnitRegistry.to_base WorldSchemaM.classic_fantasy "10" (VStr "GP")
  = Ok (PyDecimal.of_Z 1000)
  /\ UnitRegistry.from_base WorldSchemaM.classic_fantasy (PyDecimal.of_Z 1000) (Some "GP")
     = Ok (UnitRegistry.Single (PyDecimal.of_Z 10)).
Proof.
  apply (whole_amounts_survive_to_base_and_from_base WorldSchemaM.classic_fantasy
           "GP" (PyDecimal.of_Z 100) 10).
  - reflexivity.
  - split; [reflexivity|by vm_compute].
  - discriminate.
  - by vm_compute.
Defined.

(** A debt of 500 CP is displayed as "0 CP". *)
Lemma debt_of_500_is_displayed_as_zero :
  UnitRegistry._format_standard WorldSchemaM.classic_fantasy (PyDecimal.of_Z (-500))
  = Ok "0 CP"
  /\ UnitRegistry._format_time_mixed WorldSchemaM.classic_fantasy (PyDecimal.of_Z (-500))
     = Ok "0 CP".
Proof.
  apply (a_debt_is_displayed_as_zero WorldSchemaM.classic_fantasy (PyDecimal.of_Z (-500))).
  - repeat constructor; by vm_compute.
  - by vm_compute.
  - by vm_compute.
Defined.

(** "Rotten Cor" is taken for the known "Rotten Core". *)
Lemma rotten_core_is_recognised :
  normalize_entity_name (H := spelling) (VStr "Rotten Cor") [VStr "Rotten Core"]
  = Ok (VStr "Rotten Core", false)
  /\ (VStr "Rotten Core" = VStr "Rotten Cor"
      \/ (false = false
          /\ exists raw known,
               VStr "Rotten Cor" = VStr raw /\ VStr "Rotten Core" = VStr known
               /\ In (VStr known) [VStr "Rotten Core"]
               /\ skeleton raw <> skeleton known
               /\ (9 # 10 < ratio (Externals := spelling) (PyStr.lower raw) (PyStr.lower known))%Q)).
Proof.
  split; [reflexivity|].
  apply (normalize_entity_name_merges_only_close_names (H := spelling)
           (VStr "Rotten Cor") [VStr "Rotten Core"] (VStr "Rotten Core") false).
  reflexivity.
Defined.


(** The ids of the log that holds one gain. *)
Lemma ids_of_the_funded_log :
  exists ids,
    List.map id_of (events funded) = List.map Some ids
    /\ StronglySorted Z.lt ids
    /\ Forall (fun n => n <= _event_id_counter funded) ids.
Proof. apply (event_ids_increase_along_the_log funded). apply lh_add, lh_new. Defined.

(** The log with one event, of id 1, has no event 7. *)
Lemma event_7_is_not_found :
  delete_event funded 7 = (funded, (false, not_found 7))
  /\ modify_event funded None 7 ∅ = (funded, Ok (false, not_found 7)).
Proof.
  apply (an_id_above_the_counter_is_not_found funded None 7 ∅).
  - apply lh_add, lh_new.
  - by vm_compute.
Defined.

(** Deleting the only event of a log. *)
Lemma deleting_the_only_event :
  _event_id_counter (fst (delete_event funded 1)) = _event_id_counter funded
  /\ exists l1 ev l2,
       events funded = (l1 ++ ev :: l2)%list
       /\ Py.eqb (get ev "event_id") (VInt 1) = true
       /\ Forall (fun e => Py.eqb (get e "event_id") (VInt 1) = false) l1
       /\ Forall2 same_payload (l1 ++ l2)%list (events (fst (delete_event funded 1))).
Proof.
  apply (delete_event_removes_one_event_or_none funded 1 (fst (delete_event funded 1))
           true "事件 #1 已删除").
  vm_compute. reflexivity.
Defined.

(** Its id, 1, does not come back. *)
Lemma event_1_is_gone_for_good :
  Forall (fun e => id_of e <> Some 1) (events (fst (delete_event funded 1)))
  /\ forall ev eng'' r,
       add_event (fst (delete_event funded 1)) ev = (eng'', r) ->
       Forall (fun e => id_of e <> Some 1) (events eng'').
Proof.
  apply (a_deleted_id_is_gone_for_good funded 1 (fst (delete_event funded 1))
           "事件 #1 已删除").
  - apply lh_add, lh_new.
  - vm_compute. reflexivity.
Defined.

(** Deleting the ids 5 and 9 from a log that holds the id 1. *)
Lemma deleting_unknown_ids :
  delete_events funded [5; 9] = (funded, Ok (true, ["No events deleted (IDs not found)"])).
Proof.
  apply (delete_events_without_a_match_succeeds funded [5; 9]).
  - apply lh_add, lh_new.
  - repeat constructor.
Defined.

(** Deleting the only event of a log, in a batch. *)
Lemma batch_deleting_the_only_event :
  _event_id_counter (fst (delete_events funded [1])) = _event_id_counter funded
  /\ exists ok logs,
       snd (delete_events funded [1]) = Ok (ok, logs)
       /\ if ok then
            Forall2 same_payload
              (List.filter (fun e => negb (to_delete [1] e)) (events funded))
              (events (fst (delete_events funded [1])))
          else Forall2 same_payload (events funded) (events (fst (delete_events funded [1]))).
Proof.
  apply (delete_events_removes_all_matches_or_nothing funded [1]).
  - apply lh_add, lh_new.
  - by destruct (delete_events funded [1]).
Defined.

(** Turning the gain of an engine without a save file into a marker that
    cannot be replayed fails, and empties the log. *)
Lemma failed_modification_of_an_unsaved_log :
  let eng' := fst (modify_event funded None 1 bad_marker) in
  let r := snd (modify_event funded None 1 bad_marker) in
  r = Ok (false, "重算失败: unsupported operand type(s) for +=: 'int' and 'str'")
  /\ ((r = Ok (false, not_found 1) /\ eng' = funded)
      \/ (r = Ok (true, "事件已修改，状态已重算")
          /\ _event_id_counter eng' = _event_id_counter funded
          /\ exists i, find_event 1 (events funded) = Some i
               /\ Forall2 same_payload
                    (alter (fun evt => bad_marker ∪ evt) i (events funded)) (events eng'))
      \/ (((exists msg, r = Ok (false, msg)) \/ (exists x, r = Err x))
          /\ events eng' = [] /\ _event_id_counter eng' = 0)).
Proof.
  split; [vm_compute; reflexivity|].
  apply (modify_event_updates_in_place_or_reloads_the_file funded None 1 bad_marker).
  by destruct (modify_event funded None 1 bad_marker).
Defined.

(** The two buffs of [blessed]. *)
Lemma ids_of_the_blessed :
  NoDup (List.map TemporalState.id (TemporalState.active_buffs blessed))
  /\ forall b, In b (TemporalState.active_buffs blessed) ->
       exists k, 0 <= k <= TemporalState._buff_id_counter blessed
                 /\ TemporalState.id b = TemporalState.buff_id k.
Proof. apply (active_buff_ids_are_distinct blessed). apply bh_add, bh_add, bh_new. Defined.

(** The aura, added second, is [buff_002]. *)
Lemma the_aura_is_found_and_removed :
  (exists b,
     TemporalState.get_buff_by_id blessed "buff_002" = Some b
     /\ TemporalState.name b = VStr "Aura"
     /\ TemporalState.expiry_type b = VStr "permanent"
     /\ TemporalState.expiry_value b = VNone)
  /\ TemporalState.get_buff_by_id focused "buff_002" = None
  /\ TemporalState.remove_buff blessed "buff_002"
     = ({| TemporalState.active_buffs := TemporalState.active_buffs focused;
           TemporalState._buff_id_counter := TemporalState._buff_id_counter focused + 1 |},
        true).
Proof.
  apply (added_buff_is_found_and_removed_alone focused (VStr "Aura") [("Attack", VInt 10)]
           (VStr "permanent") VNone (VStr "") blessed "buff_002").
  - apply bh_add, bh_new.
  - vm_compute. reflexivity.
Defined.

(** At 600 words the focus expires; a second check finds nothing. *)
Lemma focus_expires_once :
  TemporalState.check_expiry (fst (TemporalState.check_expiry focused 0 600 VNone)) 0 600 VNone
  = (fst (TemporalState.check_expiry focused 0 600 VNone), Ok []).
Proof.
  apply (check_expiry_is_idempotent focused 0 600 VNone
           (fst (TemporalState.check_expiry focused 0 600 VNone)) ["buff_001"]).
  vm_compute. reflexivity.
Defined.

(** The permanent aura stays, whatever the chapter, the word count and
    the time. *)
Lemma the_aura_outlasts_every_context :
  In {| TemporalState.id := "buff_002"; TemporalState.name := VStr "Aura";
        TemporalState.effects := [("Attack", PyDecimal.of_Z 10)];
        TemporalState.expiry_type := VStr "permanent";
        TemporalState.expiry_value := VNone;
        TemporalState.description := VStr "" |}
     (TemporalState.active_buffs
        (fst (TemporalState.check_expiry blessed 99 99999 (VStr "2999-01-01")))).
Proof.
  apply (only_timed_buffs_expire blessed 99 99999 (VStr "2999-01-01")).
  - right. left. reflexivity.
  - reflexivity.
  - reflexivity.
  - reflexivity.
Defined.

(** The two buffs of [blessed], written and read back. *)
Lemma the_blessed_survive_saving :
  exists counter,
    TemporalState.from_dict TemporalState.empty (TemporalState.to_dict blessed)
    = ({| TemporalState.active_buffs := TemporalState.active_buffs blessed;
          TemporalState._buff_id_counter := counter |}, None)
    /\ TemporalState._buff_id_counter TemporalState.empty <= counter
    /\ counter <= Z.max (TemporalState._buff_id_counter TemporalState.empty)
                        (TemporalState._buff_id_counter blessed)
    /\ Forall (fun b => exists k, 0 <= k <= counter
                                  /\ TemporalState.id b = TemporalState.buff_id k)
              (TemporalState.active_buffs blessed).
Proof.
  apply (buffs_survive_to_dict_and_from_dict TemporalState.empty blessed).
  - apply bh_add, bh_add, bh_new.
  - by vm_compute.
Defined.

(** The one rule of the halving engine. *)
Lemma ids_of_the_halving_rules :
  NoDup (List.map RuleEngine.id (RuleEngine.active_rules (rule_engine halving)))
  /\ forall r, In r (RuleEngine.active_rules (rule_engine halving)) ->
       exists k, 0 <= k <= RuleEngine._rule_id_counter (rule_engine halving)
                 /\ RuleEngine.id r = rule_id k.
Proof. apply (active_rule_ids_are_distinct (rule_engine halving)). apply rh_add, rh_new. Defined.


(** A chapter start has no value to halve. *)
Lemma a_marker_passes_the_rules :
  RuleEngine.apply_rules (rule_engine halving) chapter_start = Ok chapter_start.
Proof.
  apply (apply_rules_leaves_an_event_without_value (rule_engine halving) chapter_start).
  reflexivity.
Defined.

(** The doubling rule waits for chapter 3, so it is never applied. *)
Lemma the_late_bonus_is_not_applied :
  RuleEngine.apply_rules conditional (gold "gain" "100" "GP") = Ok (gold "gain" "100" "GP").
Proof.
  apply (conditional_rules_are_never_applied conditional (gold "gain" "100" "GP")).
  repeat constructor.
Defined.


(** Registering [A] leaves [Q = x / y] as it is. *)
Lemma registering_A_leaves_Q :
  od_get String.eqb
    (FormulaEngine.formulas (fst (FormulaEngine.register_formula quotient "A" "B * 2"))) "Q"
  = od_get String.eqb (FormulaEngine.formulas quotient) "Q"
  /\ od_get String.eqb
       (FormulaEngine.dirty_flags (fst (FormulaEngine.register_formula quotient "A" "B * 2")))
       "Q"
     = od_get String.eqb (FormulaEngine.dirty_flags quotient) "Q"
  /\ od_get String.eqb
       (FormulaEngine.dependencies (fst (FormulaEngine.register_formula quotient "A" "B * 2")))
       "Q"
     = od_get String.eqb (FormulaEngine.dependencies quotient) "Q".
Proof.
  apply (register_formula_touches_only_its_field quotient "A" "B * 2" "Q"). discriminate.
Defined.

(** Redefining [Q] as [Q + 1] is rejected, and [Q] is gone. *)
Lemma a_rejected_redefinition_erases_Q :
  od_get String.eqb (FormulaEngine.formulas quotient) "Q" = Some "x / y"
  /\ od_get String.eqb
       (FormulaEngine.formulas (fst (FormulaEngine.register_formula quotient "Q" "Q + 1"))) "Q"
     = None
  /\ od_get String.eqb
       (FormulaEngine.dirty_flags (fst (FormulaEngine.register_formula quotient "Q" "Q + 1")))
       "Q" = None
  /\ od_get String.eqb
       (FormulaEngine.dependencies (fst (FormulaEngine.register_formula quotient "Q" "Q + 1")))
       "Q" = None.
Proof.
  split; [reflexivity|].
  apply (a_rejected_registration_unregisters_the_field quotient "Q" "Q + 1"
           (fst (FormulaEngine.register_formula quotient "Q" "Q + 1"))
           (Raise ValueError "Circular dependency detected: Q → Q")).
  - repeat split; vm_compute; apply NoDup_singleton.
  - vm_compute. reflexivity.
Defined.

(** [A = A + 1] is rejected. *)
Lemma a_formula_of_itself_is_rejected :
  exists cycle,
    snd (FormulaEngine.register_formula FormulaEngine.empty "A" "A + 1")
    = Some (Raise ValueError ("Circular dependency detected: " ++ cycle)).
Proof.
  apply (a_formula_naming_itself_is_rejected FormulaEngine.empty "A" "A + 1").
  vm_compute. left. reflexivity.
Defined.

(** [Q] is calculated by the first pass and not by the second. *)
Lemma the_quotient_is_calculated_once :
  snd (FormulaEngine.recalculate_all_dirty quotient (xy 6 3)) = Ok [("Q", PyDecimal.of_Z 2)]
  /\ FormulaEngine.recalculate_all_dirty
       (fst (FormulaEngine.recalculate_all_dirty quotient (xy 6 3))) (xy 6 3)
     = (fst (FormulaEngine.recalculate_all_dirty quotient (xy 6 3)), Ok []).
Proof.
  split; [vm_compute; reflexivity|].
  apply (recalculate_all_dirty_leaves_nothing_dirty quotient (xy 6 3)
           (fst (FormulaEngine.recalculate_all_dirty quotient (xy 6 3)))
           [("Q", PyDecimal.of_Z 2)]).
  vm_compute. reflexivity.
Defined.

(** After the pass, a change of [x] flags [Q] again. *)
Lemma a_change_of_x_flags_Q :
  od_get String.eqb
    (FormulaEngine.dirty_flags
       (FormulaEngine.mark_dirty
          (fst (FormulaEngine.recalculate_all_dirty quotient (xy 6 3))) (VStr "x"))) "Q"
  = match od_get String.eqb
            (FormulaEngine.dependencies
               (fst (FormulaEngine.recalculate_all_dirty quotient (xy 6 3)))) "Q" with
    | Some deps =>
        if existsb (fun d => Py.eqb (VStr "x") (VStr d)) deps then Some true
        else od_get String.eqb
               (FormulaEngine.dirty_flags
                  (fst (FormulaEngine.recalculate_all_dirty quotient (xy 6 3)))) "Q"
    | None => od_get String.eqb
                (FormulaEngine.dirty_flags
                   (fst (FormulaEngine.recalculate_all_dirty quotient (xy 6 3)))) "Q"
    end.
Proof.
  apply (mark_dirty_flags_the_direct_dependents
           (fst (FormulaEngine.recalculate_all_dirty quotient (xy 6 3))) (VStr "x") "Q").
  repeat split; vm_compute; apply NoDup_singleton.
Defined.

End witnesses.
